(** * Todo AI chatbot: tool layer, conversation store and agent orchestrator

    A shallow embedding of the Python backend (FastAPI + SQLModel):

    - [src/models/*.py]            the three persisted row types;
    - [src/services/chat_service.py]  conversation and message store;
    - [src/mcp/tools/*.py]         the five task tools;
    - [src/agent/agent.py]         the orchestrator around the reasoning call;
    - [src/api/chat.py], [src/api/tasks.py]  the HTTP handlers.

    Python code that awaits a database session is written in a small
    state-and-exception monad over a [World] holding the three tables.
    Everything the interpreter or an external service decides (the clock,
    [uuid4], [UUID(...)] parsing, ISO-8601 parsing, database faults, the
    reasoning service) is a field of a [Runtime] record, so each theorem
    holds for every behaviour of those collaborators. *)

From Stdlib Require Import ZArith NArith Lia String Ascii List Bool DecimalString Sorted.
From stdpp Require Import base option gmap strings list fin_maps.

Local Open Scope string_scope.
Local Open Scope Z_scope.

(** ** Python strings

    A [str] is a sequence of code points below 256. *)

Module Py.

(** [chr(10)] *)
Definition nl : string := String (ascii_of_nat 10) EmptyString.

(** [c.isspace()] for a code point below 256: TAB..CR, FS..US, space,
    NEL and NBSP. *)
Definition isspace (c : ascii) : bool :=
  let n := nat_of_ascii c in
  ((9 <=? n) && (n <=? 13))%nat || ((28 <=? n) && (n <=? 32))%nat
  || (n =? 133)%nat || (n =? 160)%nat.

Fixpoint lstrip (s : string) : string :=
  match s with
  | EmptyString => EmptyString
  | String c t => if isspace c then lstrip t else s
  end.

(** [s.rstrip()], right to left: a character is dropped when everything
    after it has been dropped and it is white space itself. *)
Fixpoint rstrip (s : string) : string :=
  match s with
  | EmptyString => EmptyString
  | String c t =>
      match rstrip t with
      | EmptyString => if isspace c then EmptyString else String c EmptyString
      | t' => String c t'
      end
  end.

(** [s.strip()] *)
Definition strip (s : string) : string := rstrip (lstrip s).

(** [bool(s)] for a string: non-empty. *)
Definition truthy (s : string) : bool :=
  match s with EmptyString => false | _ => true end.

(** [not s or not s.strip()] *)
Definition blank (s : string) : bool := negb (truthy s) || negb (truthy (strip s)).

(** [needle in hay] for strings. *)
Fixpoint contains (needle hay : string) : bool :=
  String.prefix needle hay
  || match hay with
     | EmptyString => false
     | String _ t => contains needle t
     end.

(** [x in xs] for a list of strings. *)
Definition mem (x : string) (xs : list string) : bool :=
  existsb (String.eqb x) xs.

(** [s.replace('Z', '+00:00')] *)
Fixpoint replace_Z (s : string) : string :=
  match s with
  | EmptyString => EmptyString
  | String c t =>
      if Ascii.eqb c "Z"%char then "+00:00" ++ replace_Z t
      else String c (replace_Z t)
  end.

(** [str(n)] for a non-negative integer. *)
Definition str_nat (n : nat) : string := NilZero.string_of_uint (Nat.to_uint n).

(** [sep.join(xs)] *)
Fixpoint join (sep : string) (xs : list string) : string :=
  match xs with
  | [] => EmptyString
  | [x] => x
  | x :: rest => x ++ sep ++ join sep rest
  end.

(** [repr(xs)] for a list of strings without quotes or escapes in them,
    as interpolated by an f-string: ['a', 'b']. *)
Definition repr_list (xs : list string) : string :=
  "[" ++ join ", " (map (fun x => "'" ++ x ++ "'") xs) ++ "]".

End Py.

(** ** Exceptions *)

(** The exception classes the code raises or catches.  [DBAPIError] stands
    for whatever the session raises (it is an [Exception] but not a
    [ValueError]); [HTTPException] carries a status code. *)
Inductive exn : Type :=
| ValueError (msg : string)
| TypeError (msg : string)
| DBAPIError (msg : string)
| HTTPException (status_code : nat) (detail : string).

(** [str(e)] *)
Definition exn_str (e : exn) : string :=
  match e with
  | ValueError m | TypeError m | DBAPIError m => m
  | HTTPException _ d => d
  end.

Inductive outcome (A : Type) : Type :=
| Return (a : A)
| Raise (e : exn).
Arguments Return {A} a.
Arguments Raise {A} e.

(** ** Rows ([src/models]) *)

(** A [UUID] is its 128-bit integer, a [datetime] a point on the time
    line. *)
Abbreviation UUID := N (only parsing).
Abbreviation datetime := Z (only parsing).

Module Task.
Record t : Type := mk {
  id : UUID;
  user_id : UUID;
  title : string;
  completed : bool;
  priority : string;
  due_date : option datetime;
  tags : option string;
  created_at : datetime;
  updated_at : datetime
}.
End Task.

Module Conversation.
Record t : Type := mk {
  id : UUID;
  user_id : UUID;
  created_at : datetime
}.
End Conversation.

Module Message.
Record t : Type := mk {
  id : UUID;
  conversation_id : UUID;
  role : string;
  content : string;
  created_at : datetime
}.
End Message.

(** ** The reasoning service's answer *)

(** A JSON value as [json.loads] yields it; numbers, arrays and objects
    never match a parameter of a tool schema and are kept opaque. *)
Inductive json : Type :=
| JNull
| JBool (b : bool)
| JStr (s : string)
| JOther.

(** [tool_call.function]: the name, and what [json.loads] makes of the
    argument text; [None] when [json.loads] raises or yields something
    that is not a dict. *)
Record ToolCall : Type := {
  function_name : string;
  function_arguments : option (gmap string json)
}.

(** [response.choices[0].message] *)
Record Response : Type := {
  tool_calls : list ToolCall;
  message_content : option string
}.

(** ** The world *)

(** One entry per round trip to the database or to the reasoning
    service, oldest first. *)
Inductive Event : Type :=
| EvSelectConversation (cid uid : UUID)
| EvSelectMessages (cid : UUID)
| EvSelectTask (tid : UUID)
| EvSelectTasks (uid : UUID) (filter_completed : option bool)
| EvInsertTask (tid : UUID)
| EvUpdateTask (tid : UUID)
| EvDeleteTask (tid : UUID)
| EvInsertConversation (cid : UUID)
| EvInsertMessage (cid : UUID) (role content : string)
| EvRefresh (id : UUID)
| EvReason.

(** The tables and the counters of the collaborators.  [todo_tasks] and
    [todo_conversations] are keyed by their primary key; [todo_messages]
    keeps its rows in insertion order. *)
Record World : Type := mkWorld {
  tasks : gmap N Task.t;
  conversations : gmap N Conversation.t;
  messages : list Message.t;
  ticks : nat;
  draws : nat;
  ops : nat;
  trace : list Event
}.

Definition set_tasks (f : gmap N Task.t -> gmap N Task.t) (w : World) : World :=
  mkWorld (f (tasks w)) (conversations w) (messages w) (ticks w) (draws w) (ops w) (trace w).

Definition set_conversations
  (f : gmap N Conversation.t -> gmap N Conversation.t) (w : World) : World :=
  mkWorld (tasks w) (f (conversations w)) (messages w) (ticks w) (draws w) (ops w) (trace w).

Definition set_messages (f : list Message.t -> list Message.t) (w : World) : World :=
  mkWorld (tasks w) (conversations w) (f (messages w)) (ticks w) (draws w) (ops w) (trace w).

(** What the interpreter and the external services decide. *)
Record Runtime : Type := {
  (** [datetime.utcnow()], k-th reading *)
  utcnow_at : nat -> datetime;
  (** [uuid4()], k-th draw *)
  uuid4_at : nat -> UUID;
  (** the k-th round trip to the database fails with this text *)
  db_fault : nat -> option string;
  (** where the statement leaves the order of two rows open (no
      [ORDER BY], or equal sort keys), the engine hands out the row with
      the first primary key before the row with the second: the order
      of its scan, which the code neither knows nor decides *)
  scan_before : UUID -> UUID -> bool;
  (** [UUID(s)]; [None] when it raises [ValueError] *)
  uuid_of_str : string -> option UUID;
  (** [str(u)] *)
  str_of_uuid : UUID -> string;
  (** [datetime.fromisoformat(s)]; [None] when it raises [ValueError] *)
  fromisoformat : string -> option datetime;
  (** [d.isoformat()] *)
  isoformat : datetime -> string;
  (** the text [_get_system_prompt] returns *)
  system_prompt : string;
  (** [client.chat.completions.create(...)] on the role-tagged prompt;
      [inl msg] when it raises, [msg] being [str(e)] *)
  completions_create : list (string * string) -> string + Response
}.

(** ** The monad of awaited code *)

Definition M (A : Type) : Type := World -> outcome A * World.

Definition ret {A} (a : A) : M A := fun w => (Return a, w).

Definition raise {A} (e : exn) : M A := fun w => (Raise e, w).

Definition bind {A B} (m : M A) (k : A -> M B) : M B :=
  fun w =>
    match m w with
    | (Return a, w') => k a w'
    | (Raise e, w') => (Raise e, w')
    end.

(** [try: m  except Exception as e: h e] *)
Definition try_except {A} (m : M A) (h : exn -> M A) : M A :=
  fun w =>
    match m w with
    | (Return a, w') => (Return a, w')
    | (Raise e, w') => h e w'
    end.

Definition get_world : M World := fun w => (Return w, w).

Definition modify (f : World -> World) : M unit := fun w => (Return tt, f w).

Notation "'let*' x ':=' m 'in' k" := (bind m (fun x => k))
  (at level 10, x name, m at level 100, k at level 200).

Section WithRuntime.

Context (rt : Runtime).

(** [datetime.utcnow()] *)
Definition utcnow : M datetime :=
  fun w =>
    (Return (utcnow_at rt (ticks w)),
     mkWorld (tasks w) (conversations w) (messages w) (S (ticks w)) (draws w) (ops w) (trace w)).

(** [uuid4()] *)
Definition uuid4 : M UUID :=
  fun w =>
    (Return (uuid4_at rt (draws w)),
     mkWorld (tasks w) (conversations w) (messages w) (ticks w) (S (draws w)) (ops w) (trace w)).

(** One awaited call on the session: it is recorded, and it raises when
    the database fails at this point, be it the connection or the
    statement itself (a value longer than its VARCHAR column, a foreign
    key that points nowhere): whether and where it does is the
    runtime's [db_fault]. *)
Definition round_trip (ev : Event) : M unit :=
  fun w =>
    let w' := mkWorld (tasks w) (conversations w) (messages w) (ticks w) (draws w)
                      (S (ops w)) (trace w ++ [ev])%list in
    match db_fault rt (ops w) with
    | Some msg => (Raise (DBAPIError msg), w')
    | None => (Return tt, w')
    end.

(** The text of the engine's primary-key violation. *)
Definition duplicate_key : string := "duplicate key value violates unique constraint".

(** ** ChatService ([src/services/chat_service.py]) *)

(** The dict [create_conversation] returns. *)
Record ConversationDict : Type := {
  cd_conversation_id : string;
  cd_user_id : string;
  cd_created_at : datetime
}.

(** One entry of the list [get_conversation_history] returns. *)
Record HistoryEntry : Type := {
  h_id : string;
  h_role : string;
  h_content : string;
  h_created_at : datetime
}.

(** The dict [save_message] returns. *)
Record MessageDict : Type := {
  md_message_id : string;
  md_conversation_id : string;
  md_role : string;
  md_content : string;
  md_created_at : datetime
}.

(** [session.add(conversation); await session.commit()] *)
Definition commit_insert_conversation (c : Conversation.t) : M unit :=
  let* _ := round_trip (EvInsertConversation (Conversation.id c)) in
  fun w =>
    match conversations w !! Conversation.id c with
    | Some _ => (Raise (DBAPIError duplicate_key), w)
    | None => (Return tt, set_conversations (insert (Conversation.id c) c) w)
    end.

Definition create_conversation (user_id : UUID) : M ConversationDict :=
  let* now := utcnow in
  let* cid := uuid4 in
  let conversation := Conversation.mk cid user_id now in
  let* _ := commit_insert_conversation conversation in
  let* _ := round_trip (EvRefresh cid) in
  ret {| cd_conversation_id := str_of_uuid rt (Conversation.id conversation);
         cd_user_id := str_of_uuid rt (Conversation.user_id conversation);
         cd_created_at := Conversation.created_at conversation |}.

(** The rows of a result in the order [before] gives them: a row goes
    in front of the first row that comes after it. *)
Fixpoint insert_by {A} (before : A -> A -> bool) (x : A) (sorted : list A) : list A :=
  match sorted with
  | [] => [x]
  | y :: rest =>
      if before x y then x :: sorted else y :: insert_by before x rest
  end.

Definition sort_by {A} (before : A -> A -> bool) (rows : list A) : list A :=
  foldr (insert_by before) [] rows.

(** [ORDER BY created_at ASC]: the statement has no second sort key, so
    rows with equal [created_at] come as the engine's scan hands them
    out. *)
Definition created_before (m x : Message.t) : bool :=
  (Message.created_at m <? Message.created_at x)
  || ((Message.created_at m =? Message.created_at x)
      && scan_before rt (Message.id m) (Message.id x)).

Definition order_by_created_at (rows : list Message.t) : list Message.t :=
  sort_by created_before rows.

(** [WHERE conversation_id = cid] *)
Definition where_conversation (cid : UUID) (rows : list Message.t) : list Message.t :=
  List.filter (fun m => N.eqb (Message.conversation_id m) cid) rows.

Definition history_entry (msg : Message.t) : HistoryEntry :=
  {| h_id := str_of_uuid rt (Message.id msg);
     h_role := Message.role msg;
     h_content := Message.content msg;
     h_created_at := Message.created_at msg |}.

Definition get_conversation_history (conversation_id user_id : UUID)
  : M (option (list HistoryEntry)) :=
  let* _ := round_trip (EvSelectConversation conversation_id user_id) in
  let* w := get_world in
  match conversations w !! conversation_id with
  | None => ret None
  | Some conversation =>
      if negb (N.eqb (Conversation.user_id conversation) user_id) then ret None
      else
        let* _ := round_trip (EvSelectMessages conversation_id) in
        let* w := get_world in
        let rows := order_by_created_at (where_conversation conversation_id (messages w)) in
        ret (Some (map history_entry rows))
  end.

(** [session.add(message); await session.commit()].  The foreign key to
    [todo_conversations] is left to the engine and not enforced here. *)
Definition commit_insert_message (m : Message.t) : M unit :=
  let* _ := round_trip (EvInsertMessage (Message.conversation_id m) (Message.role m)
                                         (Message.content m)) in
  fun w =>
    if existsb (fun x => N.eqb (Message.id x) (Message.id m)) (messages w)
    then (Raise (DBAPIError duplicate_key), w)
    else (Return tt, set_messages (fun l => (l ++ [m])%list) w).

Definition save_message (conversation_id : UUID) (role content : string) : M MessageDict :=
  if negb (Py.mem role ["user"; "assistant"]) then
    raise (ValueError ("Invalid role: " ++ role ++ ". Must be 'user' or 'assistant'"))
  else if Py.blank content then
    raise (ValueError "Message content cannot be empty")
  else
    let* now := utcnow in
    let* mid := uuid4 in
    let message := Message.mk mid conversation_id role (Py.strip content) now in
    let* _ := commit_insert_message message in
    let* _ := round_trip (EvRefresh mid) in
    ret {| md_message_id := str_of_uuid rt (Message.id message);
           md_conversation_id := str_of_uuid rt (Message.conversation_id message);
           md_role := Message.role message;
           md_content := Message.content message;
           md_created_at := Message.created_at message |}.

(** ** The five tools ([src/mcp/tools]) *)

(** An entry of [list_tasks]' "tasks" array. *)
Record TaskJson : Type := {
  j_task_id : string;
  j_title : string;
  j_completed : bool;
  j_priority : string;
  j_due_date : option string;
  j_tags : option string;
  j_created_at : string;
  j_updated_at : string
}.

(** The flat dicts the tools serialise with [json.dumps]; the orchestrator
    reads them back with [json.loads], so the text in between is not
    represented. *)
Inductive ToolResult : Type :=
| AddResult (task_id status title : string) (completed : bool) (priority : string)
            (due_date tags : option string) (created_at : string)
| ListResult (tasks : list TaskJson) (count : nat)
| CompleteResult (task_id status title : string) (completed : bool) (updated_at : string)
| DeleteResult (task_id status title : string)
| UpdateResult (task_id status title : string) (completed : bool) (priority : string)
               (due_date tags : option string) (updated_at : string).

Definition valid_priorities : list string := ["low"; "medium"; "high"].

(** [try: UUID(s)  except ValueError: raise ValueError(msg)] *)
Definition UUID_or_raise (s msg : string) : M UUID :=
  match uuid_of_str rt s with
  | Some u => ret u
  | None => raise (ValueError msg)
  end.

(** [bool(x)] for [x : Optional[str]] *)
Definition truthy_opt (x : option string) : bool :=
  match x with Some s => Py.truthy s | None => false end.

(** [d.isoformat() if d else None] *)
Definition isoformat_opt (d : option datetime) : option string :=
  match d with Some d => Some (isoformat rt d) | None => None end.

(** [session.add(task); await session.commit()].  The primary key is
    checked here; any other refusal of the row by the engine, the
    length limits of the columns among them, is a fault of the round
    trip. *)
Definition commit_insert_task (t : Task.t) : M unit :=
  let* _ := round_trip (EvInsertTask (Task.id t)) in
  fun w =>
    match tasks w !! Task.id t with
    | Some _ => (Raise (DBAPIError duplicate_key), w)
    | None => (Return tt, set_tasks (insert (Task.id t) t) w)
    end.

(** [await session.commit()] after attribute assignments on a loaded
    row.  A refusal of the new values by the engine, the length limits
    of the columns among them, is a fault of the round trip. *)
Definition commit_update_task (t : Task.t) : M unit :=
  let* _ := round_trip (EvUpdateTask (Task.id t)) in
  modify (set_tasks (insert (Task.id t) t)).

(** [await session.delete(task); await session.commit()] *)
Definition commit_delete_task (tid : UUID) : M unit :=
  let* _ := round_trip (EvDeleteTask tid) in
  modify (set_tasks (delete tid)).

(** [except Exception as e: await session.rollback();
     raise ValueError(f"DATABASE_ERROR: {str(e)}")] *)
Definition database_error {A} (e : exn) : M A :=
  raise (ValueError ("DATABASE_ERROR: " ++ exn_str e)).

(** The two handlers that close the [try] of complete, delete and
    update: a [ValueError] naming TASK_NOT_FOUND or INVALID is re-raised,
    anything else becomes a DATABASE_ERROR. *)
Definition reraise_custom {A} (e : exn) : M A :=
  match e with
  | ValueError m =>
      if Py.contains "TASK_NOT_FOUND" m || Py.contains "INVALID" m then raise e
      else raise (ValueError ("DATABASE_ERROR: " ++ m))
  | _ => database_error e
  end.

Definition add_task (user_id : string) (title priority due_date tags : option string)
  : M ToolResult :=
  let* user_uuid := UUID_or_raise user_id "INVALID_USER_ID: user_id must be a valid UUID" in
  if negb (truthy_opt title) || negb (Py.truthy (Py.strip (default "" title))) then
    raise (ValueError "INVALID_TITLE: title cannot be empty")
  else
  let title := Py.strip (default "" title) in
  if (500 <? String.length title)%nat then
    raise (ValueError "INVALID_TITLE: title cannot exceed 500 characters")
  else if truthy_opt priority && negb (Py.mem (default "" priority) valid_priorities) then
    raise (ValueError ("INVALID_PRIORITY: priority must be one of "
                       ++ Py.repr_list valid_priorities))
  else
  let* parsed_due_date :=
    (if truthy_opt due_date then
       match fromisoformat rt (Py.replace_Z (default "" due_date)) with
       | Some d => ret (Some d)
       | None => raise (ValueError
           "INVALID_DUE_DATE: due_date must be ISO format (e.g., 2025-01-25T10:30:00)")
       end
     else ret None) in
  let* tid := uuid4 in
  let* created := utcnow in
  let* updated := utcnow in
  let task := Task.mk tid user_uuid title false
                      (if truthy_opt priority then default "" priority else "medium")
                      parsed_due_date tags created updated in
  try_except
    (let* _ := commit_insert_task task in
     let* _ := round_trip (EvRefresh tid) in
     ret (AddResult (str_of_uuid rt (Task.id task)) "created" (Task.title task)
                    (Task.completed task) (Task.priority task)
                    (isoformat_opt (Task.due_date task)) (Task.tags task)
                    (isoformat rt (Task.created_at task))))
    database_error.

Definition task_json (task : Task.t) : TaskJson :=
  {| j_task_id := str_of_uuid rt (Task.id task);
     j_title := Task.title task;
     j_completed := Task.completed task;
     j_priority := Task.priority task;
     j_due_date := isoformat_opt (Task.due_date task);
     j_tags := Task.tags task;
     j_created_at := isoformat rt (Task.created_at task);
     j_updated_at := isoformat rt (Task.updated_at task) |}.

(** A [SELECT] without [ORDER BY]: the rows come as the engine's scan
    hands them out. *)
Definition unordered (rows : list Task.t) : list Task.t :=
  sort_by (fun a b => scan_before rt (Task.id a) (Task.id b)) rows.

(** [WHERE user_id = u [AND completed = f]] *)
Definition where_owner (user_uuid : UUID) (filter_completed : option bool) (t : Task.t) : bool :=
  N.eqb (Task.user_id t) user_uuid
  && match filter_completed with
     | Some f => Bool.eqb (Task.completed t) f
     | None => true
     end.

Definition list_tasks (user_id : string) (filter_completed : option bool) : M ToolResult :=
  let* user_uuid := UUID_or_raise user_id "INVALID_USER_ID: user_id must be a valid UUID" in
  try_except
    (let* _ := round_trip (EvSelectTasks user_uuid filter_completed) in
     let* w := get_world in
     let rows := unordered (List.filter (where_owner user_uuid filter_completed)
                                        (map snd (map_to_list (tasks w)))) in
     let tasks_list := map task_json rows in
     ret (ListResult tasks_list (length tasks_list)))
    database_error.

(** [select(Task).where(Task.id == task_uuid)], [scalar_one_or_none()],
    then the two TASK_NOT_FOUND checks shared by complete, delete and
    update. *)
Definition get_owned_task (task_uuid user_uuid : UUID) : M Task.t :=
  let* _ := round_trip (EvSelectTask task_uuid) in
  let* w := get_world in
  match tasks w !! task_uuid with
  | None => raise (ValueError "TASK_NOT_FOUND: Task does not exist")
  | Some task =>
      if negb (N.eqb (Task.user_id task) user_uuid) then
        raise (ValueError "TASK_NOT_FOUND: Task belongs to different user")
      else ret task
  end.

Definition complete_task (user_id task_id : string) : M ToolResult :=
  let* user_uuid := UUID_or_raise user_id "INVALID_USER_ID: user_id must be a valid UUID" in
  let* task_uuid := UUID_or_raise task_id "INVALID_TASK_ID: task_id must be a valid UUID" in
  try_except
    (let* task := get_owned_task task_uuid user_uuid in
     let* now := utcnow in
     let task := Task.mk (Task.id task) (Task.user_id task) (Task.title task) true
                         (Task.priority task) (Task.due_date task) (Task.tags task)
                         (Task.created_at task) now in
     let* _ := commit_update_task task in
     let* _ := round_trip (EvRefresh (Task.id task)) in
     ret (CompleteResult (str_of_uuid rt (Task.id task)) "completed" (Task.title task)
                         (Task.completed task) (isoformat rt (Task.updated_at task))))
    reraise_custom.

Definition delete_task (user_id task_id : string) : M ToolResult :=
  let* user_uuid := UUID_or_raise user_id "INVALID_USER_ID: user_id must be a valid UUID" in
  let* task_uuid := UUID_or_raise task_id "INVALID_TASK_ID: task_id must be a valid UUID" in
  try_except
    (let* task := get_owned_task task_uuid user_uuid in
     let task_title := Task.title task in
     let* _ := commit_delete_task (Task.id task) in
     ret (DeleteResult (str_of_uuid rt task_uuid) "deleted" task_title))
    reraise_custom.

(** The sparse patch of [update_task]: [None] is Python's [None]. *)
Record Patch : Type := {
  new_title : option string;
  p_completed : option bool;
  p_priority : option string;
  p_due_date : option string;
  p_tags : option string
}.

(** The field assignments of [update_task] on a loaded row. *)
Definition apply_patch (task : Task.t) (new_title : option string) (completed : option bool)
  (priority : option string) (due_date : option string) (parsed_due_date : option datetime)
  (tags : option string) (now : datetime) : Task.t :=
  Task.mk (Task.id task) (Task.user_id task)
          (match new_title with Some s => s | None => Task.title task end)
          (match completed with Some b => b | None => Task.completed task end)
          (match priority with Some p => p | None => Task.priority task end)
          (match due_date with Some _ => parsed_due_date | None => Task.due_date task end)
          (match tags with Some s => Some s | None => Task.tags task end)
          (Task.created_at task) now.

Definition update_task (user_id task_id : string) (patch : Patch) : M ToolResult :=
  let* user_uuid := UUID_or_raise user_id "INVALID_USER_ID: user_id must be a valid UUID" in
  let* task_uuid := UUID_or_raise task_id "INVALID_TASK_ID: task_id must be a valid UUID" in
  let* new_title :=
    (match new_title patch with
     | None => ret None
     | Some s =>
         if Py.blank s then raise (ValueError "INVALID_TITLE: new_title cannot be empty")
         else if (500 <? String.length (Py.strip s))%nat then
           raise (ValueError "INVALID_TITLE: new_title cannot exceed 500 characters")
         else ret (Some (Py.strip s))
     end) in
  let* priority :=
    (match p_priority patch with
     | None => ret None
     | Some p =>
         if negb (Py.mem p valid_priorities) then
           raise (ValueError ("INVALID_PRIORITY: priority must be one of "
                              ++ Py.repr_list valid_priorities))
         else ret (Some p)
     end) in
  let* parsed_due_date :=
    (match p_due_date patch with
     | None => ret None
     | Some s =>
         match fromisoformat rt (Py.replace_Z s) with
         | Some d => ret (Some d)
         | None => raise (ValueError
             "INVALID_DUE_DATE: due_date must be ISO format (e.g., 2025-01-25T10:30:00Z)")
         end
     end) in
  let* tags :=
    (match p_tags patch with
     | None => ret None
     | Some s =>
         if (500 <? String.length (Py.strip s))%nat then
           raise (ValueError "INVALID_TAGS: tags cannot exceed 500 characters")
         else ret (Some (Py.strip s))
     end) in
  try_except
    (let* task := get_owned_task task_uuid user_uuid in
     let* now := utcnow in
     let task := apply_patch task new_title (p_completed patch) priority (p_due_date patch)
                             parsed_due_date tags now in
     let* _ := commit_update_task task in
     let* _ := round_trip (EvRefresh (Task.id task)) in
     ret (UpdateResult (str_of_uuid rt (Task.id task)) "updated" (Task.title task)
                       (Task.completed task) (Task.priority task)
                       (isoformat_opt (Task.due_date task)) (Task.tags task)
                       (isoformat rt (Task.updated_at task))))
    reraise_custom.

(** ** The orchestrator ([src/agent/agent.py]) *)

Inductive Tool : Type :=
| Tool_add_task
| Tool_list_tasks
| Tool_complete_task
| Tool_delete_task
| Tool_update_task.

(** [tools_map.get(function_name)] *)
Definition tools_map (function_name : string) : option Tool :=
  if String.eqb function_name "add_task" then Some Tool_add_task
  else if String.eqb function_name "list_tasks" then Some Tool_list_tasks
  else if String.eqb function_name "complete_task" then Some Tool_complete_task
  else if String.eqb function_name "delete_task" then Some Tool_delete_task
  else if String.eqb function_name "update_task" then Some Tool_update_task
  else None.

Definition tool_name (t : Tool) : string :=
  match t with
  | Tool_add_task => "add_task"
  | Tool_list_tasks => "list_tasks"
  | Tool_complete_task => "complete_task"
  | Tool_delete_task => "delete_task"
  | Tool_update_task => "update_task"
  end.

Definition required_params (t : Tool) : list string :=
  match t with
  | Tool_add_task => ["user_id"; "title"]
  | Tool_list_tasks => ["user_id"]
  | Tool_complete_task => ["user_id"; "task_id"]
  | Tool_delete_task => ["user_id"; "task_id"]
  | Tool_update_task => ["user_id"; "task_id"]
  end.

(** The keyword parameters of each tool function, [session] apart. *)
Definition keyword_params (t : Tool) : list string :=
  match t with
  | Tool_add_task => ["user_id"; "title"; "priority"; "due_date"; "tags"]
  | Tool_list_tasks => ["user_id"; "filter_completed"]
  | Tool_complete_task => ["user_id"; "task_id"]
  | Tool_delete_task => ["user_id"; "task_id"]
  | Tool_update_task =>
      ["user_id"; "task_id"; "new_title"; "completed"; "priority"; "due_date"; "tags"]
  end.

(** [p in function_args] *)
Definition has_key (function_args : gmap string json) (p : string) : bool :=
  match function_args !! p with Some _ => true | None => false end.

(** A parameter annotated [str]. *)
Definition str_arg (function_args : gmap string json) (k : string) : option string :=
  match function_args !! k with
  | Some (JStr s) => Some s
  | _ => None
  end.

(** A parameter annotated [str] that may be [None]; [dflt] is the
    default of the signature.  The inner option is the Python value,
    the outer one is [None] for a value of another JSON type. *)
Definition opt_str_arg (function_args : gmap string json) (k : string)
  (dflt : option string) : option (option string) :=
  match function_args !! k with
  | None => Some dflt
  | Some JNull => Some None
  | Some (JStr s) => Some (Some s)
  | Some _ => None
  end.

(** A parameter annotated [bool] with default [None]. *)
Definition opt_bool_arg (function_args : gmap string json) (k : string)
  : option (option bool) :=
  match function_args !! k with
  | None => Some None
  | Some JNull => Some None
  | Some (JBool b) => Some (Some b)
  | Some _ => None
  end.

(** A value whose JSON type is not the one the tool schema declares lies
    outside the tool's contract; the call is taken to fail with a
    [TypeError], the way [UUID(None)] or [5.strip()] do.  What the tool
    body itself makes of such a value (another exception class, or a
    falsy value taking the default) is abstracted to this one
    failure. *)
Definition mistyped {A} (t : Tool) : M A :=
  raise (TypeError (tool_name t ++ "() received an argument of an undeclared type")).

(** The call of the tool function with [function_args] unpacked as
    keyword arguments, and [session] as one more keyword argument. *)
Definition call_tool (t : Tool) (function_args : gmap string json) : M ToolResult :=
  if has_key function_args "session" then
    raise (TypeError (tool_name t ++ "() got multiple values for keyword argument 'session'"))
  else if negb (forallb (fun k => Py.mem k (keyword_params t))
                        (map fst (map_to_list function_args))) then
    raise (TypeError (tool_name t ++ "() got an unexpected keyword argument"))
  else
    match str_arg function_args "user_id" with
    | None => mistyped t
    | Some user_id =>
        match t with
        | Tool_add_task =>
            match opt_str_arg function_args "title" None,
                  opt_str_arg function_args "priority" (Some "medium"),
                  opt_str_arg function_args "due_date" None,
                  opt_str_arg function_args "tags" None with
            | Some title, Some priority, Some due_date, Some tags =>
                add_task user_id title priority due_date tags
            | _, _, _, _ => mistyped t
            end
        | Tool_list_tasks =>
            match opt_bool_arg function_args "filter_completed" with
            | Some filter_completed => list_tasks user_id filter_completed
            | None => mistyped t
            end
        | Tool_complete_task =>
            match str_arg function_args "task_id" with
            | Some task_id => complete_task user_id task_id
            | None => mistyped t
            end
        | Tool_delete_task =>
            match str_arg function_args "task_id" with
            | Some task_id => delete_task user_id task_id
            | None => mistyped t
            end
        | Tool_update_task =>
            match str_arg function_args "task_id",
                  opt_str_arg function_args "new_title" None,
                  opt_bool_arg function_args "completed",
                  opt_str_arg function_args "priority" None,
                  opt_str_arg function_args "due_date" None,
                  opt_str_arg function_args "tags" None with
            | Some task_id, Some new_title, Some completed, Some priority,
              Some due_date, Some tags =>
                update_task user_id task_id
                  {| new_title := new_title; p_completed := completed;
                     p_priority := priority; p_due_date := due_date; p_tags := tags |}
            | _, _, _, _, _, _ => mistyped t
            end
        end
    end.

Definition _execute_tool (function_name : string) (function_args : gmap string json)
  : M ToolResult :=
  match tools_map function_name with
  | None => raise (ValueError ("Unknown tool: " ++ function_name))
  | Some tool =>
      let missing := List.filter (fun p => negb (has_key function_args p))
                                 (required_params tool) in
      match missing with
      | _ :: _ => raise (ValueError ("Missing required parameters: " ++ Py.repr_list missing))
      | [] => try_except (call_tool tool function_args) (fun e => raise e)
      end
  end.

(** [result_data.get("status")], [.get("title")], [.get("tasks", [])],
    [.get("count", 0)] *)
Definition get_status (r : ToolResult) : option string :=
  match r with
  | AddResult _ s _ _ _ _ _ _ | CompleteResult _ s _ _ _ | DeleteResult _ s _
  | UpdateResult _ s _ _ _ _ _ _ => Some s
  | ListResult _ _ => None
  end.

Definition get_title (r : ToolResult) : option string :=
  match r with
  | AddResult _ _ t _ _ _ _ _ | CompleteResult _ _ t _ _ | DeleteResult _ _ t
  | UpdateResult _ _ t _ _ _ _ _ => Some t
  | ListResult _ _ => None
  end.

Definition get_tasks (r : ToolResult) : list TaskJson :=
  match r with ListResult ts _ => ts | _ => [] end.

Definition get_count (r : ToolResult) : nat :=
  match r with ListResult _ c => c | _ => 0%nat end.

(** [str(x)] inside an f-string, for [x : Optional[str]] *)
Definition fmt (x : option string) : string := default "None" x.

(** The two status glyphs, U+2713 and U+25CB, by their UTF-8 bytes. *)
Definition check_mark : string :=
  String (ascii_of_nat 226) (String (ascii_of_nat 156) (String (ascii_of_nat 147) EmptyString)).

Definition open_circle : string :=
  String (ascii_of_nat 226) (String (ascii_of_nat 151) (String (ascii_of_nat 139) EmptyString)).

Definition _format_task_for_display (index : nat) (task : TaskJson) : string :=
  let status := if j_completed task then check_mark else open_circle in
  let title := j_title task in
  let task_id := j_task_id task in
  let details :=
    app (if Py.truthy (j_priority task) && negb (String.eqb (j_priority task) "medium")
         then ["Priority: " ++ j_priority task] else [])
   (app (if truthy_opt (j_due_date task) then ["Due: " ++ fmt (j_due_date task)] else [])
        (if truthy_opt (j_tags task) then ["Tags: " ++ fmt (j_tags task)] else [])) in
  match details with
  | _ :: _ =>
      Py.str_nat (index + 1) ++ ". " ++ status ++ " " ++ title ++ Py.nl
      ++ "   (ID: " ++ task_id ++ ")" ++ Py.nl ++ "   [" ++ Py.join " | " details ++ "]"
  | [] =>
      Py.str_nat (index + 1) ++ ". " ++ status ++ " " ++ title ++ Py.nl
      ++ "   (ID: " ++ task_id ++ ")"
  end.

Definition _generate_response_from_result (function_name : string) (result : ToolResult)
  : string :=
  if String.eqb function_name "add_task" then
    if bool_decide (get_status result = Some "created")
    then "I've added the task '" ++ fmt (get_title result) ++ "' to your todo list."
    else "I tried to add the task but encountered an issue."
  else if String.eqb function_name "list_tasks" then
    let tasks := get_tasks result in
    let count := get_count result in
    if (count =? 0)%nat then "You don't have any tasks yet. You can ask me to add one!"
    else
      let task_list := Py.join Py.nl (imap _format_task_for_display tasks) in
      "Here are your " ++ Py.str_nat count ++ " task(s):" ++ Py.nl ++ task_list
      ++ Py.nl ++ Py.nl ++ "Tip: Refer to tasks by number or use the full ID."
  else if String.eqb function_name "complete_task" then
    if bool_decide (get_status result = Some "completed")
    then "I've marked the task '" ++ fmt (get_title result) ++ "' as completed."
    else "I tried to complete the task but encountered an issue."
  else if String.eqb function_name "delete_task" then
    if bool_decide (get_status result = Some "deleted")
    then "I've deleted the task '" ++ fmt (get_title result) ++ "'."
    else "I tried to delete the task but encountered an issue."
  else if String.eqb function_name "update_task" then
    if bool_decide (get_status result = Some "updated")
    then "I've updated the task to: '" ++ fmt (get_title result) ++ "'."
    else "I tried to update the task but encountered an issue."
  else "I've processed your request.".

(** [function_args['user_id'] = str(user_id)] *)
Definition inject_user_id (function_args : gmap string json) (user_id : UUID)
  : gmap string json :=
  <["user_id" := JStr (str_of_uuid rt user_id)]> function_args.

(** An argument text that is no JSON object makes [json.loads], or the
    item assignment after it, raise outside every [try]. *)
Definition _process_openai_response (response : Response) (user_id : UUID) : M string :=
  match tool_calls response with
  | tool_call :: _ =>
      match function_arguments tool_call with
      | None => raise (ValueError "function.arguments is not a JSON object")
      | Some function_args =>
          let function_args := inject_user_id function_args user_id in
          try_except
            (let* result := _execute_tool (function_name tool_call) function_args in
             ret (_generate_response_from_result (function_name tool_call) result))
            (fun e => ret ("Sorry, I encountered an error: " ++ exn_str e))
      end
  | [] =>
      match message_content response with
      | Some content =>
          if Py.truthy content then ret content
          else ret "I understand. How can I help you with your tasks?"
      | None => ret "I understand. How can I help you with your tasks?"
      end
  end.

Definition _format_messages_for_openai (user_message : string) (history : list HistoryEntry)
  : list (string * string) :=
  ([("system", system_prompt rt)]
   ++ map (fun msg => (h_role msg, h_content msg)) history
   ++ [("user", user_message)])%list.

(** The call to the reasoning service, recorded in the trace. *)
Definition chat_completions_create (prompt : list (string * string)) : M (string + Response) :=
  fun w =>
    (Return (completions_create rt prompt),
     mkWorld (tasks w) (conversations w) (messages w) (ticks w) (draws w) (ops w)
             (trace w ++ [EvReason])%list).

(** The dict [process_message] returns. *)
Record AgentResponse : Type := {
  assistant_message : string;
  history : list HistoryEntry;
  ar_conversation_id : option string
}.

Definition process_message (user_message : string) (user_id : UUID)
  (conversation_id : option UUID) : M AgentResponse :=
  let* history :=
    (match conversation_id with
     | Some cid => get_conversation_history cid user_id
     | None => ret (Some [])
     end) in
  match history with
  | None => raise (TypeError "'NoneType' object is not iterable")
  | Some history =>
      let messages := _format_messages_for_openai user_message history in
      let* answer := chat_completions_create messages in
      let* assistant_message :=
        (match answer with
         | inl e => ret ("I encountered an error processing your request: " ++ e)
         | inr response => _process_openai_response response user_id
         end) in
      let* _ :=
        (match conversation_id with
         | Some cid =>
             let* _ := save_message cid "user" user_message in
             let* _ := save_message cid "assistant" assistant_message in
             ret tt
         | None => ret tt
         end) in
      ret {| assistant_message := assistant_message;
             history := history;
             ar_conversation_id := option_map (str_of_uuid rt) conversation_id |}
  end.

(** ** The chat endpoint ([src/api/chat.py]) *)

Record ChatRequest : Type := {
  message : string;
  conversation_id : option string
}.

Record ChatResponse : Type := {
  cr_conversation_id : string;
  cr_user_message : string;
  cr_assistant_message : string;
  cr_history : list HistoryEntry
}.

(** [POST /api/v1/chat].  The two [Field] constraints on [message] are
    checked by the framework before the handler runs (status 422); a
    [history] that is not a list fails the response model. *)
Definition chat (request : ChatRequest) (user_id : UUID) : M ChatResponse :=
  if (String.length (message request) <? 1)%nat
     || (10000 <? N.of_nat (String.length (message request)))%N then
    raise (HTTPException 422 "message: string length out of range")
  else
  let* cid :=
    (if truthy_opt (conversation_id request) then
       let* cid := UUID_or_raise (default "" (conversation_id request))
                                 "badly formed hexadecimal UUID string" in
       let* history := get_conversation_history cid user_id in
       match history with
       | None => raise (HTTPException 404 "Conversation not found or access denied")
       | Some _ => ret cid
       end
     else
       let* conversation_result := create_conversation user_id in
       UUID_or_raise (cd_conversation_id conversation_result)
                     "badly formed hexadecimal UUID string") in
  let* agent_response := process_message (message request) user_id (Some cid) in
  let* full_history := get_conversation_history cid user_id in
  match full_history with
  | None => raise (TypeError "history: value is not a valid list")
  | Some full_history =>
      ret {| cr_conversation_id := str_of_uuid rt cid;
             cr_user_message := message request;
             cr_assistant_message := assistant_message agent_response;
             cr_history := full_history |}
  end.

(** The status line the transport sends for an outcome of a handler. *)
Definition status_code_of {A} (o : outcome A) : nat :=
  match o with
  | Return _ => 200%nat
  | Raise (HTTPException c _) => c
  | Raise _ => 500%nat
  end.

(** ** The REST task endpoints ([src/api/tasks.py]) *)

Record TaskUpdate : Type := {
  tu_title : option string;
  tu_completed : option bool;
  tu_priority : option string;
  tu_due_date : option datetime;
  tu_tags : option string
}.

(** The [Field] constraint of [TaskUpdate]: a title that is given has 1
    to 500 characters. *)
Definition update_body_ok (task_data : TaskUpdate) : bool :=
  match tu_title task_data with
  | None => true
  | Some s => negb (String.length s <? 1)%nat && negb (500 <? String.length s)%nat
  end.

(** [PUT /api/v1/tasks/{task_id}]; the row stands for its [TaskPublic]
    projection.  The [Field] constraint of [TaskUpdate] is checked by
    the framework before the handler runs (status 422). *)
Definition api_update_task (task_id : UUID) (task_data : TaskUpdate) (current_user : UUID)
  : M Task.t :=
  if negb (update_body_ok task_data) then
    raise (HTTPException 422 "body: string length out of range")
  else
  let* _ := round_trip (EvSelectTask task_id) in
  let* w := get_world in
  match tasks w !! task_id with
  | None => raise (HTTPException 404 "Task not found")
  | Some task =>
      if negb (N.eqb (Task.user_id task) current_user) then
        raise (HTTPException 403 "Not authorized to update this task")
      else
        let* now := utcnow in
        let task :=
          Task.mk (Task.id task) (Task.user_id task)
            (match tu_title task_data with Some s => s | None => Task.title task end)
            (match tu_completed task_data with Some b => b | None => Task.completed task end)
            (match tu_priority task_data with Some p => p | None => Task.priority task end)
            (match tu_due_date task_data with Some d => Some d | None => Task.due_date task end)
            (match tu_tags task_data with Some s => Some s | None => Task.tags task end)
            (Task.created_at task) now in
        let* _ := commit_update_task task in
        let* _ := round_trip (EvRefresh (Task.id task)) in
        ret task
  end.

(** [DELETE /api/v1/tasks/{task_id}] *)
Definition api_delete_task (task_id : UUID) (current_user : UUID) : M unit :=
  let* _ := round_trip (EvSelectTask task_id) in
  let* w := get_world in
  match tasks w !! task_id with
  | None => raise (HTTPException 404 "Task not found")
  | Some task =>
      if negb (N.eqb (Task.user_id task) current_user) then
        raise (HTTPException 403 "Not authorized to delete this task")
      else commit_delete_task (Task.id task)
  end.

End WithRuntime.

(** ** A concrete runtime and a small database

    Both serve to run the definitions: the codec writes a UUID and a
    timestamp in decimal, the clock advances by one at each reading. *)

Module Demo.

Definition of_decimal (s : string) : option N :=
  option_map N.of_uint (NilZero.uint_of_string s).

Definition to_decimal (u : N) : string := NilZero.string_of_uint (N.to_uint u).

Definition runtime (faults : nat -> option string) (answer : string + Response) : Runtime :=
  {| utcnow_at := fun k => 1000 + Z.of_nat k;
     uuid4_at := fun k => N.of_nat (100 + k);
     db_fault := faults;
     scan_before := fun a b => N.ltb a b;
     uuid_of_str := of_decimal;
     str_of_uuid := to_decimal;
     fromisoformat := fun s => option_map Z.of_N (of_decimal s);
     isoformat := fun d => to_decimal (Z.to_N d);
     system_prompt := "You are a helpful task management assistant.";
     completions_create := fun _ => answer |}.

Definition no_faults : nat -> option string := fun _ => None.

Definition alice : N := 1%N.
Definition bob : N := 2%N.

(** Alice's task 7, open. *)
Definition groceries : Task.t :=
  Task.mk 7%N alice "Buy groceries" false "medium" None None 10 10.

(** Alice's conversation 50, holding one earlier exchange. *)
Definition talk : Conversation.t := Conversation.mk 50%N alice 5.

Definition earlier : list Message.t :=
  [Message.mk 60%N 50%N "user" "hello" 20; Message.mk 61%N 50%N "assistant" "Hi there" 21].

Definition world : World :=
  mkWorld {[ 7%N := groceries ]} {[ 50%N := talk ]} earlier 0 0 0 [].

(** A tool call as the reasoning service returns it. *)
Definition call (name : string) (args : list (string * json)) : Response :=
  {| tool_calls := [{| function_name := name;
                       function_arguments := Some (list_to_map args) |}];
     message_content := None |}.

Definition says (text : string) : Response :=
  {| tool_calls := []; message_content := Some text |}.

(** Three reasoning services: one that only talks, one that asks to
    complete task 7, one that is down. *)
Definition quiet : Runtime := runtime no_faults (inr (says "How can I help?")).

Definition completing : Runtime :=
  runtime no_faults (inr (call "complete_task" [("task_id", JStr "7")])).


(** Arguments for add_task, bare and with an owner written in by the
    reasoning service. *)
Definition milk : gmap string json := {[ "title" := JStr "Buy milk" ]}.

Definition forged_milk : gmap string json := <[ "user_id" := JStr "2" ]> milk.

Definition no_patch : Patch :=
  {| new_title := None; p_completed := None; p_priority := None;
     p_due_date := None; p_tags := None |}.

Definition retitle : Patch :=
  {| new_title := Some " Buy oat milk "; p_completed := None; p_priority := Some "high";
     p_due_date := None; p_tags := None |}.

Definition no_update : TaskUpdate :=
  {| tu_title := None; tu_completed := None; tu_priority := None;
     tu_due_date := None; tu_tags := None |}.

End Demo.

(** ** Vocabulary of the properties *)

(** A computation relates every start world to its end world by [R]. *)
Definition respects {A} (R : World -> World -> Prop) (m : M A) : Prop :=
  forall w o w', m w = (o, w') -> R w w'.

(** Only the bookkeeping of round trips differs: the tables, the clock
    and the id source are where they were. *)
Definition same_tables (w w' : World) : Prop :=
  tasks w' = tasks w /\ conversations w' = conversations w /\ messages w' = messages w.

(** The events [w'] has recorded since [w]. *)
Definition events_since (w w' : World) (evs : list Event) : Prop :=
  trace w' = (trace w ++ evs)%list.

Definition is_message_insert (ev : Event) : bool :=
  match ev with EvInsertMessage _ _ _ => true | _ => false end.

(** The message log is untouched and no insert into it was attempted. *)
Definition leaves_log (w w' : World) : Prop :=
  messages w' = messages w
  /\ exists evs, events_since w w' evs /\ forallb (fun ev => negb (is_message_insert ev)) evs = true.

(** The primary key of a task row is the key it is stored under. *)
Definition well_keyed (w : World) : Prop :=
  forall k t, tasks w !! k = Some t -> Task.id t = k.

(** None of the [n] round trips after [w] fails. *)
Definition healthy (rt : Runtime) (w : World) (n : nat) : Prop :=
  forall k, (k < n)%nat -> db_fault rt (ops w + k) = None.

(** *** Validation stages

    The order of the tool contract, written as a list of stages: the
    verdict is the failure of the first stage that has one. *)

Fixpoint first_failure (stages : list (option exn)) : option exn :=
  match stages with
  | [] => None
  | Some e :: _ => Some e
  | None :: rest => first_failure rest
  end.

Definition owner_stage (rt : Runtime) (user_id : string) : option exn :=
  match uuid_of_str rt user_id with
  | Some _ => None
  | None => Some (ValueError "INVALID_USER_ID: user_id must be a valid UUID")
  end.

Definition task_id_stage (rt : Runtime) (task_id : string) : option exn :=
  match uuid_of_str rt task_id with
  | Some _ => None
  | None => Some (ValueError "INVALID_TASK_ID: task_id must be a valid UUID")
  end.

Definition title_stage (title : option string) : option exn :=
  match title with
  | None => Some (ValueError "INVALID_TITLE: title cannot be empty")
  | Some s =>
      if Py.blank s then Some (ValueError "INVALID_TITLE: title cannot be empty")
      else if (500 <? String.length (Py.strip s))%nat
      then Some (ValueError "INVALID_TITLE: title cannot exceed 500 characters")
      else None
  end.

Definition new_title_stage (new_title : option string) : option exn :=
  match new_title with
  | None => None
  | Some s =>
      if Py.blank s then Some (ValueError "INVALID_TITLE: new_title cannot be empty")
      else if (500 <? String.length (Py.strip s))%nat
      then Some (ValueError "INVALID_TITLE: new_title cannot exceed 500 characters")
      else None
  end.

Definition invalid_priority : exn :=
  ValueError "INVALID_PRIORITY: priority must be one of ['low', 'medium', 'high']".

(** [add_task] lets a missing or empty priority through (it defaults to
    medium); [update_task] checks every priority that is not [None]. *)
Definition priority_stage (lenient : bool) (priority : option string) : option exn :=
  match priority with
  | None => None
  | Some p =>
      if lenient && negb (Py.truthy p) then None
      else if Py.mem p valid_priorities then None
      else Some invalid_priority
  end.

Definition due_date_stage (rt : Runtime) (lenient : bool) (hint : string)
  (due_date : option string) : option exn :=
  match due_date with
  | None => None
  | Some s =>
      if lenient && negb (Py.truthy s) then None
      else match fromisoformat rt (Py.replace_Z s) with
           | Some _ => None
           | None => Some (ValueError
               ("INVALID_DUE_DATE: due_date must be ISO format (e.g., " ++ hint ++ ")"))
           end
  end.

Definition tags_stage (tags : option string) : option exn :=
  match tags with
  | None => None
  | Some s =>
      if (500 <? String.length (Py.strip s))%nat
      then Some (ValueError "INVALID_TAGS: tags cannot exceed 500 characters")
      else None
  end.

Definition add_task_validation (rt : Runtime) (user_id : string)
  (title priority due_date : option string) : option exn :=
  first_failure [owner_stage rt user_id; title_stage title; priority_stage true priority;
                 due_date_stage rt true "2025-01-25T10:30:00" due_date].

Definition list_tasks_validation (rt : Runtime) (user_id : string) : option exn :=
  first_failure [owner_stage rt user_id].

(** [complete_task] and [delete_task] *)
Definition addressed_validation (rt : Runtime) (user_id task_id : string) : option exn :=
  first_failure [owner_stage rt user_id; task_id_stage rt task_id].

Definition update_task_validation (rt : Runtime) (user_id task_id : string) (patch : Patch)
  : option exn :=
  first_failure [owner_stage rt user_id; task_id_stage rt task_id;
                 new_title_stage (new_title patch); priority_stage false (p_priority patch);
                 due_date_stage rt false "2025-01-25T10:30:00Z" (p_due_date patch);
                 tags_stage (p_tags patch)].

(** The lookup stage finds no task of this owner under this id. *)
Definition not_owned (w : World) (tid uid : N) : Prop :=
  match tasks w !! tid with
  | None => True
  | Some t => Task.user_id t <> uid
  end.

(** No conversation of this owner is stored under this id: there is
    none at all, or it is another owner's. *)
Definition not_visible (w : World) (cid uid : N) : Prop :=
  match conversations w !! cid with
  | None => True
  | Some c => Conversation.user_id c <> uid
  end.

(** The world after one recorded round trip. *)
Definition after_round_trip (w : World) (ev : Event) : World :=
  mkWorld (tasks w) (conversations w) (messages w) (ticks w) (draws w) (S (ops w))
          (trace w ++ [ev])%list.

(** *** Ownership isolation *)

Definition owned_by (uid : N) (o : option Task.t) : Prop :=
  match o with
  | Some t => Task.user_id t = uid
  | None => True
  end.

(** Wherever the task table changed, the row before and the row after
    (when there is one) belong to [uid]. *)
Definition touches_only (uid : N) (w w' : World) : Prop :=
  forall tid,
    tasks w' !! tid = tasks w !! tid
    \/ (owned_by uid (tasks w !! tid) /\ owned_by uid (tasks w' !! tid)).

(** What a tool run on behalf of [uid] may do to the world. *)
Definition tool_frame (uid : N) (w w' : World) : Prop :=
  conversations w' = conversations w
  /\ leaves_log w w'
  /\ (well_keyed w -> well_keyed w' /\ touches_only uid w w').

(** *** The two phases of a turn *)

(** [process_message] up to and including the reply: context load, the
    reasoning call, the tool. *)
Definition reply_phase (rt : Runtime) (user_message : string) (user_id : N)
  (conversation_id : option N) : M (list HistoryEntry * string) :=
  let* history :=
    (match conversation_id with
     | Some cid => get_conversation_history rt cid user_id
     | None => ret (Some [])
     end) in
  match history with
  | None => raise (TypeError "'NoneType' object is not iterable")
  | Some history =>
      let* answer :=
        chat_completions_create rt (_format_messages_for_openai rt user_message history) in
      let* assistant_message :=
        (match answer with
         | inl e => ret ("I encountered an error processing your request: " ++ e)
         | inr response => _process_openai_response rt response user_id
         end) in
      ret (history, assistant_message)
  end.

(** The rest of [process_message]: the two appends and the result. *)
Definition persist_phase (rt : Runtime) (user_message : string) (conversation_id : option N)
  (reply : list HistoryEntry * string) : M AgentResponse :=
  let* _ :=
    (match conversation_id with
     | Some cid =>
         let* _ := save_message rt cid "user" user_message in
         let* _ := save_message rt cid "assistant" (snd reply) in
         ret tt
     | None => ret tt
     end) in
  ret {| assistant_message := snd reply;
         history := fst reply;
         ar_conversation_id := option_map (str_of_uuid rt) conversation_id |}.

(** The world a successful append of [m] leaves. *)
Definition appended (w : World) (m : Message.t) : World :=
  mkWorld (tasks w) (conversations w) (messages w ++ [m])%list (S (ticks w)) (S (draws w))
          (S (S (ops w)))
          (trace w ++ [EvInsertMessage (Message.conversation_id m) (Message.role m)
                                       (Message.content m);
                       EvRefresh (Message.id m)])%list.

(** No row of the message table has this primary key. *)
Definition fresh_message_id (w : World) (i : N) : Prop :=
  existsb (fun x => N.eqb (Message.id x) i) (messages w) = false.

(** *** Statements measured against the code *)

(** A turn that passes context load ends with exactly the user message
    and the assistant message appended, in that order. *)
Definition persists_both (rt : Runtime) (user_message : string) (user_id cid : N)
  (w : World) : Prop :=
  forall h w0,
    get_conversation_history rt cid user_id w = (Return (Some h), w0) ->
    exists m1 m2,
      messages (snd (process_message rt user_message user_id (Some cid) w))
      = (messages w ++ [m1; m2])%list
      /\ Message.role m1 = "user" /\ Message.role m2 = "assistant".

(** The error codes of the tool contracts. *)
Definition error_codes : list string :=
  ["INVALID_USER_ID"; "INVALID_TASK_ID"; "INVALID_TITLE"; "INVALID_PRIORITY";
   "INVALID_DUE_DATE"; "INVALID_TAGS"; "TASK_NOT_FOUND"; "DATABASE_ERROR"].



(** A message read back after its append carries the role, the content
    and the time stamp of the append, the content as it was supplied. *)
Definition replays_verbatim (rt : Runtime) (cid user_id : N) (role content : string)
  (w : World) : Prop :=
  forall md w1 h w2,
    save_message rt cid role content w = (Return md, w1) ->
    get_conversation_history rt cid user_id w1 = (Return (Some h), w2) ->
    exists e, In e h /\ h_role e = role /\ h_content e = content
              /\ h_created_at e = md_created_at md.

(** *** Order of the message log *)

(** The messages of a conversation in the order in which they were
    appended to the log. *)
Fixpoint insertion_order (cid : N) (log : list Message.t) : list Message.t :=
  match log with
  | [] => []
  | m :: rest =>
      if decide (Message.conversation_id m = cid)
      then m :: insertion_order cid rest
      else insertion_order cid rest
  end.

(** Every history read returns the messages of the conversation in
    insertion order, role and content. *)
Definition returns_insertion_order (rt : Runtime) (cid user_id : N) (w : World) : Prop :=
  forall h w',
    get_conversation_history rt cid user_id w = (Return (Some h), w') ->
    map (fun e => (h_role e, h_content e)) h
    = map (fun m => (Message.role m, Message.content m)) (insertion_order cid (messages w)).

(** Each message carries a later time stamp than the one before it. *)
Definition strictly_ascending (l : list Message.t) : Prop :=
  StronglySorted Z.lt (map Message.created_at l).

(** The log is strictly ascending in insertion order, and the next
    reading of the clock is later than every stamp in it. *)
Definition strictly_chronological (rt : Runtime) (w : World) : Prop :=
  strictly_ascending (messages w)
  /\ Forall (fun m => Message.created_at m < utcnow_at rt (ticks w)) (messages w).

(** Every reading of the clock is later than the ones before it. *)
Definition advancing_clock (rt : Runtime) : Prop :=
  forall i j, (i < j)%nat -> utcnow_at rt i < utcnow_at rt j.

(** The task a successful [update_task] leaves behind. *)
Definition patched (rt : Runtime) (old : Task.t) (patch : Patch) (now : Z) : Task.t :=
  Task.mk (Task.id old) (Task.user_id old)
    (match new_title patch with Some s => Py.strip s | None => Task.title old end)
    (match p_completed patch with Some b => b | None => Task.completed old end)
    (match p_priority patch with Some p => p | None => Task.priority old end)
    (match p_due_date patch with
     | Some s => fromisoformat rt (Py.replace_Z s)
     | None => Task.due_date old
     end)
    (match p_tags patch with Some s => Some (Py.strip s) | None => Task.tags old end)
    (Task.created_at old) now.

(** A row whose [updated_at] alone is set anew. *)
Definition restamped (old : Task.t) (now : Z) : Task.t :=
  Task.mk (Task.id old) (Task.user_id old) (Task.title old) (Task.completed old)
          (Task.priority old) (Task.due_date old) (Task.tags old) (Task.created_at old) now.

(** The task [complete_task] leaves behind. *)
Definition completed_at (old : Task.t) (now : Z) : Task.t :=
  Task.mk (Task.id old) (Task.user_id old) (Task.title old) true (Task.priority old)
          (Task.due_date old) (Task.tags old) (Task.created_at old) now.

(** ** TaskService ([src/services/task_service.py]) *)

Module TaskService.

(** The dict every method returns for a task. *)
Record TaskDict : Type := {
  td_task_id : string;
  td_user_id : string;
  td_title : string;
  td_completed : bool
}.

Definition task_dict (rt : Runtime) (task : Task.t) : TaskDict :=
  {| td_task_id := str_of_uuid rt (Task.id task);
     td_user_id := str_of_uuid rt (Task.user_id task);
     td_title := Task.title task;
     td_completed := Task.completed task |}.

(** [Task(user_id=..., title=..., completed=False)]: the id and the two
    time stamps come from the default factories of the model, in field
    order; priority, due_date and tags take their defaults. *)
Definition create_task (rt : Runtime) (user_id : UUID) (title : string) : M TaskDict :=
  let* tid := uuid4 rt in
  let* created := utcnow rt in
  let* updated := utcnow rt in
  let task := Task.mk tid user_id title false "medium" None None created updated in
  let* _ := commit_insert_task rt task in
  let* _ := round_trip rt (EvRefresh tid) in
  ret (task_dict rt task).

Definition list_tasks (rt : Runtime) (user_id : UUID) (completed : option bool)
  : M (list TaskDict) :=
  let* _ := round_trip rt (EvSelectTasks user_id completed) in
  let* w := get_world in
  let rows := unordered rt (List.filter (where_owner user_id completed)
                                        (map snd (map_to_list (tasks w)))) in
  ret (map (task_dict rt) rows).

(** [select(Task).where(Task.id == task_id, Task.user_id == user_id)]
    and [scalar_one_or_none()] *)
Definition select_owned (rt : Runtime) (task_id user_id : UUID) : M (option Task.t) :=
  let* _ := round_trip rt (EvSelectTask task_id) in
  let* w := get_world in
  ret (match tasks w !! task_id with
       | Some task => if N.eqb (Task.user_id task) user_id then Some task else None
       | None => None
       end).

Definition get_task (rt : Runtime) (task_id user_id : UUID) : M (option TaskDict) :=
  let* task := select_owned rt task_id user_id in
  match task with
  | None => ret None
  | Some task => ret (Some (task_dict rt task))
  end.

(** [await session.commit()] after assignments that leave [updated_at]
    alone.  The session flushes an UPDATE only when an assigned
    attribute differs from the loaded value; the UPDATE then sets
    [updated_at] through the column's [onupdate=func.now()], the
    engine's clock being read like any other clock. *)
Definition commit_onupdate (rt : Runtime) (changed : bool) (task : Task.t) : M Task.t :=
  if changed then
    let* now := utcnow rt in
    let task := restamped task now in
    let* _ := commit_update_task rt task in
    ret task
  else
    let* _ := round_trip rt (EvUpdateTask (Task.id task)) in
    ret task.

Definition complete_task (rt : Runtime) (task_id user_id : UUID) : M (option TaskDict) :=
  let* task := select_owned rt task_id user_id in
  match task with
  | None => ret None
  | Some task =>
      let assigned :=
        Task.mk (Task.id task) (Task.user_id task) (Task.title task) true
                (Task.priority task) (Task.due_date task) (Task.tags task)
                (Task.created_at task) (Task.updated_at task) in
      let* task := commit_onupdate rt (negb (Task.completed task)) assigned in
      let* _ := round_trip rt (EvRefresh (Task.id task)) in
      ret (Some (task_dict rt task))
  end.

Definition update_task (rt : Runtime) (task_id user_id : UUID) (title : string)
  : M (option TaskDict) :=
  let* task := select_owned rt task_id user_id in
  match task with
  | None => ret None
  | Some task =>
      let assigned :=
        Task.mk (Task.id task) (Task.user_id task) title (Task.completed task)
                (Task.priority task) (Task.due_date task) (Task.tags task)
                (Task.created_at task) (Task.updated_at task) in
      let* task := commit_onupdate rt (negb (String.eqb (Task.title task) title)) assigned in
      let* _ := round_trip rt (EvRefresh (Task.id task)) in
      ret (Some (task_dict rt task))
  end.

Definition delete_task (rt : Runtime) (task_id user_id : UUID) : M (option TaskDict) :=
  let* task := select_owned rt task_id user_id in
  match task with
  | None => ret None
  | Some task =>
      let task_data := task_dict rt task in
      let* _ := commit_delete_task rt (Task.id task) in
      ret (Some task_data)
  end.

(** The legacy [create]: the id is the literal
    [UUID("00000000-0000-0000-0000-000000000000")], so no id is drawn. *)
Definition create (rt : Runtime) (user_id : UUID) (title : string) : M Task.t :=
  let* created := utcnow rt in
  let* updated := utcnow rt in
  let task := Task.mk 0%N user_id title false "medium" None None created updated in
  let* _ := commit_insert_task rt task in
  let* _ := round_trip rt (EvRefresh 0%N) in
  ret task.

End TaskService.

(** ** The other REST task endpoints ([src/api/tasks.py]) *)

(** [ORDER BY created_at DESC]; rows with equal [created_at] come as
    the engine's scan hands them out. *)
Definition created_after (rt : Runtime) (t x : Task.t) : bool :=
  (Task.created_at x <? Task.created_at t)
  || ((Task.created_at x =? Task.created_at t)
      && scan_before rt (Task.id t) (Task.id x)).

Definition order_by_created_at_desc (rt : Runtime) (rows : list Task.t) : list Task.t :=
  sort_by (created_after rt) rows.

(** [TaskList(tasks=..., count=...)]; a row stands for its [TaskPublic]
    projection. *)
Record TaskList : Type := {
  tl_tasks : list Task.t;
  tl_count : nat
}.

(** [GET /api/v1/tasks] *)
Definition api_list_tasks (rt : Runtime) (filter_completed : option bool) (current_user : UUID)
  : M TaskList :=
  let* _ := round_trip rt (EvSelectTasks current_user filter_completed) in
  let* w := get_world in
  let rows := order_by_created_at_desc rt
                (List.filter (where_owner current_user filter_completed)
                             (map snd (map_to_list (tasks w)))) in
  ret {| tl_tasks := rows; tl_count := length rows |}.

(** [TaskCreate]: [priority] has the default "medium" when the body
    leaves it out. *)
Record TaskCreate : Type := {
  tc_title : string;
  tc_priority : string;
  tc_due_date : option datetime;
  tc_tags : option string
}.

(** [POST /api/v1/tasks].  The [Field] constraints of [TaskCreate]
    (title 1..500, priority at most 20 characters) are checked by the
    framework before the handler runs (status 422). *)
Definition api_create_task (rt : Runtime) (task_data : TaskCreate) (current_user : UUID)
  : M Task.t :=
  if (String.length (tc_title task_data) <? 1)%nat
     || (500 <? String.length (tc_title task_data))%nat
     || (20 <? String.length (tc_priority task_data))%nat then
    raise (HTTPException 422 "body: string length out of range")
  else
    let* tid := uuid4 rt in
    let* created := utcnow rt in
    let* updated := utcnow rt in
    let task := Task.mk tid current_user (tc_title task_data) false
                        (if Py.truthy (tc_priority task_data)
                         then tc_priority task_data else "medium")
                        (tc_due_date task_data) (tc_tags task_data) created updated in
    let* _ := commit_insert_task rt task in
    let* _ := round_trip rt (EvRefresh tid) in
    ret task.

(** ** Vocabulary of the further properties *)

(** [s.startswith(p)] *)
Fixpoint startswith (p s : string) : bool :=
  match p with
  | EmptyString => true
  | String a p' =>
      match s with
      | EmptyString => false
      | String b s' => Ascii.eqb a b && startswith p' s'
      end
  end.

(** The failure is a [ValueError] whose text starts with one of the
    error codes of the tool contracts, followed by a colon. *)
Definition coded (e : exn) : bool :=
  match e with
  | ValueError m => existsb (fun code => startswith (code ++ ": ") m) error_codes
  | _ => false
  end.

Definition is_database_error (e : exn) : bool :=
  startswith "DATABASE_ERROR: " (exn_str e).

(** A row as the tool contracts describe it: a title of 1 to 500
    characters and a priority out of the three levels. *)
Definition valid_row (t : Task.t) : Prop :=
  Py.truthy (Task.title t) = true
  /\ (String.length (Task.title t) <= 500)%nat
  /\ Py.mem (Task.priority t) valid_priorities = true.


(** The rows of the task table. *)
Definition task_rows (w : World) : list Task.t := map snd (map_to_list (tasks w)).

(** The conversation table is as it was. *)
Definition conversations_kept (w w' : World) : Prop :=
  conversations w' = conversations w.

(** No message of the table refers to this conversation. *)
Definition unreferenced (w : World) (cid : N) : Prop :=
  where_conversation cid (messages w) = [].


(** A row with a new title and a new [updated_at]. *)
Definition retitled (old : Task.t) (title : string) (stamp : Z) : Task.t :=
  Task.mk (Task.id old) (Task.user_id old) title (Task.completed old) (Task.priority old)
          (Task.due_date old) (Task.tags old) (Task.created_at old) stamp.




(** The body of a [POST /api/v1/tasks] passes the [Field] constraints. *)
Definition create_body_ok (task_data : TaskCreate) : Prop :=
  (1 <= String.length (tc_title task_data) <= 500)%nat
  /\ (String.length (tc_priority task_data) <= 20)%nat.


(** The messages a turn on conversation [cid] may leave behind: none,
    the user message, or the user message and then the reply. *)
Definition turn_messages (cid : N) (new : list Message.t) : Prop :=
  match new with
  | [] => True
  | [m1] => Message.conversation_id m1 = cid /\ Message.role m1 = "user"
  | [m1; m2] =>
      Message.conversation_id m1 = cid /\ Message.role m1 = "user"
      /\ Message.conversation_id m2 = cid /\ Message.role m2 = "assistant"
  | _ => False
  end.


(** ** Further cases on the small database *)

Module Cases.

(** Alice's task 8, done, and Bob's task 9. *)
Definition laundry : Task.t :=
  Task.mk 8%N Demo.alice "Do the laundry" true "low" None None 30 31.

Definition rent : Task.t :=
  Task.mk 9%N Demo.bob "Pay rent" false "high" None None 20 20.

(** The small database with the three tasks. *)
Definition busy : World :=
  mkWorld (<[ 8%N := laundry ]> (<[ 9%N := rent ]> {[ 7%N := Demo.groceries ]}))
          {[ 50%N := Demo.talk ]} Demo.earlier 0 0 0 [].

(** A database whose task table has a row under the all-zero id. *)
Definition placeholder : Task.t :=
  Task.mk 0%N Demo.alice "First" false "medium" None None 3 3.

Definition taken : World :=
  mkWorld {[ 0%N := placeholder ]} ∅ [] 0 0 0 [].

(** A reasoning service that answers with white space. *)
Definition whispering : Runtime := Demo.runtime Demo.no_faults (inr (Demo.says "   ")).

(** A reasoning service that asks to list the tasks, and one that asks
    for a tool that does not exist. *)
Definition listing : Runtime := Demo.runtime Demo.no_faults (inr (Demo.call "list_tasks" [])).

Definition confused : Runtime := Demo.runtime Demo.no_faults (inr (Demo.call "archive_task" [])).

(** Bodies of [POST /api/v1/tasks]: a blank title with a priority no
    tool would accept, and a plain one. *)
Definition urgent : TaskCreate :=
  {| tc_title := "   "; tc_priority := "urgent"; tc_due_date := None; tc_tags := None |}.

Definition plain : TaskCreate :=
  {| tc_title := "Pay rent"; tc_priority := ""; tc_due_date := None; tc_tags := None |}.

(** A clock that is set back between two readings, and one that
    stands still while the engine hands out the later id first. *)
Definition rewinding : Runtime :=
  {| utcnow_at := fun k => 1000 - Z.of_nat k;
     uuid4_at := uuid4_at Demo.quiet;
     db_fault := Demo.no_faults;
     scan_before := scan_before Demo.quiet;
     uuid_of_str := uuid_of_str Demo.quiet;
     str_of_uuid := str_of_uuid Demo.quiet;
     fromisoformat := fromisoformat Demo.quiet;
     isoformat := isoformat Demo.quiet;
     system_prompt := system_prompt Demo.quiet;
     completions_create := completions_create Demo.quiet |}.

Definition stalled : Runtime :=
  {| utcnow_at := fun _ => 1000;
     uuid4_at := uuid4_at Demo.quiet;
     db_fault := Demo.no_faults;
     scan_before := fun a b => N.ltb b a;
     uuid_of_str := uuid_of_str Demo.quiet;
     str_of_uuid := str_of_uuid Demo.quiet;
     fromisoformat := fromisoformat Demo.quiet;
     isoformat := isoformat Demo.quiet;
     system_prompt := system_prompt Demo.quiet;
     completions_create := completions_create Demo.quiet |}.

(** Tags of 501 characters. *)
Definition long_tags : string := String.concat "" (List.repeat "t" 501).

Definition tagging : Patch :=
  {| new_title := None; p_completed := None; p_priority := None;
     p_due_date := None; p_tags := Some long_tags |}.

(** A database that refuses the first statement, as an engine with a
    VARCHAR(500) column refuses a longer value. *)
Definition too_long : string := "value too long for type character varying(500)".

Definition refusing : Runtime :=
  Demo.runtime (fun k => if Nat.eqb k 0 then Some too_long else None)
               (inr (Demo.says "How can I help?")).

(** Bodies of [PUT /api/v1/tasks/{task_id}] with an empty title and
    with a new one. *)
Definition untitled : TaskUpdate :=
  {| tu_title := Some ""; tu_completed := None; tu_priority := None;
     tu_due_date := None; tu_tags := None |}.

Definition renamed : TaskUpdate :=
  {| tu_title := Some "Buy bread"; tu_completed := None; tu_priority := None;
     tu_due_date := None; tu_tags := None |}.

End Cases.

Arguments Py.strip : simpl never.
Arguments Py.blank : simpl never.
Arguments Py.truthy : simpl never.
Arguments Py.mem : simpl never.
Arguments Py.replace_Z : simpl never.
Arguments Py.contains : simpl nomatch.
Arguments String.length : simpl never.
Arguments Nat.ltb : simpl never.
Arguments N.ltb : simpl never.

(** * Properties *)

Section Properties.

Context (rt : Runtime).

Lemma bind_Return {A B} (m : M A) (k : A -> M B) w a w' :
  m w = (Return a, w') -> bind m k w = k a w'.
Proof. intros H. unfold bind. now rewrite H. Qed.

Lemma bind_Raise {A B} (m : M A) (k : A -> M B) w e w' :
  m w = (Raise e, w') -> bind m k w = (Raise e, w').
Proof. intros H. unfold bind. now rewrite H. Qed.

Section Respects.

Context {R : World -> World -> Prop}.
Hypothesis R_refl : forall w, R w w.
Hypothesis R_trans : forall a b c, R a b -> R b c -> R a c.

Lemma respects_ret {A} (a : A) : respects R (ret a).
Proof. intros w o w' [= <- <-]. apply R_refl. Qed.

Lemma respects_raise {A} (e : exn) : respects R (@raise A e).
Proof. intros w o w' [= <- <-]. apply R_refl. Qed.

Lemma respects_get_world : respects R get_world.
Proof. intros w o w' [= <- <-]. apply R_refl. Qed.

Lemma respects_bind {A B} (m : M A) (k : A -> M B) :
  respects R m -> (forall a, respects R (k a)) -> respects R (bind m k).
Proof.
  intros Hm Hk w o w'. unfold bind.
  destruct (m w) as [[a|e] w1] eqn:E; intros H.
  - eapply R_trans; [eapply Hm, E | eapply Hk, H].
  - injection H as <- <-. eapply Hm, E.
Qed.

Lemma respects_try_except {A} (m : M A) (h : exn -> M A) :
  respects R m -> (forall e, respects R (h e)) -> respects R (try_except m h).
Proof.
  intros Hm Hh w o w'. unfold try_except.
  destruct (m w) as [[a|e] w1] eqn:E; intros H.
  - injection H as <- <-. eapply Hm, E.
  - eapply R_trans; [eapply Hm, E | eapply Hh, H].
Qed.

End Respects.

Lemma leaves_log_refl w : leaves_log w w.
Proof.
  split; [reflexivity|]. exists []. split; [|reflexivity].
  unfold events_since. now rewrite app_nil_r.
Qed.

Lemma leaves_log_trans a b c : leaves_log a b -> leaves_log b c -> leaves_log a c.
Proof.
  intros [Hm1 (e1 & Ht1 & Hf1)] [Hm2 (e2 & Ht2 & Hf2)].
  split; [congruence|]. exists (e1 ++ e2)%list. split.
  - unfold events_since in *. rewrite Ht2, Ht1. now rewrite app_assoc.
  - rewrite forallb_app, Hf1, Hf2. reflexivity.
Qed.

Lemma touches_only_refl uid w : touches_only uid w w.
Proof. intros tid. now left. Qed.

Lemma touches_only_trans uid a b c :
  touches_only uid a b -> touches_only uid b c -> touches_only uid a c.
Proof.
  intros H1 H2 tid. destruct (H1 tid) as [E1|[O1 O1']], (H2 tid) as [E2|[O2 O2']].
  - left. congruence.
  - right. rewrite <- E1. tauto.
  - right. rewrite E2. tauto.
  - right. tauto.
Qed.

Lemma tool_frame_refl uid w : tool_frame uid w w.
Proof.
  split; [reflexivity|]. split; [apply leaves_log_refl|].
  intros H. split; [exact H | apply touches_only_refl].
Qed.

Lemma tool_frame_trans uid a b c :
  tool_frame uid a b -> tool_frame uid b c -> tool_frame uid a c.
Proof.
  intros (C1 & L1 & K1) (C2 & L2 & K2).
  split; [congruence|]. split; [eapply leaves_log_trans; eassumption|].
  intros Ha. destruct (K1 Ha) as [Hb T1]. destruct (K2 Hb) as [Hc T2].
  split; [exact Hc | eapply touches_only_trans; eassumption].
Qed.

(** A step that changes nothing but the counters and appends events
    that are no message inserts. *)
Lemma tool_frame_bookkeeping uid w t d o evs :
  forallb (fun ev => negb (is_message_insert ev)) evs = true ->
  tool_frame uid w (mkWorld (tasks w) (conversations w) (messages w) t d o (trace w ++ evs)).
Proof.
  intros Hevs. split; [reflexivity|]. split.
  - split; [reflexivity|]. exists evs. split; [reflexivity | exact Hevs].
  - intros H. split; [exact H | intros tid; now left].
Qed.

Lemma respects_utcnow uid : respects (tool_frame uid) (utcnow rt).
Proof.
  intros w o w' [= <- <-].
  rewrite <- (app_nil_r (trace w)). now apply tool_frame_bookkeeping.
Qed.

Lemma respects_uuid4 uid : respects (tool_frame uid) (uuid4 rt).
Proof.
  intros w o w' [= <- <-].
  rewrite <- (app_nil_r (trace w)). now apply tool_frame_bookkeeping.
Qed.

Lemma respects_round_trip uid ev :
  is_message_insert ev = false -> respects (tool_frame uid) (round_trip rt ev).
Proof.
  intros Hev w o w'. unfold round_trip.
  destruct (db_fault rt (ops w)); intros [= <- <-];
    apply tool_frame_bookkeeping; cbn; now rewrite Hev.
Qed.

Lemma tool_frame_intro uid w tasks' t d o tr evs :
  tr = (trace w ++ evs)%list ->
  forallb (fun ev => negb (is_message_insert ev)) evs = true ->
  (well_keyed w ->
   (forall k x, tasks' !! k = Some x -> Task.id x = k)
   /\ forall tid, tasks' !! tid = tasks w !! tid
                  \/ (owned_by uid (tasks w !! tid) /\ owned_by uid (tasks' !! tid))) ->
  tool_frame uid w (mkWorld tasks' (conversations w) (messages w) t d o tr).
Proof.
  intros -> Hevs H. split; [reflexivity|]. split.
  - split; [reflexivity|]. exists evs. split; [reflexivity | exact Hevs].
  - exact H.
Qed.

Lemma frame_unchanged uid w :
  well_keyed w ->
  (forall k x, tasks w !! k = Some x -> Task.id x = k)
  /\ forall tid, tasks w !! tid = tasks w !! tid
                 \/ (owned_by uid (tasks w !! tid) /\ owned_by uid (tasks w !! tid)).
Proof. intros H. split; [exact H | intros; now left]. Qed.

Lemma frame_insert uid w k t' :
  Task.id t' = k -> Task.user_id t' = uid -> owned_by uid (tasks w !! k) ->
  well_keyed w ->
  (forall k0 x, <[k:=t']> (tasks w) !! k0 = Some x -> Task.id x = k0)
  /\ forall tid, <[k:=t']> (tasks w) !! tid = tasks w !! tid
                 \/ (owned_by uid (tasks w !! tid) /\ owned_by uid (<[k:=t']> (tasks w) !! tid)).
Proof.
  intros Hid Hu Hold Hk. split.
  - intros k0 x. destruct (decide (k = k0)) as [<-|Hne].
    + rewrite lookup_insert_eq. intros [= <-]. exact Hid.
    + rewrite lookup_insert_ne by exact Hne. apply Hk.
  - intros tid. destruct (decide (k = tid)) as [<-|Hne].
    + right. rewrite lookup_insert_eq. split; [exact Hold | exact Hu].
    + left. now rewrite lookup_insert_ne.
Qed.

Lemma frame_delete uid w k :
  owned_by uid (tasks w !! k) ->
  well_keyed w ->
  (forall k0 x, delete k (tasks w) !! k0 = Some x -> Task.id x = k0)
  /\ forall tid, delete k (tasks w) !! tid = tasks w !! tid
                 \/ (owned_by uid (tasks w !! tid) /\ owned_by uid (delete k (tasks w) !! tid)).
Proof.
  intros Hold Hk. split.
  - intros k0 x. destruct (decide (k = k0)) as [<-|Hne].
    + now rewrite lookup_delete_eq.
    + rewrite lookup_delete_ne by exact Hne. apply Hk.
  - intros tid. destruct (decide (k = tid)) as [<-|Hne].
    + right. rewrite lookup_delete_eq. split; [exact Hold | exact I].
    + left. now rewrite lookup_delete_ne.
Qed.

(** Symbolic execution of a tool body: unfold the monad, then split on
    what the runtime and the store answer. *)
Ltac run_step :=
  match goal with
  | |- context [db_fault rt ?k] => destruct (db_fault rt k) eqn:?
  | |- context [uuid_of_str rt ?s] => destruct (uuid_of_str rt s) eqn:?
  | |- context [fromisoformat rt ?s] => destruct (fromisoformat rt s) eqn:?
  | |- context [tasks ?w !! ?k] => destruct (tasks w !! k) eqn:?
  | |- context [N.eqb ?a ?b] => destruct (N.eqb_spec a b)
  | |- context [if ?b then _ else _] => destruct b eqn:?
  | |- context [match ?x with Some _ => _ | None => _ end] => destruct x eqn:?
  end.

Ltac run := repeat (cbn; try run_step).

Ltac unfold_tools :=
  unfold add_task, list_tasks, complete_task, delete_task, update_task,
    UUID_or_raise, get_owned_task, commit_insert_task, commit_update_task,
    commit_delete_task, reraise_custom, database_error, round_trip, utcnow, uuid4,
    try_except, bind, ret, raise, get_world, modify, set_tasks, apply_patch.

Ltac frame_leaf Hu :=
  intros [= <- <-];
  first
    [ apply tool_frame_refl
    | eapply tool_frame_intro;
      [ rewrite <- ?app_assoc; reflexivity
      | reflexivity
      | first
          [ apply frame_unchanged
          | intros Hwk; apply frame_insert; [ | | | exact Hwk ]
          | intros Hwk; apply frame_delete; [ | exact Hwk ] ] ] ].

Ltac close_leaf Hu :=
  try pose proof (Hu _ eq_refl);
  cbn;
  repeat match goal with
  | Hwk : well_keyed ?w, H : tasks ?w !! ?k = Some ?t |- context [tasks ?w !! Task.id ?t] =>
      rewrite (Hwk _ _ H), H
  | H : tasks ?w !! ?k = _ |- context [tasks ?w !! ?k] => rewrite H
  end;
  cbn;
  first [ reflexivity | exact I | congruence ].

Lemma add_task_frame uid user_id title priority due_date tags :
  (forall u, uuid_of_str rt user_id = Some u -> u = uid) ->
  respects (tool_frame uid) (add_task rt user_id title priority due_date tags).
Proof.
  intros Hu w o w'. unfold_tools. run.
  all: frame_leaf Hu.
  all: close_leaf Hu.
Qed.

Lemma list_tasks_frame uid user_id filter_completed :
  respects (tool_frame uid) (list_tasks rt user_id filter_completed).
Proof.
  intros w o w'. unfold_tools. run.
  all: frame_leaf Hu.
Qed.

Lemma complete_task_frame uid user_id task_id :
  (forall u, uuid_of_str rt user_id = Some u -> u = uid) ->
  respects (tool_frame uid) (complete_task rt user_id task_id).
Proof.
  intros Hu w o w'. unfold_tools. run.
  all: frame_leaf Hu.
  all: close_leaf Hu.
Qed.

Lemma delete_task_frame uid user_id task_id :
  (forall u, uuid_of_str rt user_id = Some u -> u = uid) ->
  respects (tool_frame uid) (delete_task rt user_id task_id).
Proof.
  intros Hu w o w'. unfold_tools. run.
  all: frame_leaf Hu.
  all: close_leaf Hu.
Qed.

Lemma update_task_frame uid user_id task_id patch :
  (forall u, uuid_of_str rt user_id = Some u -> u = uid) ->
  respects (tool_frame uid) (update_task rt user_id task_id patch).
Proof.
  intros Hu w o w'. unfold_tools. run.
  all: frame_leaf Hu.
  all: close_leaf Hu.
Qed.

(** ** Validation comes first *)

Ltac grows := eexists; rewrite <- ?app_assoc; reflexivity.

Ltac grows_at := eexists; split; [reflexivity | rewrite <- ?app_assoc; reflexivity].

Lemma add_task_stages user_id title priority due_date tags w :
  match add_task_validation rt user_id title priority due_date with
  | Some e => add_task rt user_id title priority due_date tags w = (Raise e, w)
  | None =>
      exists evs,
        trace (snd (add_task rt user_id title priority due_date tags w))
        = (trace w ++ EvInsertTask (uuid4_at rt (draws w)) :: evs)%list
  end.
Proof.
  unfold add_task_validation, owner_stage, title_stage, priority_stage, due_date_stage.
  unfold_tools. unfold truthy_opt, Py.blank. cbn.
  destruct (uuid_of_str rt user_id) as [uid|]; [|reflexivity].
  destruct title as [s|]; cbn; [|reflexivity].
  destruct (negb (Py.truthy s) || negb (Py.truthy (Py.strip s))); [reflexivity|].
  destruct (500 <? String.length (Py.strip s))%nat; [reflexivity|].
  destruct priority as [p|]; cbn;
    [ destruct (Py.truthy p); cbn;
      [ destruct (Py.mem p valid_priorities); cbn; [|reflexivity] | ] | ].
  all: destruct due_date as [d|]; cbn;
    [ destruct (Py.truthy d); cbn;
      [ destruct (fromisoformat rt (Py.replace_Z d)); cbn; [|reflexivity] | ] | ].
  all: run; grows.
Qed.

Lemma list_tasks_stages user_id filter_completed w :
  match list_tasks_validation rt user_id with
  | Some e => list_tasks rt user_id filter_completed w = (Raise e, w)
  | None =>
      exists uid evs,
        uuid_of_str rt user_id = Some uid
        /\ trace (snd (list_tasks rt user_id filter_completed w))
           = (trace w ++ EvSelectTasks uid filter_completed :: evs)%list
  end.
Proof.
  unfold list_tasks_validation, owner_stage. unfold_tools. cbn.
  destruct (uuid_of_str rt user_id) as [uid|]; [|reflexivity].
  exists uid. run; grows_at.
Qed.

Lemma complete_task_stages user_id task_id w :
  match addressed_validation rt user_id task_id with
  | Some e => complete_task rt user_id task_id w = (Raise e, w)
  | None =>
      exists tid evs,
        uuid_of_str rt task_id = Some tid
        /\ trace (snd (complete_task rt user_id task_id w))
           = (trace w ++ EvSelectTask tid :: evs)%list
  end.
Proof.
  unfold addressed_validation, owner_stage, task_id_stage. unfold_tools. cbn.
  destruct (uuid_of_str rt user_id) as [uid|]; [|reflexivity].
  destruct (uuid_of_str rt task_id) as [tid|]; [|reflexivity].
  exists tid. run; grows_at.
Qed.

Lemma delete_task_stages user_id task_id w :
  match addressed_validation rt user_id task_id with
  | Some e => delete_task rt user_id task_id w = (Raise e, w)
  | None =>
      exists tid evs,
        uuid_of_str rt task_id = Some tid
        /\ trace (snd (delete_task rt user_id task_id w))
           = (trace w ++ EvSelectTask tid :: evs)%list
  end.
Proof.
  unfold addressed_validation, owner_stage, task_id_stage. unfold_tools. cbn.
  destruct (uuid_of_str rt user_id) as [uid|]; [|reflexivity].
  destruct (uuid_of_str rt task_id) as [tid|]; [|reflexivity].
  exists tid. run; grows_at.
Qed.

Lemma update_task_stages user_id task_id patch w :
  match update_task_validation rt user_id task_id patch with
  | Some e => update_task rt user_id task_id patch w = (Raise e, w)
  | None =>
      exists tid evs,
        uuid_of_str rt task_id = Some tid
        /\ trace (snd (update_task rt user_id task_id patch w))
           = (trace w ++ EvSelectTask tid :: evs)%list
  end.
Proof.
  unfold update_task_validation, owner_stage, task_id_stage, new_title_stage,
    priority_stage, due_date_stage, tags_stage.
  unfold_tools. cbn.
  destruct (uuid_of_str rt user_id) as [uid|]; [|reflexivity].
  destruct (uuid_of_str rt task_id) as [tid|]; [|reflexivity].
  destruct patch as [nt pc pp pd pt]; cbn.
  destruct nt as [s|]; cbn;
    [ destruct (Py.blank s); [reflexivity|];
      destruct (500 <? String.length (Py.strip s))%nat; [reflexivity|] | ].
  all: destruct pp as [p|]; cbn;
    [ destruct (Py.mem p valid_priorities); cbn; [|reflexivity] | ].
  all: destruct pd as [d|]; cbn;
    [ destruct (fromisoformat rt (Py.replace_Z d)); cbn; [|reflexivity] | ].
  all: destruct pt as [g|]; cbn;
    [ destruct (500 <? String.length (Py.strip g))%nat; [reflexivity|] | ].
  all: exists tid; run; grows_at.
Qed.

(** The lookup stage: a task that is absent, or another owner's, ends
    the call after the one [SELECT]. *)
Lemma get_owned_task_not_owned tid uid w :
  db_fault rt (ops w) = None -> not_owned w tid uid ->
  exists msg,
    get_owned_task rt tid uid w
    = (Raise (ValueError msg), after_round_trip w (EvSelectTask tid))
    /\ Py.contains "TASK_NOT_FOUND" msg = true.
Proof.
  intros Hf Hn. unfold not_owned in Hn. unfold_tools. cbn. rewrite Hf. cbn.
  destruct (tasks w !! tid) as [t|].
  - destruct (N.eqb_spec (Task.user_id t) uid) as [E|_]; [contradiction|].
    cbn. eexists. split; reflexivity.
  - eexists. split; reflexivity.
Qed.

Lemma complete_task_not_owned user_id task_id uid tid w :
  uuid_of_str rt user_id = Some uid -> uuid_of_str rt task_id = Some tid ->
  db_fault rt (ops w) = None -> not_owned w tid uid ->
  exists msg,
    complete_task rt user_id task_id w
    = (Raise (ValueError msg), after_round_trip w (EvSelectTask tid))
    /\ Py.contains "TASK_NOT_FOUND" msg = true.
Proof.
  intros Hu Ht Hf Hn.
  destruct (get_owned_task_not_owned tid uid w Hf Hn) as (msg & Hg & Hc).
  exists msg. split; [|exact Hc].
  unfold complete_task, UUID_or_raise. rewrite Hu, Ht.
  unfold bind at 1 2, ret at 1 2, try_except.
  rewrite (bind_Raise _ _ _ _ _ Hg). unfold reraise_custom. rewrite Hc. reflexivity.
Qed.

Lemma delete_task_not_owned user_id task_id uid tid w :
  uuid_of_str rt user_id = Some uid -> uuid_of_str rt task_id = Some tid ->
  db_fault rt (ops w) = None -> not_owned w tid uid ->
  exists msg,
    delete_task rt user_id task_id w
    = (Raise (ValueError msg), after_round_trip w (EvSelectTask tid))
    /\ Py.contains "TASK_NOT_FOUND" msg = true.
Proof.
  intros Hu Ht Hf Hn.
  destruct (get_owned_task_not_owned tid uid w Hf Hn) as (msg & Hg & Hc).
  exists msg. split; [|exact Hc].
  unfold delete_task, UUID_or_raise. rewrite Hu, Ht.
  unfold bind at 1 2, ret at 1 2, try_except.
  rewrite (bind_Raise _ _ _ _ _ Hg). unfold reraise_custom. rewrite Hc. reflexivity.
Qed.

Lemma update_task_not_owned user_id task_id patch uid tid w :
  uuid_of_str rt user_id = Some uid -> uuid_of_str rt task_id = Some tid ->
  update_task_validation rt user_id task_id patch = None ->
  db_fault rt (ops w) = None -> not_owned w tid uid ->
  exists msg,
    update_task rt user_id task_id patch w
    = (Raise (ValueError msg), after_round_trip w (EvSelectTask tid))
    /\ Py.contains "TASK_NOT_FOUND" msg = true.
Proof.
  intros Hu Ht Hv Hf Hn.
  destruct (get_owned_task_not_owned tid uid w Hf Hn) as (msg & Hg & Hc).
  exists msg. split; [|exact Hc].
  revert Hv.
  unfold update_task_validation, owner_stage, task_id_stage, new_title_stage,
    priority_stage, due_date_stage, tags_stage.
  unfold update_task, UUID_or_raise. rewrite Hu, Ht. cbn [first_failure].
  unfold bind at 1 2, ret at 1 2.
  destruct patch as [nt pc pp pd pt]; cbn [new_title p_completed p_priority p_due_date p_tags].
  destruct nt as [s|];
    [ destruct (Py.blank s); [discriminate|];
      destruct (500 <? String.length (Py.strip s))%nat; [discriminate|] | ].
  all: destruct pp as [p|]; cbn [andb negb];
    [ destruct (Py.mem p valid_priorities); cbn [negb]; [|discriminate] | ].
  all: destruct pd as [d|]; cbn [andb negb];
    [ destruct (fromisoformat rt (Py.replace_Z d)); [|discriminate] | ].
  all: destruct pt as [g|];
    [ destruct (500 <? String.length (Py.strip g))%nat; [discriminate|] | ].
  all: intros _; unfold bind at 1 2 3 4, ret at 1 2 3 4, try_except.
  all: rewrite (bind_Raise _ _ _ _ _ Hg); unfold reraise_custom; rewrite Hc; reflexivity.
Qed.


(** The stage order of the tools, for the checks each tool has (add_task
    has none on the length of tags).  Each of the five tools checks its
    input in the order owner id, task id, field constraints, before it
    touches the store: the failure of the first failing stage is the
    result and the world is untouched; when every stage passes the
    first thing recorded is the store access of the tool; and a lookup
    that finds no task of the owner ends the call after that one
    SELECT, before anything is written. *)
Theorem validation_precedes_store_access (w : World) :
  (forall user_id title priority due_date tags,
     match add_task_validation rt user_id title priority due_date with
     | Some e => add_task rt user_id title priority due_date tags w = (Raise e, w)
     | None =>
         exists evs,
           trace (snd (add_task rt user_id title priority due_date tags w))
           = (trace w ++ EvInsertTask (uuid4_at rt (draws w)) :: evs)%list
     end)
  /\ (forall user_id filter_completed,
        match list_tasks_validation rt user_id with
        | Some e => list_tasks rt user_id filter_completed w = (Raise e, w)
        | None =>
            exists uid evs,
              uuid_of_str rt user_id = Some uid
              /\ trace (snd (list_tasks rt user_id filter_completed w))
                 = (trace w ++ EvSelectTasks uid filter_completed :: evs)%list
        end)
  /\ (forall user_id task_id,
        match addressed_validation rt user_id task_id with
        | Some e =>
            complete_task rt user_id task_id w = (Raise e, w)
            /\ delete_task rt user_id task_id w = (Raise e, w)
        | None =>
            exists tid evs evs',
              uuid_of_str rt task_id = Some tid
              /\ trace (snd (complete_task rt user_id task_id w))
                 = (trace w ++ EvSelectTask tid :: evs)%list
              /\ trace (snd (delete_task rt user_id task_id w))
                 = (trace w ++ EvSelectTask tid :: evs')%list
        end)
  /\ (forall user_id task_id patch,
        match update_task_validation rt user_id task_id patch with
        | Some e => update_task rt user_id task_id patch w = (Raise e, w)
        | None =>
            exists tid evs,
              uuid_of_str rt task_id = Some tid
              /\ trace (snd (update_task rt user_id task_id patch w))
                 = (trace w ++ EvSelectTask tid :: evs)%list
        end)
  /\ (forall user_id task_id uid tid,
        uuid_of_str rt user_id = Some uid -> uuid_of_str rt task_id = Some tid ->
        db_fault rt (ops w) = None -> not_owned w tid uid ->
        (exists msg,
           complete_task rt user_id task_id w
           = (Raise (ValueError msg), after_round_trip w (EvSelectTask tid)))
        /\ (exists msg,
              delete_task rt user_id task_id w
              = (Raise (ValueError msg), after_round_trip w (EvSelectTask tid)))
        /\ forall patch,
             update_task_validation rt user_id task_id patch = None ->
             exists msg,
               update_task rt user_id task_id patch w
               = (Raise (ValueError msg), after_round_trip w (EvSelectTask tid))).
Proof.
  split; [intros; apply add_task_stages|].
  split; [intros; apply list_tasks_stages|].
  split.
  { intros user_id task_id.
    pose proof (complete_task_stages user_id task_id w) as Hc.
    pose proof (delete_task_stages user_id task_id w) as Hd.
    destruct (addressed_validation rt user_id task_id); [now split|].
    destruct Hc as (tid & evs & Ht & Hc), Hd as (tid' & evs' & Ht' & Hd).
    assert (tid' = tid) as -> by congruence.
    exists tid, evs, evs'. auto. }
  split; [intros; apply update_task_stages|].
  intros user_id task_id uid tid Hu Ht Hf Hn. repeat split.
  - destruct (complete_task_not_owned _ _ _ _ _ Hu Ht Hf Hn) as (msg & H & _). eauto.
  - destruct (delete_task_not_owned _ _ _ _ _ Hu Ht Hf Hn) as (msg & H & _). eauto.
  - intros patch Hv.
    destruct (update_task_not_owned _ _ _ _ _ _ Hu Ht Hv Hf Hn) as (msg & H & _). eauto.
Qed.

(** ** Completion and update *)

Lemma healthy_at w n k : healthy rt w n -> (k < n)%nat -> db_fault rt (k + ops w) = None.
Proof. intros H Hk. rewrite Nat.add_comm. now apply H. Qed.

(** C6.  An owner completes a task of theirs twice: both calls succeed
    and report completed = true, the task is completed after each, and
    the second call changes nothing of the row but its updated_at. *)
Theorem complete_task_twice user_id task_id uid tid t w :
  uuid_of_str rt user_id = Some uid -> uuid_of_str rt task_id = Some tid ->
  tasks w !! tid = Some t -> Task.id t = tid -> Task.user_id t = uid ->
  healthy rt w 6 ->
  let now1 := utcnow_at rt (ticks w) in
  let now2 := utcnow_at rt (S (ticks w)) in
  let t1 := completed_at t now1 in
  exists w1 w2,
    complete_task rt user_id task_id w
    = (Return (CompleteResult (str_of_uuid rt tid) "completed" (Task.title t) true
                              (isoformat rt now1)), w1)
    /\ tasks w1 = <[tid := t1]> (tasks w)
    /\ Task.completed t1 = true
    /\ complete_task rt user_id task_id w1
       = (Return (CompleteResult (str_of_uuid rt tid) "completed" (Task.title t) true
                                 (isoformat rt now2)), w2)
    /\ tasks w2 = <[tid := restamped t1 now2]> (tasks w1)
    /\ Task.completed (restamped t1 now2) = true
    /\ conversations w2 = conversations w /\ messages w2 = messages w.
Proof.
  intros Hu Ht Hl Hid Hown Hh now1 now2 t1. subst tid uid.
  pose proof (healthy_at w 6 0 Hh ltac:(lia)) as F0.
  pose proof (healthy_at w 6 1 Hh ltac:(lia)) as F1.
  pose proof (healthy_at w 6 2 Hh ltac:(lia)) as F2.
  pose proof (healthy_at w 6 3 Hh ltac:(lia)) as F3.
  pose proof (healthy_at w 6 4 Hh ltac:(lia)) as F4.
  pose proof (healthy_at w 6 5 Hh ltac:(lia)) as F5.
  cbn [Nat.add] in *.
  unfold_tools. rewrite Hu, Ht. cbn. rewrite F0. cbn. rewrite Hl. cbn.
  rewrite N.eqb_refl. cbn. rewrite F1. cbn. rewrite F2. cbn.
  eexists. eexists.
  split; [reflexivity|]. cbn. split; [reflexivity|]. split; [reflexivity|].
  rewrite F3. cbn. rewrite lookup_insert_eq. cbn.
  rewrite N.eqb_refl. cbn. rewrite F4. cbn. rewrite F5. cbn.
  split; [reflexivity|]. split; [reflexivity|]. split; [reflexivity|].
  split; reflexivity.
Qed.


(** C7.  A successful update_task sets exactly the fields its patch
    carries (title and tags trimmed, due_date parsed), keeps every other
    field of the row, and stamps updated_at with the time of the call,
    whatever the patch holds; no other row and no other table changes. *)
Theorem update_task_applies_patch user_id task_id patch w r w' :
  well_keyed w ->
  update_task rt user_id task_id patch w = (Return r, w') ->
  exists uid tid old,
    uuid_of_str rt user_id = Some uid /\ uuid_of_str rt task_id = Some tid
    /\ tasks w !! tid = Some old /\ Task.user_id old = uid
    /\ let new := patched rt old patch (utcnow_at rt (ticks w)) in
       tasks w' = <[tid := new]> (tasks w)
       /\ conversations w' = conversations w /\ messages w' = messages w
       /\ Task.updated_at new = utcnow_at rt (ticks w)
       /\ r = UpdateResult (str_of_uuid rt tid) "updated" (Task.title new)
                (Task.completed new) (Task.priority new)
                (isoformat_opt rt (Task.due_date new)) (Task.tags new)
                (isoformat rt (Task.updated_at new)).
Proof.
  intros Hwk. unfold patched. destruct patch as [nt pc pp pd pt].
  unfold_tools. cbn.
  destruct (uuid_of_str rt user_id) as [uid|]; [|discriminate].
  destruct (uuid_of_str rt task_id) as [tid|]; [|discriminate].
  cbn.
  destruct nt as [s|]; cbn;
    [ destruct (Py.blank s); [discriminate|];
      destruct (500 <? String.length (Py.strip s))%nat; [discriminate|] | ].
  all: destruct pp as [p|]; cbn;
    [ destruct (Py.mem p valid_priorities); cbn; [|discriminate] | ].
  all: destruct pd as [d|]; cbn;
    [ destruct (fromisoformat rt (Py.replace_Z d)) eqn:Hd; cbn; [|discriminate] | ].
  all: destruct pt as [g|]; cbn;
    [ destruct (500 <? String.length (Py.strip g))%nat; [discriminate|] | ].
  all: destruct (db_fault rt (ops w)); cbn; [discriminate|].
  all: destruct (tasks w !! tid) as [old|] eqn:Hl; cbn; [|discriminate].
  all: destruct (N.eqb_spec (Task.user_id old) uid) as [Ho|_]; cbn; [|discriminate].
  all: destruct (db_fault rt (S (ops w))); cbn; [discriminate|].
  all: destruct (db_fault rt (S (S (ops w)))); cbn; [discriminate|].
  all: intros [= <- <-]; exists uid, tid, old.
  all: rewrite (Hwk _ _ Hl); cbn; repeat split; reflexivity || assumption.
Qed.


(** ** The conversation store *)

Lemma insert_by_In {A} (before : A -> A -> bool) x l y :
  In y (insert_by before x l) <-> y = x \/ In y l.
Proof.
  induction l as [|z l IH]; cbn.
  - intuition congruence.
  - destruct (before x z); cbn.
    + intuition congruence.
    + rewrite IH. intuition congruence.
Qed.

Lemma sort_by_In {A} (before : A -> A -> bool) l y : In y (sort_by before l) <-> In y l.
Proof.
  induction l as [|z l IH]; [reflexivity|].
  change (sort_by before (z :: l)) with (insert_by before z (sort_by before l)).
  rewrite insert_by_In, IH. cbn. intuition congruence.
Qed.

Lemma insert_by_perm {A} (before : A -> A -> bool) x l : insert_by before x l ≡ₚ x :: l.
Proof.
  induction l as [|z l IH]; cbn; [reflexivity|].
  destruct (before x z); [reflexivity|].
  rewrite IH. apply Permutation_swap.
Qed.

Lemma sort_by_perm {A} (before : A -> A -> bool) l : sort_by before l ≡ₚ l.
Proof.
  induction l as [|z l IH]; [reflexivity|].
  change (sort_by before (z :: l)) with (insert_by before z (sort_by before l)).
  now rewrite insert_by_perm, IH.
Qed.

Lemma order_by_created_at_In l x : In x (order_by_created_at rt l) <-> In x l.
Proof. apply sort_by_In. Qed.

Lemma order_by_created_at_perm l : order_by_created_at rt l ≡ₚ l.
Proof. apply sort_by_perm. Qed.

Lemma insert_by_created_at_sorted m l :
  StronglySorted Z.le (map Message.created_at l) ->
  StronglySorted Z.le (map Message.created_at (insert_by (created_before rt) m l)).
Proof.
  induction l as [|y l IH]; cbn; intros Hs.
  - constructor; constructor.
  - apply StronglySorted_inv in Hs as [Hs Hall].
    destruct (created_before rt m y) eqn:Hb; cbn.
    + assert (Hle : Message.created_at m <= Message.created_at y).
      { unfold created_before in Hb. apply orb_true_iff in Hb as [Hb|Hb].
        - apply Z.ltb_lt in Hb. lia.
        - apply andb_true_iff in Hb as [Hb _]. apply Z.eqb_eq in Hb. lia. }
      constructor; [constructor; assumption|].
      constructor; [exact Hle|].
      eapply List.Forall_impl; [|exact Hall]. cbn. intros. lia.
    + assert (Hle : Message.created_at y <= Message.created_at m).
      { unfold created_before in Hb. apply orb_false_iff in Hb as [Hb _].
        apply Z.ltb_ge in Hb. exact Hb. }
      constructor; [apply IH, Hs|].
      apply List.Forall_forall. intros z Hz. apply List.in_map_iff in Hz as (x & <- & Hx).
      apply insert_by_In in Hx as [->|Hx]; [exact Hle|].
      rewrite List.Forall_forall in Hall. apply Hall. now apply List.in_map.
Qed.

Lemma order_by_created_at_sorted l :
  StronglySorted Z.le (map Message.created_at (order_by_created_at rt l)).
Proof.
  induction l as [|y l IH]; [constructor|].
  change (order_by_created_at rt (y :: l))
    with (insert_by (created_before rt) y (order_by_created_at rt l)).
  now apply insert_by_created_at_sorted.
Qed.

(** Rows whose stamps grow strictly come back as they are, however the
    engine scans. *)
Lemma order_by_created_at_id l :
  StronglySorted Z.lt (map Message.created_at l) -> order_by_created_at rt l = l.
Proof.
  induction l as [|y l IH]; intros Hs; [reflexivity|].
  change (order_by_created_at rt (y :: l))
    with (insert_by (created_before rt) y (order_by_created_at rt l)).
  cbn in Hs. apply StronglySorted_inv in Hs as [Hs Hall]. rewrite (IH Hs).
  destruct l as [|z l]; [reflexivity|]. cbn.
  apply List.Forall_inv in Hall. unfold created_before.
  destruct (Z.ltb_spec (Message.created_at y) (Message.created_at z)); [reflexivity|lia].
Qed.

(** The rows the WHERE clause selects are the messages of the
    conversation in insertion order. *)
Lemma where_conversation_insertion_order cid l :
  where_conversation cid l = insertion_order cid l.
Proof.
  unfold where_conversation. induction l as [|m l IH]; [reflexivity|]. cbn.
  destruct (N.eqb_spec (Message.conversation_id m) cid) as [E|E],
           (decide (Message.conversation_id m = cid)) as [D|D];
    try contradiction; now rewrite IH.
Qed.

Lemma insertion_order_In cid l m :
  In m (insertion_order cid l) <-> In m l /\ Message.conversation_id m = cid.
Proof.
  induction l as [|x l IH]; cbn; [tauto|].
  destruct (decide (Message.conversation_id x = cid)) as [D|D]; cbn; rewrite IH;
    intuition (subst; auto; congruence).
Qed.

Lemma insertion_order_ascending cid l :
  strictly_ascending l -> strictly_ascending (insertion_order cid l).
Proof.
  unfold strictly_ascending.
  induction l as [|y l IH]; cbn; intros Hs; [constructor|].
  apply StronglySorted_inv in Hs as [Hs Hall].
  destruct (decide (Message.conversation_id y = cid)); cbn; [|now apply IH].
  constructor; [now apply IH|].
  apply List.Forall_forall. intros z Hz. apply List.in_map_iff in Hz as (x & <- & Hx).
  apply insertion_order_In in Hx as [Hx _].
  rewrite List.Forall_forall in Hall. apply Hall. now apply List.in_map.
Qed.

Lemma ascending_snoc (l : list Z) x :
  StronglySorted Z.lt l -> Forall (fun y => y < x) l -> StronglySorted Z.lt (l ++ [x]).
Proof.
  induction l as [|y l IH]; cbn; intros Hs Hall.
  - constructor; constructor.
  - apply StronglySorted_inv in Hs as [Hs Hy].
    pose proof (List.Forall_inv Hall) as Hyx. apply List.Forall_inv_tail in Hall.
    constructor; [now apply IH|].
    apply List.Forall_app. split; [exact Hy|]. constructor; [exact Hyx|constructor].
Qed.

(** What a successful history read says about the world it ran in. *)
Lemma history_Some cid uid w h w' :
  get_conversation_history rt cid uid w = (Return (Some h), w') ->
  (exists c, conversations w !! cid = Some c /\ Conversation.user_id c = uid)
  /\ h = map (history_entry rt) (order_by_created_at rt (where_conversation cid (messages w)))
  /\ same_tables w w' /\ ticks w' = ticks w.
Proof.
  unfold get_conversation_history, round_trip, bind, ret, get_world. cbn.
  destruct (db_fault rt (ops w)); [discriminate|]. cbn.
  destruct (conversations w !! cid) as [c|]; [|discriminate].
  destruct (N.eqb_spec (Conversation.user_id c) uid) as [E|_]; cbn; [|discriminate].
  destruct (db_fault rt (S (ops w))); [discriminate|]. cbn.
  intros [= <- <-]. repeat split; eauto.
Qed.

(** What a successful append did. *)
Lemma save_message_Return cid role content md w w1 :
  save_message rt cid role content w = (Return md, w1) ->
  let m := Message.mk (uuid4_at rt (draws w)) cid role (Py.strip content)
                      (utcnow_at rt (ticks w)) in
  Py.mem role ["user"; "assistant"] = true /\ Py.blank content = false
  /\ fresh_message_id w (Message.id m)
  /\ messages w1 = (messages w ++ [m])%list
  /\ tasks w1 = tasks w /\ conversations w1 = conversations w
  /\ ticks w1 = S (ticks w)
  /\ md = {| md_message_id := str_of_uuid rt (Message.id m);
             md_conversation_id := str_of_uuid rt cid;
             md_role := role;
             md_content := Py.strip content;
             md_created_at := utcnow_at rt (ticks w) |}.
Proof.
  unfold save_message, commit_insert_message, round_trip, utcnow, uuid4, bind, ret, raise,
    set_messages, fresh_message_id.
  destruct (Py.mem role ["user"; "assistant"]); cbn; [|discriminate].
  destruct (Py.blank content); cbn; [discriminate|].
  destruct (db_fault rt (ops w)); cbn; [discriminate|].
  destruct (existsb _ (messages w)) eqn:Hfresh; cbn; [discriminate|].
  destruct (db_fault rt (S (ops w))); cbn; [discriminate|].
  intros [= <- <-]. cbn. repeat split; auto.
Qed.

(** C8 (as the code has it).  A message appended with a valid role and a
    content that is not blank is read back by its owner with its role,
    with the content trimmed of surrounding white space, and with the
    time stamp and the id the append assigned and reported. *)
Theorem appended_message_is_replayed cid user_id role content w md w1 h w2 :
  save_message rt cid role content w = (Return md, w1) ->
  get_conversation_history rt cid user_id w1 = (Return (Some h), w2) ->
  exists e,
    In e h /\ h_id e = md_message_id md /\ h_role e = role
    /\ h_content e = Py.strip content /\ h_created_at e = md_created_at md
    /\ md_created_at md = utcnow_at rt (ticks w).
Proof.
  intros Hs Hh.
  apply save_message_Return in Hs as (_ & _ & _ & Hm & _ & _ & _ & ->).
  apply history_Some in Hh as (_ & -> & _).
  eexists (history_entry rt (Message.mk _ cid role (Py.strip content) _)).
  split; [|cbn; repeat split; reflexivity].
  apply List.in_map, order_by_created_at_In. unfold where_conversation.
  apply List.filter_In. split; [|cbn; apply N.eqb_refl].
  rewrite Hm. apply List.in_or_app. right. now left.
Qed.

(** What an append does to the log and the clock, whatever its
    outcome. *)
Lemma save_message_log cid role content w o w1 :
  save_message rt cid role content w = (o, w1) ->
  (messages w1 = messages w /\ (ticks w1 = ticks w \/ ticks w1 = S (ticks w)))
  \/ (ticks w1 = S (ticks w)
      /\ exists m, Message.created_at m = utcnow_at rt (ticks w)
                   /\ messages w1 = (messages w ++ [m])%list).
Proof.
  unfold save_message, commit_insert_message, round_trip, utcnow, uuid4, bind, ret, raise,
    set_messages.
  destruct (negb _); cbn; [intros [= <- <-]; left; auto|].
  destruct (Py.blank content); cbn; [intros [= <- <-]; left; auto|].
  destruct (db_fault rt (ops w)); cbn; [intros [= <- <-]; left; auto|].
  destruct (existsb _ (messages w)); cbn; [intros [= <- <-]; left; auto|].
  destruct (db_fault rt (S (ops w))); cbn; intros [= <- <-]; cbn;
    right; (split; [reflexivity|]); eexists; (split; [|reflexivity]); reflexivity.
Qed.

(** C9 (as the code has it).  A history read returns the messages of
    the conversation, each once, with non-decreasing created_at,
    whatever the clock did and however the engine orders equal stamps.
    It returns them in insertion order, role and content, whenever
    their stamps grow strictly in that order.  That holds of every
    conversation while the log is strictly chronological, which every
    read keeps and, under a clock whose readings grow, every append,
    whatever its outcome; the empty log is strictly chronological. *)
Theorem history_follows_insertion_order :
  (forall cid user_id w h w',
     get_conversation_history rt cid user_id w = (Return (Some h), w') ->
     StronglySorted Z.le (map h_created_at h)
     /\ h ≡ₚ map (history_entry rt) (insertion_order cid (messages w))
     /\ (strictly_ascending (insertion_order cid (messages w)) ->
         h = map (history_entry rt) (insertion_order cid (messages w))
         /\ map h_role h = map Message.role (insertion_order cid (messages w))
         /\ map h_content h = map Message.content (insertion_order cid (messages w)))
     /\ (strictly_chronological rt w -> strictly_chronological rt w'))
  /\ (advancing_clock rt ->
      forall cid role content w o w1,
        strictly_chronological rt w ->
        save_message rt cid role content w = (o, w1) ->
        strictly_chronological rt w1)
  /\ (forall cid w,
        strictly_chronological rt w ->
        strictly_ascending (insertion_order cid (messages w)))
  /\ (forall w, messages w = [] -> strictly_chronological rt w).
Proof.
  split; [|split; [|split]].
  - intros cid uid w h w' Hh.
    apply history_Some in Hh as (_ & -> & (_ & _ & Hm) & Ht).
    rewrite where_conversation_insertion_order.
    split; [|split; [|split]].
    + rewrite List.map_map. cbn. apply order_by_created_at_sorted.
    + apply Permutation_map, order_by_created_at_perm.
    + intros Hs. rewrite order_by_created_at_id by exact Hs.
      split; [reflexivity|]. rewrite !List.map_map. cbn. split; reflexivity.
    + unfold strictly_chronological. now rewrite Hm, Ht.
  - intros Hclock cid role content w o w1 [Hs Hc] Hsave.
    unfold strictly_chronological, strictly_ascending in *.
    apply save_message_log in Hsave as [[Hm Ht]|(Ht & m & Hstamp & Hm)]; rewrite Hm.
    + split; [exact Hs|]. destruct Ht as [-> | ->]; [exact Hc|].
      eapply List.Forall_impl; [|exact Hc]. cbn. intros x Hx.
      pose proof (Hclock (ticks w) (S (ticks w)) ltac:(lia)). lia.
    + rewrite Ht, List.map_app. cbn. split.
      * apply ascending_snoc; [exact Hs|]. rewrite Hstamp.
        apply List.Forall_forall. intros z Hz. apply List.in_map_iff in Hz as (x & <- & Hx).
        rewrite List.Forall_forall in Hc. now apply Hc.
      * pose proof (Hclock (ticks w) (S (ticks w)) ltac:(lia)) as Hnext.
        apply List.Forall_app. split.
        -- eapply List.Forall_impl; [|exact Hc]. cbn. intros x Hx. lia.
        -- constructor; [|constructor]. rewrite Hstamp. exact Hnext.
  - intros cid w [Hs _]. now apply insertion_order_ascending.
  - intros w Hw. unfold strictly_chronological, strictly_ascending. rewrite Hw.
    split; constructor.
Qed.

(** C10.  A conversation id under which the caller owns nothing, for
    lack of any conversation or because it is another owner's, makes the
    history read return None after its one SELECT, and makes the chat
    turn end with status 404 at that same point: no message, task or
    conversation is written, and the two cases end in the same world. *)
Theorem foreign_conversation_is_not_found cid user_id w :
  db_fault rt (ops w) = None ->
  not_visible w cid user_id ->
  get_conversation_history rt cid user_id w
  = (Return None, after_round_trip w (EvSelectConversation cid user_id))
  /\ forall request,
       truthy_opt (conversation_id request) = true ->
       uuid_of_str rt (default "" (conversation_id request)) = Some cid ->
       (1 <= N.of_nat (String.length (message request)) <= 10000)%N ->
       chat rt request user_id w
       = (Raise (HTTPException 404 "Conversation not found or access denied"),
          after_round_trip w (EvSelectConversation cid user_id))
       /\ status_code_of (fst (chat rt request user_id w)) = 404%nat
       /\ same_tables w (snd (chat rt request user_id w)).
Proof.
  intros Hf Hn.
  assert (Hh : get_conversation_history rt cid user_id w
               = (Return None, after_round_trip w (EvSelectConversation cid user_id))).
  { unfold not_visible in Hn.
    unfold get_conversation_history, round_trip, bind, ret, get_world. rewrite Hf. cbn.
    destruct (conversations w !! cid) as [c|]; [|reflexivity].
    destruct (N.eqb_spec (Conversation.user_id c) user_id); [contradiction|reflexivity]. }
  split; [exact Hh|].
  intros request Hc Hu Hlen.
  assert (Hchat : chat rt request user_id w
                  = (Raise (HTTPException 404 "Conversation not found or access denied"),
                     after_round_trip w (EvSelectConversation cid user_id))).
  { unfold chat.
    replace (String.length (message request) <? 1)%nat with false
      by (symmetry; apply Nat.ltb_ge; lia).
    replace (10000 <? N.of_nat (String.length (message request)))%N with false
      by (symmetry; apply N.ltb_ge; lia).
    cbn [orb]. rewrite Hc. unfold UUID_or_raise. rewrite Hu.
    unfold bind at 1 2 3, ret at 1. rewrite Hh. reflexivity. }
  rewrite Hchat. repeat split; reflexivity.
Qed.


(** ** The orchestrator *)

Lemma call_tool_frame uid t args :
  (forall s u, str_arg args "user_id" = Some s -> uuid_of_str rt s = Some u -> u = uid) ->
  respects (tool_frame uid) (call_tool rt t args).
Proof.
  intros Hu. unfold call_tool, mistyped.
  destruct (has_key args "session"); [apply respects_raise, tool_frame_refl|].
  destruct (negb _); [apply respects_raise, tool_frame_refl|].
  destruct (str_arg args "user_id") as [s|] eqn:Hs; [|apply respects_raise, tool_frame_refl].
  specialize (Hu s). 
  destruct t.
  - destruct (opt_str_arg args "title" None), (opt_str_arg args "priority" (Some "medium")),
      (opt_str_arg args "due_date" None), (opt_str_arg args "tags" None);
      first [ apply add_task_frame; auto | apply respects_raise, tool_frame_refl ].
  - destruct (opt_bool_arg args "filter_completed");
      first [ apply list_tasks_frame | apply respects_raise, tool_frame_refl ].
  - destruct (str_arg args "task_id");
      first [ apply complete_task_frame; auto | apply respects_raise, tool_frame_refl ].
  - destruct (str_arg args "task_id");
      first [ apply delete_task_frame; auto | apply respects_raise, tool_frame_refl ].
  - destruct (str_arg args "task_id"), (opt_str_arg args "new_title" None),
      (opt_bool_arg args "completed"), (opt_str_arg args "priority" None),
      (opt_str_arg args "due_date" None), (opt_str_arg args "tags" None);
      first [ apply update_task_frame; auto | apply respects_raise, tool_frame_refl ].
Qed.

Lemma execute_tool_frame uid name args :
  (forall s u, str_arg args "user_id" = Some s -> uuid_of_str rt s = Some u -> u = uid) ->
  respects (tool_frame uid) (_execute_tool rt name args).
Proof.
  intros Hu. unfold _execute_tool.
  destruct (tools_map name) as [t|]; [|apply respects_raise, tool_frame_refl].
  destruct (List.filter _ _); [|apply respects_raise, tool_frame_refl].
  apply respects_try_except.
  - apply tool_frame_trans.
  - now apply call_tool_frame.
  - intros e. apply respects_raise, tool_frame_refl.
Qed.

Lemma str_arg_inject args user_id :
  str_arg (inject_user_id rt args user_id) "user_id" = Some (str_of_uuid rt user_id).
Proof. unfold str_arg, inject_user_id. now rewrite lookup_insert_eq. Qed.

Lemma process_response_frame uid response user_id :
  (forall u, uuid_of_str rt (str_of_uuid rt user_id) = Some u -> u = uid) ->
  respects (tool_frame uid) (_process_openai_response rt response user_id).
Proof.
  intros Hu. unfold _process_openai_response.
  destruct (tool_calls response) as [|call rest].
  - destruct (message_content response) as [c|]; [destruct (Py.truthy c)|];
      apply respects_ret, tool_frame_refl.
  - destruct (function_arguments call) as [args|]; [|apply respects_raise, tool_frame_refl].
    apply respects_try_except; [apply tool_frame_trans | |].
    + apply respects_bind; [apply tool_frame_trans | |].
      * apply execute_tool_frame. intros s u. rewrite str_arg_inject. intros [= <-]. apply Hu.
      * intros r. apply respects_ret, tool_frame_refl.
    + intros e. apply respects_ret, tool_frame_refl.
Qed.

Lemma inject_user_id_agree args args' user_id :
  (forall k, k <> "user_id" -> args !! k = args' !! k) ->
  inject_user_id rt args user_id = inject_user_id rt args' user_id.
Proof.
  intros H. apply map_eq. intros k. unfold inject_user_id.
  destruct (decide ("user_id" = k)) as [<-|Hne].
  - now rewrite !lookup_insert_eq.
  - rewrite !lookup_insert_ne by exact Hne. apply H. congruence.
Qed.

(** C1.  Whatever owner value the reasoning service wrote into the
    arguments of the tool call it selected, the tool runs on arguments
    whose user_id is the authenticated caller's: the reply and the
    effects are the same for any two argument objects that agree off the
    user_id key, and the run changes no task row but the caller's own,
    no conversation and no message. *)
Theorem injected_owner_decides (user_id : N) name (args args' : gmap string json) rest
  content w :
  (forall k, k <> "user_id" -> args !! k = args' !! k) ->
  uuid_of_str rt (str_of_uuid rt user_id) = Some user_id ->
  let response a :=
    {| tool_calls := {| function_name := name; function_arguments := Some a |} :: rest;
       message_content := content |} in
  inject_user_id rt args user_id !! "user_id" = Some (JStr (str_of_uuid rt user_id))
  /\ _process_openai_response rt (response args) user_id
     = try_except
         (let* result := _execute_tool rt name (inject_user_id rt args user_id) in
          ret (_generate_response_from_result name result))
         (fun e => ret ("Sorry, I encountered an error: " ++ exn_str e))
  /\ _process_openai_response rt (response args) user_id w
     = _process_openai_response rt (response args') user_id w
  /\ forall o w',
       _process_openai_response rt (response args) user_id w = (o, w') ->
       tool_frame user_id w w'.
Proof.
  intros Hagree Hcodec response. split; [|split; [|split]].
  - unfold inject_user_id. apply lookup_insert_eq.
  - reflexivity.
  - unfold _process_openai_response, response. cbn.
    now rewrite (inject_user_id_agree args args' user_id Hagree).
  - intros o w'. apply process_response_frame.
    intros u. rewrite Hcodec. now intros [= <-].
Qed.



(** ** Persisting a turn *)

Lemma process_message_phases user_message user_id conversation_id w :
  process_message rt user_message user_id conversation_id w
  = bind (reply_phase rt user_message user_id conversation_id)
         (persist_phase rt user_message conversation_id) w.
Proof.
  unfold process_message, reply_phase, persist_phase, bind.
  destruct (match conversation_id with
            | Some cid => get_conversation_history rt cid user_id
            | None => ret (Some [])
            end w) as [[[h|]|e] w0]; [|reflexivity|reflexivity].
  destruct (chat_completions_create rt _ w0) as [[a|e] w1]; [|reflexivity].
  destruct (match a with
            | inl e => ret _
            | inr response => _process_openai_response rt response user_id
            end w1) as [[text|e] w2]; [|reflexivity].
  reflexivity.
Qed.

Lemma tool_frame_leaves_log uid w w' : tool_frame uid w w' -> leaves_log w w'.
Proof. now intros (_ & H & _). Qed.

Lemma history_leaves_log cid uid :
  respects leaves_log (get_conversation_history rt cid uid).
Proof.
  intros w o w'.
  unfold get_conversation_history, round_trip, bind, ret, get_world. cbn.
  destruct (db_fault rt (ops w)); cbn.
  - intros [= <- <-]. split; [reflexivity|]. eexists. split; [reflexivity|reflexivity].
  - destruct (conversations w !! cid) as [c|]; cbn.
    + destruct (negb _); cbn.
      * intros [= <- <-]. split; [reflexivity|]. eexists. split; reflexivity.
      * destruct (db_fault rt (S (ops w))); cbn; intros [= <- <-];
          (split; [reflexivity|]; eexists; split;
           [unfold events_since; cbn; rewrite <- app_assoc; reflexivity | reflexivity]).
    + intros [= <- <-]. split; [reflexivity|]. eexists. split; reflexivity.
Qed.

Lemma reply_phase_leaves_log user_message user_id conversation_id :
  respects leaves_log (reply_phase rt user_message user_id conversation_id).
Proof.
  unfold reply_phase.
  apply respects_bind; [apply leaves_log_trans | |].
  - destruct conversation_id; [apply history_leaves_log|].
    apply respects_ret, leaves_log_refl.
  - intros [h|]; [|apply respects_raise, leaves_log_refl].
    apply respects_bind; [apply leaves_log_trans | |].
    + intros w o w' [= <- <-]. split; [reflexivity|]. eexists. split; reflexivity.
    + intros [e|response].
      * apply respects_bind; [apply leaves_log_trans | |];
          [|intros; apply respects_ret, leaves_log_refl].
        apply respects_ret, leaves_log_refl.
      * apply respects_bind; [apply leaves_log_trans | |];
          [|intros; apply respects_ret, leaves_log_refl].
        intros w o w' H.
        eapply tool_frame_leaves_log.
        eapply (process_response_frame
                  (default 0%N (uuid_of_str rt (str_of_uuid rt user_id)))); [|exact H].
        intros u ->. reflexivity.
Qed.

Lemma save_message_ok cid role content w :
  Py.mem role ["user"; "assistant"] = true -> Py.blank content = false ->
  db_fault rt (ops w) = None -> db_fault rt (S (ops w)) = None ->
  fresh_message_id w (uuid4_at rt (draws w)) ->
  let m := Message.mk (uuid4_at rt (draws w)) cid role (Py.strip content)
                      (utcnow_at rt (ticks w)) in
  save_message rt cid role content w
  = (Return {| md_message_id := str_of_uuid rt (Message.id m);
               md_conversation_id := str_of_uuid rt cid;
               md_role := role;
               md_content := Py.strip content;
               md_created_at := utcnow_at rt (ticks w) |},
     appended w m).
Proof.
  intros Hr Hb F0 F1 Hfresh m. unfold fresh_message_id in Hfresh.
  unfold save_message, commit_insert_message, round_trip, utcnow, uuid4, bind, ret, raise,
    set_messages.
  rewrite Hr, Hb. cbn. rewrite F0. cbn. rewrite Hfresh. cbn. rewrite F1. cbn.
  unfold appended. cbn. rewrite <- app_assoc. reflexivity.
Qed.

(** C3 (as the code has it).  A turn on an existing conversation that
    gets as far as a reply (context load passed, the answer of the
    reasoning service could be read), with a user message and a reply
    that are not blank, a database that answers and two unused message
    ids, appends exactly two messages: the trimmed user message, then
    the trimmed reply; up to that point, tool run included, the message
    log was neither written nor asked to be, and the four round trips
    of the two appends are the last events of the turn. *)
Theorem turn_persists_user_then_reply user_message user_id cid w h reply w1 :
  reply_phase rt user_message user_id (Some cid) w = (Return (h, reply), w1) ->
  Py.blank user_message = false -> Py.blank reply = false ->
  healthy rt w1 4 ->
  let i1 := uuid4_at rt (draws w1) in
  let i2 := uuid4_at rt (S (draws w1)) in
  fresh_message_id w1 i1 -> fresh_message_id w1 i2 -> i1 <> i2 ->
  let m1 := Message.mk i1 cid "user" (Py.strip user_message) (utcnow_at rt (ticks w1)) in
  let m2 := Message.mk i2 cid "assistant" (Py.strip reply) (utcnow_at rt (S (ticks w1))) in
  let w2 := appended (appended w1 m1) m2 in
  process_message rt user_message user_id (Some cid) w
  = (Return {| assistant_message := reply;
               history := h;
               ar_conversation_id := Some (str_of_uuid rt cid) |}, w2)
  /\ messages w2 = (messages w ++ [m1; m2])%list
  /\ leaves_log w w1
  /\ events_since w1 w2
       [EvInsertMessage cid "user" (Py.strip user_message); EvRefresh i1;
        EvInsertMessage cid "assistant" (Py.strip reply); EvRefresh i2].
Proof.
  intros Hreply Hbu Hbr Hh i1 i2 Hf1 Hf2 Hne m1 m2 w2.
  pose proof (reply_phase_leaves_log _ _ _ _ _ _ Hreply) as Hlog.
  pose proof (healthy_at w1 4 0 Hh ltac:(lia)) as F0.
  pose proof (healthy_at w1 4 1 Hh ltac:(lia)) as F1.
  pose proof (healthy_at w1 4 2 Hh ltac:(lia)) as F2.
  pose proof (healthy_at w1 4 3 Hh ltac:(lia)) as F3.
  cbn [Nat.add] in *.
  split; [|split; [|split]].
  - rewrite process_message_phases, (bind_Return _ _ _ _ _ Hreply).
    unfold persist_phase. cbn [fst snd option_map].
    pose proof (save_message_ok cid "user" user_message w1 eq_refl Hbu F0 F1 Hf1) as S1.
    cbn zeta in S1. fold i1 in S1. fold m1 in S1.
    assert (Hf2' : fresh_message_id (appended w1 m1) (uuid4_at rt (draws (appended w1 m1)))).
    { unfold fresh_message_id, appended. cbn. rewrite existsb_app. cbn.
      unfold fresh_message_id in Hf2. fold i2. rewrite Hf2. cbn.
      rewrite orb_false_r. apply N.eqb_neq. exact Hne. }
    pose proof (save_message_ok cid "assistant" reply (appended w1 m1) eq_refl Hbr F2 F3 Hf2')
      as S2.
    cbn zeta in S2.
    unfold bind at 1. unfold bind at 1. rewrite S1. unfold bind at 1. rewrite S2.
    reflexivity.
  - destruct Hlog as [Hm _]. unfold w2, appended. cbn. rewrite Hm, <- app_assoc. reflexivity.
  - exact Hlog.
  - unfold events_since, w2, appended. cbn. rewrite <- app_assoc. reflexivity.
Qed.

End Properties.

(** * The properties on the small database *)

(** C2.  Bob asks for Alice's task 7 and for the id 8 that nobody has.
    Each tool fails with the TASK_NOT_FOUND code both times, but with
    two different texts, which the orchestrator passes on to Bob; the
    REST handlers answer 403 for the first and 404 for the second. *)
Lemma another_owners_task_is_told_apart :
  fst (complete_task Demo.quiet "2" "7" Demo.world)
  = Raise (ValueError "TASK_NOT_FOUND: Task belongs to different user")
  /\ fst (complete_task Demo.quiet "2" "8" Demo.world)
     = Raise (ValueError "TASK_NOT_FOUND: Task does not exist")
  /\ fst (delete_task Demo.quiet "2" "7" Demo.world)
     = Raise (ValueError "TASK_NOT_FOUND: Task belongs to different user")
  /\ fst (delete_task Demo.quiet "2" "8" Demo.world)
     = Raise (ValueError "TASK_NOT_FOUND: Task does not exist")
  /\ fst (update_task Demo.quiet "2" "7" Demo.no_patch Demo.world)
     = Raise (ValueError "TASK_NOT_FOUND: Task belongs to different user")
  /\ fst (update_task Demo.quiet "2" "8" Demo.no_patch Demo.world)
     = Raise (ValueError "TASK_NOT_FOUND: Task does not exist")
  /\ fst (_process_openai_response Demo.quiet
            (Demo.call "complete_task" [("task_id", JStr "7")]) Demo.bob Demo.world)
     = Return "Sorry, I encountered an error: TASK_NOT_FOUND: Task belongs to different user"
  /\ fst (_process_openai_response Demo.quiet
            (Demo.call "complete_task" [("task_id", JStr "8")]) Demo.bob Demo.world)
     = Return "Sorry, I encountered an error: TASK_NOT_FOUND: Task does not exist"
  /\ status_code_of (fst (api_update_task Demo.quiet 7 Demo.no_update Demo.bob Demo.world))
     = 403%nat
  /\ status_code_of (fst (api_update_task Demo.quiet 8 Demo.no_update Demo.bob Demo.world))
     = 404%nat
  /\ status_code_of (fst (api_delete_task Demo.quiet 7 Demo.bob Demo.world)) = 403%nat
  /\ status_code_of (fst (api_delete_task Demo.quiet 8 Demo.bob Demo.world)) = 404%nat.
Proof. repeat split; vm_compute; reflexivity. Qed.

(** C5.  add_task does not check the length of tags, as update_task
    does.  Alice adds a task with tags of 501 characters: every check
    of add_task passes and the INSERT is issued.  A database that takes
    the row stores the 501 characters; one that refuses it, as a
    VARCHAR(500) column does, makes the call end in DATABASE_ERROR after
    that store access.  update_task turns the same tags down with
    INVALID_TAGS before it touches the store. *)
Lemma add_task_sends_overlong_tags_to_the_store :
  String.length Cases.long_tags = 501%nat
  /\ tags_stage (Some Cases.long_tags)
     = Some (ValueError "INVALID_TAGS: tags cannot exceed 500 characters")
  /\ add_task_validation Demo.quiet "1" (Some "Buy milk") None None = None
  /\ (exists r w',
        add_task Demo.quiet "1" (Some "Buy milk") None None (Some Cases.long_tags) Demo.world
        = (Return r, w')
        /\ trace w' = [EvInsertTask 100; EvRefresh 100]
        /\ option_map Task.tags (tasks w' !! 100%N) = Some (Some Cases.long_tags))
  /\ fst (add_task Cases.refusing "1" (Some "Buy milk") None None (Some Cases.long_tags)
                   Demo.world)
     = Raise (ValueError ("DATABASE_ERROR: " ++ Cases.too_long))
  /\ trace (snd (add_task Cases.refusing "1" (Some "Buy milk") None None
                          (Some Cases.long_tags) Demo.world))
     = [EvInsertTask 100]
  /\ update_task Demo.quiet "1" "7" Cases.tagging Demo.world
     = (Raise (ValueError "INVALID_TAGS: tags cannot exceed 500 characters"), Demo.world).
Proof.
  split; [vm_compute; reflexivity|]. split; [vm_compute; reflexivity|].
  split; [vm_compute; reflexivity|]. split.
  { eexists. eexists. split; [vm_compute; reflexivity|].
    split; vm_compute; reflexivity. }
  split; [vm_compute; reflexivity|]. split; vm_compute; reflexivity.
Qed.

(** C3, counterexample.  Alice sends a single space in her conversation
    50.  Context load passes and the reasoning service answers, but the
    append of the user message is refused, so the turn ends in a 500
    with no message added. *)
Lemma blank_message_is_not_persisted :
  ~ persists_both Demo.quiet " " Demo.alice 50 Demo.world
  /\ status_code_of
       (fst (chat Demo.quiet {| message := " "; conversation_id := Some "50" |}
                  Demo.alice Demo.world)) = 500%nat
  /\ messages
       (snd (chat Demo.quiet {| message := " "; conversation_id := Some "50" |}
                  Demo.alice Demo.world)) = messages Demo.world.
Proof.
  split; [|split; vm_compute; reflexivity].
  intros H. edestruct H as (m1 & m2 & Hm & _); [vm_compute; reflexivity|].
  apply (f_equal (@List.length _)) in Hm. vm_compute in Hm. discriminate.
Qed.


(** C8, counterexample.  Alice's message " hi" is stored and replayed
    as "hi". *)
Lemma content_is_not_replayed_verbatim :
  ~ replays_verbatim Demo.quiet 50 Demo.alice "user" " hi" Demo.world.
Proof.
  intros H.
  edestruct H as (e & Hin & _ & Hc & _); [vm_compute; reflexivity | vm_compute; reflexivity |].
  cbn in Hin. destruct Hin as [<-|[<-|[<-|[]]]]; vm_compute in Hc; discriminate.
Qed.

(** C9, counterexample.  Two appends to conversation 50, "first" and
    then "second".  With a clock that is set back between them the
    history returns "second" before "first"; with a clock that stands
    still the two carry the same stamp and come as the engine hands
    them out, here the later one first. *)
Lemma history_against_insertion_order :
  (exists md1 w1 md2 w2,
     save_message Cases.rewinding 50 "user" "first" Demo.world = (Return md1, w1)
     /\ save_message Cases.rewinding 50 "assistant" "second" w1 = (Return md2, w2)
     /\ ~ returns_insertion_order Cases.rewinding 50 Demo.alice w2)
  /\ (exists md1 w1 md2 w2,
        save_message Cases.stalled 50 "user" "first" Demo.world = (Return md1, w1)
        /\ save_message Cases.stalled 50 "assistant" "second" w1 = (Return md2, w2)
        /\ ~ returns_insertion_order Cases.stalled 50 Demo.alice w2).
Proof.
  split.
  - eexists. eexists. eexists. eexists.
    split; [vm_compute; reflexivity|]. split; [vm_compute; reflexivity|].
    intros H.
    lazymatch type of H with
    | returns_insertion_order _ _ _ ?w =>
        eassert (Hh : get_conversation_history Cases.rewinding 50 Demo.alice w
                      = (Return (Some _), _)) by (vm_compute; reflexivity)
    end.
    apply H in Hh. vm_compute in Hh. discriminate.
  - eexists. eexists. eexists. eexists.
    split; [vm_compute; reflexivity|]. split; [vm_compute; reflexivity|].
    intros H.
    lazymatch type of H with
    | returns_insertion_order _ _ _ ?w =>
        eassert (Hh : get_conversation_history Cases.stalled 50 Demo.alice w
                      = (Return (Some _), _)) by (vm_compute; reflexivity)
    end.
    apply H in Hh. vm_compute in Hh. discriminate.
Qed.

(** C1 on the small database: the owner the reasoning service forged
    into the arguments of add_task makes no difference. *)
Lemma injected_owner_decides_witness :
  (forall k, k <> "user_id" -> Demo.forged_milk !! k = Demo.milk !! k)
  /\ (uuid_of_str Demo.quiet (str_of_uuid Demo.quiet Demo.alice) = Some Demo.alice)
  /\ _process_openai_response Demo.quiet
       {| tool_calls := [{| function_name := "add_task";
                            function_arguments := Some Demo.forged_milk |}];
          message_content := None |} Demo.alice Demo.world
     = _process_openai_response Demo.quiet
         {| tool_calls := [{| function_name := "add_task";
                              function_arguments := Some Demo.milk |}];
            message_content := None |} Demo.alice Demo.world.
Proof.
  assert (H : forall k, k <> "user_id" -> Demo.forged_milk !! k = Demo.milk !! k).
  { intros k Hk. unfold Demo.forged_milk. apply lookup_insert_ne. congruence. }
  assert (C : (uuid_of_str Demo.quiet (str_of_uuid Demo.quiet Demo.alice) = Some Demo.alice)) by (vm_compute; reflexivity).
  split; [exact H|]. split; [exact C|].
  exact (proj1 (proj2 (proj2
    (injected_owner_decides Demo.quiet Demo.alice "add_task" Demo.forged_milk Demo.milk
       [] None Demo.world H C)))).
Defined.

(** C3 on the small database: a turn that completes task 7. *)
Lemma turn_persists_user_then_reply_witness :
  messages (snd (process_message Demo.completing "done 7" Demo.alice (Some 50%N) Demo.world))
  = (messages Demo.world
     ++ [Message.mk 100 50 "user" "done 7" 1001;
         Message.mk 101 50 "assistant"
           "I've marked the task 'Buy groceries' as completed." 1002])%list.
Proof.
  edestruct (turn_persists_user_then_reply Demo.completing "done 7" Demo.alice 50
               Demo.world) as (Hp & Hm & _).
  - vm_compute. reflexivity.
  - vm_compute. reflexivity.
  - vm_compute. reflexivity.
  - intros k _. reflexivity.
  - vm_compute. reflexivity.
  - vm_compute. reflexivity.
  - vm_compute. discriminate.
  - rewrite Hp. cbn [snd]. rewrite Hm. vm_compute. reflexivity.
Defined.


(** The stage order on the small database: Bob's complete_task on
    Alice's task stops after the lookup. *)
Lemma validation_precedes_store_access_witness :
  not_owned Demo.world 7 Demo.bob
  /\ exists msg,
       complete_task Demo.quiet "2" "7" Demo.world
       = (Raise (ValueError msg), after_round_trip Demo.world (EvSelectTask 7)).
Proof.
  assert (H : not_owned Demo.world 7 Demo.bob) by (vm_compute; discriminate).
  split; [exact H|].
  exact (proj1 (proj2 (proj2 (proj2 (proj2
    (validation_precedes_store_access Demo.quiet Demo.world)))) "2" "7" Demo.bob 7%N
    eq_refl eq_refl eq_refl H)).
Defined.

(** C6 on the small database: Alice completes her task 7 twice. *)
Lemma complete_task_twice_witness :
  exists w1 w2,
    complete_task Demo.quiet "1" "7" Demo.world
    = (Return (CompleteResult "7" "completed" "Buy groceries" true "1000"), w1)
    /\ complete_task Demo.quiet "1" "7" w1
       = (Return (CompleteResult "7" "completed" "Buy groceries" true "1001"), w2).
Proof.
  destruct (complete_task_twice Demo.quiet "1" "7" Demo.alice 7%N Demo.groceries Demo.world
              eq_refl eq_refl eq_refl eq_refl eq_refl (fun k _ => eq_refl))
    as (w1 & w2 & H1 & _ & _ & H2 & _).
  exists w1, w2. split; [exact H1 | exact H2].
Defined.

(** C7 on the small database: a new title and a new priority. *)
Lemma update_task_applies_patch_witness :
  well_keyed Demo.world
  /\ exists r w',
       update_task Demo.quiet "1" "7" Demo.retitle Demo.world = (Return r, w')
       /\ tasks w' !! 7%N
          = Some (Task.mk 7 1 "Buy oat milk" false "high" None None 10 1000).
Proof.
  assert (Hwk : well_keyed Demo.world).
  { intros k t. unfold Demo.world. cbn [tasks].
    intros H. apply lookup_singleton_Some in H as [<- <-]. reflexivity. }
  split; [exact Hwk|].
  eexists. eexists. split; [vm_compute; reflexivity|].
  edestruct (update_task_applies_patch Demo.quiet "1" "7" Demo.retitle Demo.world)
    as (uid & tid & old & _ & Ht & Hl & _ & Hn & _); [exact Hwk | vm_compute; reflexivity |].
  vm_compute in Ht. injection Ht as <-.
  vm_compute in Hl. injection Hl as <-.
  cbn zeta in Hn. rewrite Hn, lookup_insert_eq. vm_compute. reflexivity.
Defined.

(** C8 on the small database: " hi" comes back as "hi". *)
Lemma appended_message_is_replayed_witness :
  exists md w1 h w2 e,
    save_message Demo.quiet 50 "user" " hi" Demo.world = (Return md, w1)
    /\ get_conversation_history Demo.quiet 50 Demo.alice w1 = (Return (Some h), w2)
    /\ In e h /\ h_role e = "user" /\ h_content e = "hi".
Proof.
  eexists. eexists. eexists. eexists.
  edestruct (appended_message_is_replayed Demo.quiet 50 Demo.alice "user" " hi" Demo.world)
    as (e & Hin & _ & Hr & Hc & _); [vm_compute; reflexivity | vm_compute; reflexivity |].
  exists e. split; [vm_compute; reflexivity|]. split; [vm_compute; reflexivity|].
  split; [exact Hin|]. split; [exact Hr | exact Hc].
Defined.

(** C9 on the small database, whose clock advances by one at each
    reading: the history of conversation 50, whose two messages carry
    the stamps 20 and 21, and the log after one more append. *)
Lemma history_follows_insertion_order_witness :
  advancing_clock Demo.quiet
  /\ strictly_chronological Demo.quiet Demo.world
  /\ (exists h w',
        get_conversation_history Demo.quiet 50 Demo.alice Demo.world = (Return (Some h), w')
        /\ map h_role h = ["user"; "assistant"]
        /\ map h_content h = ["hello"; "Hi there"])
  /\ (exists md w1,
        save_message Demo.quiet 50 "user" "thanks" Demo.world = (Return md, w1)
        /\ strictly_chronological Demo.quiet w1).
Proof.
  assert (Hc : advancing_clock Demo.quiet).
  { intros i j Hij. cbn. lia. }
  assert (Hw : strictly_chronological Demo.quiet Demo.world).
  { split; [unfold strictly_ascending|]; cbn; repeat constructor; cbn; lia. }
  pose proof (history_follows_insertion_order Demo.quiet) as (Hread & Happend & Hconv & _).
  split; [exact Hc|]. split; [exact Hw|]. split.
  - eexists. eexists. split; [vm_compute; reflexivity|].
    edestruct (Hread 50%N Demo.alice Demo.world) as (_ & _ & H & _);
      [vm_compute; reflexivity|].
    destruct (H (Hconv 50%N Demo.world Hw)) as (_ & Er & Ec). rewrite Er, Ec.
    split; reflexivity.
  - eexists. eexists. split; [vm_compute; reflexivity|].
    eapply (Happend Hc 50%N "user" "thanks" Demo.world _ _ Hw).
    vm_compute. reflexivity.
Defined.

(** C10 on the small database: Bob names Alice's conversation. *)
Lemma foreign_conversation_is_not_found_witness :
  not_visible Demo.world 50 Demo.bob
  /\ chat Demo.quiet {| message := "hi"; conversation_id := Some "50" |} Demo.bob Demo.world
     = (Raise (HTTPException 404 "Conversation not found or access denied"),
        after_round_trip Demo.world (EvSelectConversation 50 Demo.bob)).
Proof.
  assert (H : not_visible Demo.world 50 Demo.bob) by (vm_compute; discriminate).
  split; [exact H|].
  apply (proj2 (foreign_conversation_is_not_found Demo.quiet 50%N Demo.bob Demo.world
                  eq_refl H)).
  - reflexivity.
  - vm_compute. reflexivity.
  - split; vm_compute; discriminate.
Defined.


(** * Further properties of the tools, the stores and the handlers *)

Section Coverage.

Context (rt : Runtime).

(** Symbolic execution, as above. *)
Ltac exec_step :=
  match goal with
  | |- context [db_fault rt ?k] => destruct (db_fault rt k) eqn:?
  | |- context [uuid_of_str rt ?s] => destruct (uuid_of_str rt s) eqn:?
  | |- context [fromisoformat rt ?s] => destruct (fromisoformat rt s) eqn:?
  | |- context [tasks ?w !! ?k] => destruct (tasks w !! k) eqn:?
  | |- context [N.eqb ?a ?b] => destruct (N.eqb_spec a b)
  | |- context [if ?b then _ else _] => destruct b eqn:?
  | |- context [match ?x with Some _ => _ | None => _ end] => destruct x eqn:?
  end.

Ltac exec := repeat (cbn; try exec_step).

Ltac unfold_code :=
  unfold add_task, list_tasks, complete_task, delete_task, update_task,
    UUID_or_raise, get_owned_task, commit_insert_task, commit_update_task,
    commit_delete_task, reraise_custom, database_error, round_trip, utcnow, uuid4,
    try_except, bind, ret, raise, get_world, modify, set_tasks, apply_patch.

(** ** The failures of the tools *)

(** X1.  Called with arguments of the types its signature declares
    (strings, None where the signature allows it, a boolean flag), a
    tool that fails raises a ValueError whose text starts with one of
    the eight error codes, whatever the values and whatever the
    database does.  Values of other JSON types, which the orchestrator
    hands on unchecked, are outside this statement: [UUID(7)] raises an
    AttributeError. *)
Theorem tool_failures_are_coded w e w' :
  (forall user_id title priority due_date tags,
     add_task rt user_id title priority due_date tags w = (Raise e, w') -> coded e = true)
  /\ (forall user_id filter_completed,
        list_tasks rt user_id filter_completed w = (Raise e, w') -> coded e = true)
  /\ (forall user_id task_id,
        complete_task rt user_id task_id w = (Raise e, w') -> coded e = true)
  /\ (forall user_id task_id,
        delete_task rt user_id task_id w = (Raise e, w') -> coded e = true)
  /\ (forall user_id task_id patch,
        update_task rt user_id task_id patch w = (Raise e, w') -> coded e = true).
Proof.
  split; [|split; [|split; [|split]]]; intros *; unfold_code; exec; intros [= <- <-];
    reflexivity.
Qed.

(** X2.  A tool that fails with any code but DATABASE_ERROR has written
    nothing: the three tables are as they were. *)
Theorem coded_failure_writes_nothing w e w' :
  is_database_error e = false ->
  (forall user_id title priority due_date tags,
     add_task rt user_id title priority due_date tags w = (Raise e, w') -> same_tables w w')
  /\ (forall user_id filter_completed,
        list_tasks rt user_id filter_completed w = (Raise e, w') -> same_tables w w')
  /\ (forall user_id task_id,
        complete_task rt user_id task_id w = (Raise e, w') -> same_tables w w')
  /\ (forall user_id task_id,
        delete_task rt user_id task_id w = (Raise e, w') -> same_tables w w')
  /\ (forall user_id task_id patch,
        update_task rt user_id task_id patch w = (Raise e, w') -> same_tables w w').
Proof.
  intros Hdb.
  split; [|split; [|split; [|split]]]; intros *; unfold_code; exec; intros [= <- <-];
    try discriminate Hdb; repeat split.
Qed.


(** ** The rows the tools write *)



Ltac bools :=
  repeat match goal with
  | H : _ || _ = false |- _ => apply orb_false_elim in H as [? ?]
  | H : negb _ = false |- _ => apply negb_false_iff in H
  | H : negb _ = true |- _ => apply negb_true_iff in H
  | H : _ && _ = true |- _ => apply andb_prop in H as [? ?]
  | H : (_ <? _)%nat = false |- _ => apply Nat.ltb_ge in H
  end.













(** ** Round trips through the task table *)

Lemma In_task_rows w t : In t (task_rows w) <-> exists k, tasks w !! k = Some t.
Proof.
  unfold task_rows. rewrite List.in_map_iff. split.
  - intros ([k t'] & <- & Hin). exists k.
    apply elem_of_map_to_list, list_elem_of_In, Hin.
  - intros (k & Hk). exists (k, t). split; [reflexivity|].
    apply list_elem_of_In, elem_of_map_to_list, Hk.
Qed.

Lemma where_owner_true uid flt t :
  where_owner uid flt t = true
  <-> Task.user_id t = uid
      /\ match flt with Some f => Task.completed t = f | None => True end.
Proof.
  unfold where_owner. rewrite andb_true_iff, N.eqb_eq.
  destruct flt as [f|]; [rewrite Bool.eqb_true_iff|]; intuition.
Qed.

(** What a successful add_task did. *)
Lemma add_task_Return user_id title priority due_date tags w r w' :
  add_task rt user_id title priority due_date tags w = (Return r, w') ->
  exists t,
    tasks w !! Task.id t = None
    /\ tasks w' = <[Task.id t := t]> (tasks w)
    /\ conversations w' = conversations w /\ messages w' = messages w
    /\ Task.id t = uuid4_at rt (draws w)
    /\ uuid_of_str rt user_id = Some (Task.user_id t)
    /\ Task.title t = Py.strip (default "" title)
    /\ Task.completed t = false
    /\ Task.priority t = (if truthy_opt priority then default "" priority else "medium")
    /\ Task.due_date t
       = (if truthy_opt due_date
          then fromisoformat rt (Py.replace_Z (default "" due_date)) else None)
    /\ Task.tags t = tags
    /\ r = AddResult (str_of_uuid rt (Task.id t)) "created" (Task.title t) false
                     (Task.priority t) (isoformat_opt rt (Task.due_date t)) (Task.tags t)
                     (isoformat rt (Task.created_at t)).
Proof.
  unfold_code. exec; intros [= <- <-].
  all: eexists (Task.mk _ _ _ _ _ _ _ _ _); cbn.
  all: repeat split; try reflexivity; try assumption.
  all: cbn [andb] in *; bools; try congruence.
Qed.

(** X4.  A successful add_task has stored exactly one new row, under an
    id that was free: it belongs to the owner named by user_id, carries
    the trimmed title, is not completed, has the given priority or
    medium when the priority is missing or empty, the parsed due date
    and the tags as given; the result reports that row. *)
Theorem add_task_stores_one_row user_id title priority due_date tags w r w' :
  add_task rt user_id title priority due_date tags w = (Return r, w') ->
  exists t,
    tasks w !! Task.id t = None
    /\ tasks w' = <[Task.id t := t]> (tasks w)
    /\ conversations w' = conversations w /\ messages w' = messages w
    /\ Task.id t = uuid4_at rt (draws w)
    /\ uuid_of_str rt user_id = Some (Task.user_id t)
    /\ Task.title t = Py.strip (default "" title)
    /\ Task.completed t = false
    /\ Task.priority t = (if truthy_opt priority then default "" priority else "medium")
    /\ Task.due_date t
       = (if truthy_opt due_date
          then fromisoformat rt (Py.replace_Z (default "" due_date)) else None)
    /\ Task.tags t = tags
    /\ r = AddResult (str_of_uuid rt (Task.id t)) "created" (Task.title t) false
                     (Task.priority t) (isoformat_opt rt (Task.due_date t)) (Task.tags t)
                     (isoformat rt (Task.created_at t)).
Proof.
  intros H. destruct (add_task_Return _ _ _ _ _ _ _ _ H) as (t & Hfree & Hrest).
  exists t. split; [exact Hfree | exact Hrest].
Qed.

Lemma unordered_In l t : In t (unordered rt l) <-> In t l.
Proof. apply sort_by_In. Qed.

Lemma unordered_perm l : unordered rt l ≡ₚ l.
Proof. apply sort_by_perm. Qed.

Lemma NoDup_map_filter {A B} (f : A -> B) (p : A -> bool) (l : list A) :
  NoDup (map f l) -> NoDup (map f (List.filter p l)).
Proof.
  induction l as [|x l IH]; cbn; intros H; [constructor|].
  apply NoDup_cons in H as [Hx Hl].
  destruct (p x); cbn; [|now apply IH].
  apply NoDup_cons. split; [|now apply IH].
  intros Hin. apply Hx. apply list_elem_of_In in Hin. apply list_elem_of_In.
  apply List.in_map_iff in Hin as (y & Hy & Hin).
  apply List.filter_In in Hin as [Hin _]. apply List.in_map_iff. eauto.
Qed.

Lemma NoDup_map_back {A B} (f : A -> B) (l : list A) : NoDup (map f l) -> NoDup l.
Proof.
  induction l as [|x l IH]; cbn; intros H; [constructor|].
  apply NoDup_cons in H as [Hx Hl].
  apply NoDup_cons. split; [|now apply IH].
  intros Hin. apply Hx. apply list_elem_of_In. apply List.in_map.
  now apply list_elem_of_In.
Qed.

(** On a well-keyed table no two rows carry the same id. *)
Lemma task_rows_NoDup w : well_keyed w -> NoDup (map Task.id (task_rows w)).
Proof.
  intros Hwk. unfold task_rows.
  assert (E : map Task.id (map snd (map_to_list (tasks w))) = map fst (map_to_list (tasks w))).
  { rewrite List.map_map. apply List.map_ext_in. intros [k t] Hin. cbn.
    apply Hwk. apply elem_of_map_to_list, list_elem_of_In, Hin. }
  rewrite E. exact (NoDup_fst_map_to_list (tasks w)).
Qed.

(** What a successful list_tasks returns. *)
Lemma list_tasks_Return user_id flt w r w' :
  list_tasks rt user_id flt w = (Return r, w') ->
  exists uid rows,
    uuid_of_str rt user_id = Some uid
    /\ r = ListResult (map (task_json rt) rows) (length rows)
    /\ rows ≡ₚ List.filter (where_owner uid flt) (task_rows w)
    /\ same_tables w w'.
Proof.
  unfold_code. exec; intros [= <- <-].
  eexists. eexists. split; [reflexivity|]. rewrite length_map.
  split; [reflexivity|]. split; [apply unordered_perm|]. repeat split.
Qed.

Lemma list_tasks_ok user_id uid flt w :
  uuid_of_str rt user_id = Some uid -> db_fault rt (ops w) = None ->
  exists rows,
    list_tasks rt user_id flt w
    = (Return (ListResult (map (task_json rt) rows) (length rows)),
       after_round_trip w (EvSelectTasks uid flt))
    /\ rows ≡ₚ List.filter (where_owner uid flt) (task_rows w).
Proof.
  intros Hu Hf. eexists. split.
  - unfold_code. rewrite Hu. cbn. rewrite Hf. cbn. rewrite length_map. reflexivity.
  - apply unordered_perm.
Qed.

(** X5.  list_tasks returns the tasks of the owner that match the
    filter, all of them and no others, with count the number of
    entries, which is the number of matching rows of the table; on a
    table keyed by the rows' ids no row is listed twice.  The order of
    the entries is the engine's.  It writes nothing. *)
Theorem list_tasks_is_exact user_id flt w r w' :
  list_tasks rt user_id flt w = (Return r, w') ->
  exists uid rows,
    uuid_of_str rt user_id = Some uid
    /\ r = ListResult (map (task_json rt) rows) (length rows)
    /\ (forall t,
          In t rows
          <-> (exists k, tasks w !! k = Some t)
              /\ Task.user_id t = uid
              /\ match flt with Some f => Task.completed t = f | None => True end)
    /\ length rows = length (List.filter (where_owner uid flt) (task_rows w))
    /\ (well_keyed w -> NoDup rows /\ NoDup (map Task.id rows))
    /\ same_tables w w'.
Proof.
  intros H. apply list_tasks_Return in H as (uid & rows & Hu & -> & Hp & Hs).
  exists uid, rows.
  split; [exact Hu|]. split; [reflexivity|]. split; [|split; [|split; [|exact Hs]]].
  - intros t. rewrite <- In_task_rows, <- where_owner_true, <- List.filter_In.
    split; apply Permutation_in; [exact Hp | symmetry; exact Hp].
  - apply Permutation_length, Hp.
  - intros Hwk.
    assert (Hn : NoDup (map Task.id rows)).
    { rewrite (Permutation_map Task.id Hp).
      apply NoDup_map_filter, task_rows_NoDup, Hwk. }
    split; [exact (NoDup_map_back _ _ Hn) | exact Hn].
Qed.

(** X6.  A task that add_task has just created is in what list_tasks
    returns to the same owner, unfiltered or filtered for open tasks. *)
Theorem added_task_is_listed user_id title priority due_date tags w r w1 flt :
  add_task rt user_id title priority due_date tags w = (Return r, w1) ->
  db_fault rt (ops w1) = None ->
  flt = None \/ flt = Some false ->
  exists rows w2 t,
    list_tasks rt user_id flt w1
    = (Return (ListResult (map (task_json rt) rows) (length rows)), w2)
    /\ In t rows
    /\ r = AddResult (j_task_id (task_json rt t)) "created" (j_title (task_json rt t)) false
                     (j_priority (task_json rt t)) (j_due_date (task_json rt t))
                     (j_tags (task_json rt t)) (j_created_at (task_json rt t)).
Proof.
  intros Ha Hf Hflt.
  apply add_task_Return in Ha
    as (t & _ & Ht & _ & _ & _ & Hu & _ & Hc & _ & _ & _ & ->).
  destruct (list_tasks_ok user_id _ flt w1 Hu Hf) as (rows & Hl & Hp).
  exists rows. eexists. exists t. split; [exact Hl|].
  split; [|reflexivity].
  apply (Permutation_in _ (Permutation_sym Hp)).
  rewrite List.filter_In, In_task_rows, where_owner_true. split.
  - exists (Task.id t). rewrite Ht. apply lookup_insert_eq.
  - split; [reflexivity|]. destruct Hflt as [->| ->]; [exact I | exact Hc].
Qed.


(** What a successful delete_task did. *)
Lemma delete_task_Return user_id task_id w r w' :
  delete_task rt user_id task_id w = (Return r, w') ->
  exists uid tid t,
    uuid_of_str rt user_id = Some uid /\ uuid_of_str rt task_id = Some tid
    /\ tasks w !! tid = Some t /\ Task.user_id t = uid
    /\ tasks w' = delete (Task.id t) (tasks w)
    /\ conversations w' = conversations w /\ messages w' = messages w
    /\ ops w' = S (S (ops w))
    /\ r = DeleteResult (str_of_uuid rt tid) "deleted" (Task.title t).
Proof.
  unfold_code. exec; intros [= <- <-].
  eexists. eexists. eexists. repeat split; try reflexivity; eassumption.
Qed.

(** X7.  Deletion is permanent: after a successful delete_task the id
    holds no row, the rows of all other ids are as before, list_tasks
    no longer returns a row of that id, and complete_task, delete_task
    and update_task on that id fail with TASK_NOT_FOUND, writing
    nothing. *)
Theorem deleted_task_is_gone user_id task_id w r w1 :
  well_keyed w ->
  delete_task rt user_id task_id w = (Return r, w1) ->
  db_fault rt (ops w1) = None ->
  exists uid tid,
    uuid_of_str rt user_id = Some uid /\ uuid_of_str rt task_id = Some tid
    /\ tasks w1 = delete tid (tasks w)
    /\ (forall flt r' w2,
          list_tasks rt user_id flt w1 = (Return r', w2) ->
          exists rows,
            r' = ListResult (map (task_json rt) rows) (length rows)
            /\ forall t, In t rows -> Task.id t <> tid)
    /\ (exists msg,
          complete_task rt user_id task_id w1
          = (Raise (ValueError msg), after_round_trip w1 (EvSelectTask tid))
          /\ Py.contains "TASK_NOT_FOUND" msg = true)
    /\ (exists msg,
          delete_task rt user_id task_id w1
          = (Raise (ValueError msg), after_round_trip w1 (EvSelectTask tid))
          /\ Py.contains "TASK_NOT_FOUND" msg = true)
    /\ (forall patch,
          update_task_validation rt user_id task_id patch = None ->
          exists msg,
            update_task rt user_id task_id patch w1
            = (Raise (ValueError msg), after_round_trip w1 (EvSelectTask tid))
            /\ Py.contains "TASK_NOT_FOUND" msg = true).
Proof.
  intros Hwk Hd Hf.
  apply delete_task_Return in Hd as (uid & tid & t & Hu & Ht & Hl & _ & Hd & _ & _ & _ & _).
  rewrite (Hwk _ _ Hl) in Hd.
  assert (Hgone : not_owned w1 tid uid).
  { unfold not_owned. now rewrite Hd, lookup_delete_eq. }
  exists uid, tid. split; [exact Hu|]. split; [exact Ht|]. split; [exact Hd|].
  split; [|split; [|split]].
  - intros flt r' w2 Hlist.
    apply list_tasks_Return in Hlist as (uid' & rows & Hu' & -> & Hp & _).
    exists rows. split; [reflexivity|].
    intros x Hx. apply (Permutation_in _ Hp) in Hx.
    apply List.filter_In in Hx as [Hx _].
    apply In_task_rows in Hx as (k & Hk). rewrite Hd in Hk.
    destruct (decide (tid = k)) as [<-|Hne]; [now rewrite lookup_delete_eq in Hk|].
    rewrite lookup_delete_ne in Hk by exact Hne.
    rewrite (Hwk _ _ Hk). congruence.
  - apply (complete_task_not_owned rt _ _ _ _ _ Hu Ht Hf Hgone).
  - apply (delete_task_not_owned rt _ _ _ _ _ Hu Ht Hf Hgone).
  - intros patch Hv. apply (update_task_not_owned rt _ _ _ _ _ _ Hu Ht Hv Hf Hgone).
Qed.


(** ** The conversation store, further *)

(** X8.  A history read returns the messages of the conversation asked
    for, every one of them exactly once and none of any other
    conversation, and it writes nothing. *)
Theorem history_is_the_conversation cid user_id w h w' :
  get_conversation_history rt cid user_id w = (Return (Some h), w') ->
  exists rows,
    h = map (history_entry rt) rows
    /\ rows ≡ₚ where_conversation cid (messages w)
    /\ (forall m, In m rows <-> In m (messages w) /\ Message.conversation_id m = cid)
    /\ same_tables w w'.
Proof.
  intros H. apply history_Some in H as (_ & -> & Hs & _).
  eexists. split; [reflexivity|]. split; [apply order_by_created_at_perm|].
  split; [|exact Hs].
  intros m. rewrite order_by_created_at_In. unfold where_conversation.
  rewrite List.filter_In, N.eqb_eq. tauto.
Qed.



(** What a successful create_conversation did. *)
Lemma create_conversation_Return user_id w d w1 :
  create_conversation rt user_id w = (Return d, w1) ->
  let cid := uuid4_at rt (draws w) in
  conversations w !! cid = None
  /\ conversations w1 = <[cid := Conversation.mk cid user_id (utcnow_at rt (ticks w))]>
                          (conversations w)
  /\ messages w1 = messages w /\ tasks w1 = tasks w
  /\ d = {| cd_conversation_id := str_of_uuid rt cid;
            cd_user_id := str_of_uuid rt user_id;
            cd_created_at := utcnow_at rt (ticks w) |}.
Proof.
  unfold create_conversation, commit_insert_conversation, round_trip, utcnow, uuid4, bind,
    ret, raise, set_conversations. cbn.
  destruct (db_fault rt (ops w)); cbn; [discriminate|].
  destruct (conversations w !! uuid4_at rt (draws w)) eqn:Hfree; cbn; [discriminate|].
  destruct (db_fault rt (S (ops w))); cbn; [discriminate|].
  intros [= <- <-]. cbn. repeat split; assumption.
Qed.

Lemma history_ok cid user_id c w :
  conversations w !! cid = Some c -> Conversation.user_id c = user_id ->
  db_fault rt (ops w) = None -> db_fault rt (S (ops w)) = None ->
  fst (get_conversation_history rt cid user_id w)
  = Return (Some (map (history_entry rt)
                      (order_by_created_at rt (where_conversation cid (messages w))))).
Proof.
  intros Hc Ho F0 F1.
  unfold get_conversation_history, round_trip, bind, ret, get_world. cbn.
  rewrite F0. cbn. rewrite Hc, Ho, N.eqb_refl. cbn. rewrite F1. reflexivity.
Qed.

Lemma history_hidden cid user_id w :
  not_visible w cid user_id -> db_fault rt (ops w) = None ->
  fst (get_conversation_history rt cid user_id w) = Return None.
Proof.
  intros Hn F0. unfold not_visible in Hn.
  unfold get_conversation_history, round_trip, bind, ret, get_world. cbn.
  rewrite F0. cbn. destruct (conversations w !! cid) as [c|]; [|reflexivity].
  destruct (N.eqb_spec (Conversation.user_id c) user_id); [contradiction|reflexivity].
Qed.

(** X10.  A conversation that create_conversation has just created is
    stored under a fresh id and belongs to the caller: while no message
    refers to that id its owner reads an empty history, and every other
    user is answered None. *)
Theorem new_conversation_is_the_callers user_id w d w1 :
  create_conversation rt user_id w = (Return d, w1) ->
  healthy rt w1 2 ->
  let cid := uuid4_at rt (draws w) in
  conversations w !! cid = None
  /\ cd_conversation_id d = str_of_uuid rt cid
  /\ (unreferenced w cid ->
      fst (get_conversation_history rt cid user_id w1) = Return (Some []))
  /\ forall other,
       other <> user_id -> fst (get_conversation_history rt cid other w1) = Return None.
Proof.
  intros Hc Hh cid.
  apply create_conversation_Return in Hc as (Hfree & Hconv & Hm & _ & ->).
  pose proof (healthy_at rt w1 2 0 Hh ltac:(lia)) as F0.
  pose proof (healthy_at rt w1 2 1 Hh ltac:(lia)) as F1.
  cbn [Nat.add] in *.
  split; [exact Hfree|]. split; [reflexivity|]. split.
  - intros Hun. erewrite history_ok; [| rewrite Hconv; apply lookup_insert_eq | reflexivity
                                     | exact F0 | exact F1].
    unfold unreferenced in Hun. fold cid. now rewrite Hm, Hun.
  - intros other Hne. apply history_hidden; [|exact F0].
    unfold not_visible. fold cid. rewrite Hconv, lookup_insert_eq. cbn. congruence.
Qed.

(** ** Turns that do not persist both messages *)

(** X11.  When the reply of a turn is blank (the reasoning service
    answered with white space only) while the user message is not, the
    user message is appended and the append of the reply is refused:
    the turn raises "Message content cannot be empty" with exactly one
    message added to the log. *)
Theorem blank_reply_persists_user_message_only user_message user_id cid w h reply w1 :
  reply_phase rt user_message user_id (Some cid) w = (Return (h, reply), w1) ->
  Py.blank user_message = false -> Py.blank reply = true ->
  healthy rt w1 2 ->
  fresh_message_id w1 (uuid4_at rt (draws w1)) ->
  let m1 := Message.mk (uuid4_at rt (draws w1)) cid "user" (Py.strip user_message)
                       (utcnow_at rt (ticks w1)) in
  process_message rt user_message user_id (Some cid) w
  = (Raise (ValueError "Message content cannot be empty"), appended w1 m1)
  /\ messages (appended w1 m1) = (messages w ++ [m1])%list.
Proof.
  intros Hreply Hbu Hbr Hh Hfresh m1.
  pose proof (reply_phase_leaves_log rt _ _ _ _ _ _ Hreply) as [Hm _].
  pose proof (healthy_at rt w1 2 0 Hh ltac:(lia)) as F0.
  pose proof (healthy_at rt w1 2 1 Hh ltac:(lia)) as F1.
  cbn [Nat.add] in *.
  split.
  - rewrite process_message_phases, (bind_Return _ _ _ _ _ Hreply).
    unfold persist_phase. cbn [fst snd].
    pose proof (save_message_ok rt cid "user" user_message w1 eq_refl Hbu F0 F1 Hfresh) as S1.
    cbn zeta in S1. fold m1 in S1.
    unfold bind at 1. unfold bind at 1. rewrite S1.
    unfold bind at 1. unfold save_message. cbn [negb]. 
    change (Py.mem "assistant" ["user"; "assistant"]) with true. cbn [negb].
    rewrite Hbr. reflexivity.
  - unfold appended. cbn. now rewrite Hm.
Qed.

(** X12.  A turn without a conversation id never touches the message
    log: whatever the reasoning service answers and whatever the tool
    does, no message is appended and no append is attempted. *)
Theorem turn_without_conversation_persists_nothing user_message user_id w o w' :
  process_message rt user_message user_id None w = (o, w') ->
  leaves_log w w'.
Proof.
  rewrite process_message_phases. unfold bind.
  destruct (reply_phase rt user_message user_id None w) as [[r|e] w1] eqn:Hr.
  - unfold persist_phase, bind, ret. intros [= <- <-].
    apply (reply_phase_leaves_log rt _ _ _ _ _ _ Hr).
  - intros [= <- <-]. apply (reply_phase_leaves_log rt _ _ _ _ _ _ Hr).
Qed.


(** ** Calls the orchestrator refuses, and the replies it renders *)

Lemma has_key_inject args user_id p :
  p <> "user_id" -> has_key (inject_user_id rt args user_id) p = has_key args p.
Proof.
  intros Hp. unfold has_key, inject_user_id. rewrite lookup_insert_ne by congruence.
  reflexivity.
Qed.

(** X13.  A tool call that names no tool, or that lacks a required
    parameter other than user_id, is answered with a sentence and never
    reaches a tool: the world is untouched.  user_id itself is never
    reported missing, since it has been written in. *)
Theorem refused_calls_touch_nothing response call rest args user_id w :
  tool_calls response = call :: rest ->
  function_arguments call = Some args ->
  (tools_map (function_name call) = None ->
   _process_openai_response rt response user_id w
   = (Return ("Sorry, I encountered an error: Unknown tool: " ++ function_name call), w))
  /\ (forall tool p,
        tools_map (function_name call) = Some tool ->
        In p (required_params tool) -> args !! p = None -> p <> "user_id" ->
        exists missing,
          _process_openai_response rt response user_id w
          = (Return ("Sorry, I encountered an error: Missing required parameters: "
                     ++ Py.repr_list missing), w)
          /\ In p missing /\ ~ In "user_id" missing).
Proof.
  intros Hc Ha. unfold _process_openai_response. rewrite Hc, Ha. split.
  - intros Hn. unfold _execute_tool, try_except, bind, raise, ret. rewrite Hn. reflexivity.
  - intros tool p Ht Hp Hnone Hne.
    unfold _execute_tool, try_except, bind, raise, ret. rewrite Ht.
    set (missing := List.filter _ (required_params tool)).
    assert (Hin : In p missing).
    { apply List.filter_In. split; [exact Hp|].
      rewrite has_key_inject by exact Hne. unfold has_key. now rewrite Hnone. }
    assert (Hno : ~ In "user_id" missing).
    { intros H. apply List.filter_In in H as [_ H].
      unfold has_key, inject_user_id in H. rewrite lookup_insert_eq in H. discriminate. }
    exists missing. destruct missing as [|q qs] eqn:E; [contradiction|].
    split; [reflexivity|]. split; assumption.
Qed.










(** ** TaskService *)

Ltac unfold_service :=
  unfold TaskService.create_task, TaskService.list_tasks, TaskService.get_task,
    TaskService.complete_task, TaskService.update_task, TaskService.delete_task,
    TaskService.create, TaskService.select_owned, TaskService.commit_onupdate,
    commit_insert_task, commit_update_task, commit_delete_task, round_trip, utcnow, uuid4,
    bind, ret, raise, get_world, modify, set_tasks.

Lemma select_owned_hidden tid uid w :
  db_fault rt (ops w) = None -> not_owned w tid uid ->
  TaskService.select_owned rt tid uid w = (Return None, after_round_trip w (EvSelectTask tid)).
Proof.
  intros Hf Hn. unfold not_owned in Hn. unfold_service. cbn. rewrite Hf. cbn.
  destruct (tasks w !! tid) as [t|]; [|reflexivity].
  destruct (N.eqb_spec (Task.user_id t) uid); [contradiction|reflexivity].
Qed.

(** X15.  In TaskService a task id under which the caller owns nothing
    is answered None by get_task, complete_task, update_task and
    delete_task alike, after the one SELECT and with nothing written;
    a task of another owner and an id that does not exist end in the
    same outcome and the same world. *)
Theorem service_hides_foreign_tasks tid uid w :
  db_fault rt (ops w) = None -> not_owned w tid uid ->
  let w' := after_round_trip w (EvSelectTask tid) in
  TaskService.get_task rt tid uid w = (Return None, w')
  /\ TaskService.complete_task rt tid uid w = (Return None, w')
  /\ (forall title, TaskService.update_task rt tid uid title w = (Return None, w'))
  /\ TaskService.delete_task rt tid uid w = (Return None, w').
Proof.
  intros Hf Hn w'.
  pose proof (select_owned_hidden tid uid w Hf Hn) as Hs.
  unfold TaskService.get_task, TaskService.complete_task, TaskService.update_task,
    TaskService.delete_task.
  repeat split; intros; rewrite (bind_Return _ _ _ _ _ Hs); reflexivity.
Qed.

(** What a successful create_task of the service did. *)
Lemma service_create_Return uid title w d w1 :
  TaskService.create_task rt uid title w = (Return d, w1) ->
  let tid := uuid4_at rt (draws w) in
  let t := Task.mk tid uid title false "medium" None None (utcnow_at rt (ticks w))
                   (utcnow_at rt (S (ticks w))) in
  tasks w !! tid = None /\ tasks w1 = <[tid := t]> (tasks w)
  /\ d = TaskService.task_dict rt t.
Proof.
  unfold_service. exec; intros [= <- <-]. repeat split; assumption.
Qed.

Lemma service_get_owned tid uid t w :
  tasks w !! tid = Some t -> Task.user_id t = uid -> db_fault rt (ops w) = None ->
  TaskService.get_task rt tid uid w
  = (Return (Some (TaskService.task_dict rt t)), after_round_trip w (EvSelectTask tid)).
Proof.
  intros Hl Ho Hf. unfold_service. cbn. rewrite Hf. cbn. rewrite Hl, Ho, N.eqb_refl.
  reflexivity.
Qed.

(** X16.  A task that create_task of the service has created is open,
    of priority medium, carries the title exactly as given, and is
    returned by get_task to its owner, with the dict create_task
    returned, and to nobody else. *)
Theorem service_create_then_get uid title w d w1 :
  TaskService.create_task rt uid title w = (Return d, w1) ->
  db_fault rt (ops w1) = None ->
  let tid := uuid4_at rt (draws w) in
  d = {| TaskService.td_task_id := str_of_uuid rt tid;
         TaskService.td_user_id := str_of_uuid rt uid;
         TaskService.td_title := title;
         TaskService.td_completed := false |}
  /\ (exists t, tasks w1 !! tid = Some t /\ Task.priority t = "medium"
                /\ Task.title t = title /\ Task.completed t = false)
  /\ fst (TaskService.get_task rt tid uid w1) = Return (Some d)
  /\ forall other, other <> uid -> fst (TaskService.get_task rt tid other w1) = Return None.
Proof.
  intros Hc Hf tid.
  apply service_create_Return in Hc as (_ & Ht & ->). fold tid in Ht.
  split; [reflexivity|]. split; [|split].
  - eexists. split; [rewrite Ht; apply lookup_insert_eq|]. repeat split.
  - erewrite service_get_owned; [reflexivity | rewrite Ht; apply lookup_insert_eq
                                 | reflexivity | exact Hf].
  - intros other Hne. unfold TaskService.get_task.
    assert (Hn : not_owned w1 tid other).
    { unfold not_owned. rewrite Ht, lookup_insert_eq. cbn. congruence. }
    rewrite (bind_Return _ _ _ _ _ (select_owned_hidden tid other w1 Hf Hn)).
    reflexivity.
Qed.

Lemma service_delete_Return tid uid w d w1 :
  well_keyed w ->
  TaskService.delete_task rt tid uid w = (Return (Some d), w1) ->
  exists t,
    tasks w !! tid = Some t /\ Task.user_id t = uid
    /\ d = TaskService.task_dict rt t
    /\ tasks w1 = delete tid (tasks w).
Proof.
  intros Hwk. unfold_service. cbn.
  destruct (db_fault rt (ops w)); cbn; [discriminate|].
  destruct (tasks w !! tid) as [t|] eqn:Hl; cbn; [|discriminate].
  destruct (N.eqb_spec (Task.user_id t) uid) as [Ho|_]; cbn; [|discriminate].
  destruct (db_fault rt (S (ops w))); cbn; [discriminate|].
  intros [= <- <-]. exists t. split; [reflexivity|]. split; [exact Ho|].
  split; [reflexivity|]. cbn. now rewrite (Hwk _ _ Hl).
Qed.

(** X17.  delete_task of the service on a task of the caller returns
    the task as it was and removes the row stored under the given id
    and no other; get_task on the id then answers None. *)
Theorem service_delete_then_get tid uid w d w1 :
  well_keyed w ->
  TaskService.delete_task rt tid uid w = (Return (Some d), w1) ->
  db_fault rt (ops w1) = None ->
  exists t,
    tasks w !! tid = Some t /\ Task.user_id t = uid
    /\ d = TaskService.task_dict rt t
    /\ tasks w1 = delete tid (tasks w)
    /\ fst (TaskService.get_task rt tid uid w1) = Return None.
Proof.
  intros Hwk Hd Hf.
  apply (service_delete_Return _ _ _ _ _ Hwk) in Hd as (t & Hl & Ho & -> & Ht).
  exists t. split; [exact Hl|]. split; [exact Ho|]. split; [reflexivity|].
  split; [exact Ht|].
  assert (Hn : not_owned w1 tid uid).
  { unfold not_owned. now rewrite Ht, lookup_delete_eq. }
  unfold TaskService.get_task.
  rewrite (bind_Return _ _ _ _ _ (select_owned_hidden tid uid w1 Hf Hn)).
  reflexivity.
Qed.

(** X18.  complete_task of the service on a task of the caller, with
    the database answering, returns the task as completed; the stored
    row is completed and differs from the old one, if at all, only in
    completed and updated_at; no other row changes.  It succeeds in the
    same way on a task that is completed already. *)
Theorem service_complete_task tid uid t w :
  tasks w !! tid = Some t -> Task.id t = tid -> Task.user_id t = uid ->
  healthy rt w 3 ->
  exists stamp w1,
    TaskService.complete_task rt tid uid w
    = (Return (Some {| TaskService.td_task_id := str_of_uuid rt tid;
                       TaskService.td_user_id := str_of_uuid rt uid;
                       TaskService.td_title := Task.title t;
                       TaskService.td_completed := true |}), w1)
    /\ tasks w1 = <[tid := completed_at t stamp]> (tasks w)
    /\ conversations w1 = conversations w /\ messages w1 = messages w.
Proof.
  intros Hl Hid Ho Hh. subst tid uid.
  pose proof (healthy_at rt w 3 0 Hh ltac:(lia)) as F0.
  pose proof (healthy_at rt w 3 1 Hh ltac:(lia)) as F1.
  pose proof (healthy_at rt w 3 2 Hh ltac:(lia)) as F2.
  cbn [Nat.add] in *.
  unfold_service. cbn. rewrite F0. cbn. rewrite Hl, N.eqb_refl. cbn.
  destruct (Task.completed t) eqn:Hc; cbn; rewrite F1; cbn; rewrite F2; cbn.
  - exists (Task.updated_at t). eexists. split; [reflexivity|]. cbn.
    split; [|split; reflexivity].
    symmetry. apply insert_id. rewrite Hl. f_equal.
    destruct t; cbn in *; subst; reflexivity.
  - exists (utcnow_at rt (ticks w)). eexists. split; [reflexivity|]. cbn.
    repeat split.
Qed.

(** X19.  update_task of the service does not check the title: on a
    task of the caller, for a title of at most 500 characters (what the
    column holds) and with the database answering, the stored title
    becomes the given string as it is, not trimmed, an empty or blank
    one included; the row otherwise differs from the old one only in
    updated_at, and no other row changes.  What becomes of a longer
    title is the database's decision and is not stated. *)
Theorem service_update_task_sets_title tid uid t title w :
  tasks w !! tid = Some t -> Task.id t = tid -> Task.user_id t = uid ->
  (String.length title <= 500)%nat ->
  healthy rt w 3 ->
  exists stamp w1,
    TaskService.update_task rt tid uid title w
    = (Return (Some {| TaskService.td_task_id := str_of_uuid rt tid;
                       TaskService.td_user_id := str_of_uuid rt uid;
                       TaskService.td_title := title;
                       TaskService.td_completed := Task.completed t |}), w1)
    /\ tasks w1 = <[tid := retitled t title stamp]> (tasks w)
    /\ conversations w1 = conversations w /\ messages w1 = messages w.
Proof.
  intros Hl Hid Ho _ Hh. subst tid uid.
  pose proof (healthy_at rt w 3 0 Hh ltac:(lia)) as F0.
  pose proof (healthy_at rt w 3 1 Hh ltac:(lia)) as F1.
  pose proof (healthy_at rt w 3 2 Hh ltac:(lia)) as F2.
  cbn [Nat.add] in *.
  unfold_service. cbn. rewrite F0. cbn. rewrite Hl, N.eqb_refl. cbn.
  destruct (String.eqb_spec (Task.title t) title) as [E|_]; cbn; rewrite F1; cbn;
    rewrite F2; cbn.
  - exists (Task.updated_at t). eexists. split; [reflexivity|]. cbn.
    split; [|split; reflexivity].
    symmetry. apply insert_id. rewrite Hl. f_equal.
    destruct t; cbn in *; subst; reflexivity.
  - exists (utcnow_at rt (ticks w)). eexists. split; [reflexivity|]. cbn.
    repeat split.
Qed.

(** X20.  The legacy create stores every task under the one id
    00000000-0000-0000-0000-000000000000: a task it has created sits
    under that id, and while that id is taken every further create, of
    whatever owner and title, fails and writes nothing. *)
Theorem legacy_create_has_one_slot uid title w :
  (forall t w1,
     TaskService.create rt uid title w = (Return t, w1) ->
     Task.id t = 0%N /\ tasks w !! 0%N = None /\ tasks w1 !! 0%N = Some t)
  /\ (forall x o w1,
        tasks w !! 0%N = Some x ->
        TaskService.create rt uid title w = (o, w1) ->
        (exists e, o = Raise e) /\ same_tables w w1).
Proof.
  split.
  - intros t w1. unfold_service. cbn.
    destruct (db_fault rt (ops w)); cbn; [discriminate|].
    destruct (tasks w !! 0%N) eqn:Hl; cbn; [discriminate|].
    destruct (db_fault rt (S (ops w))); cbn; [discriminate|].
    intros [= <- <-]. cbn. split; [reflexivity|]. split; [reflexivity|].
    apply lookup_insert_eq.
  - intros x o w1 Hl. unfold_service. cbn.
    destruct (db_fault rt (ops w)); cbn.
    + intros [= <- <-]. split; [eauto|]. repeat split.
    + rewrite Hl. cbn. intros [= <- <-]. split; [eauto|]. repeat split.
Qed.


(** ** The REST task endpoints *)

Ltac unfold_rest :=
  unfold api_create_task, api_update_task, api_delete_task, api_list_tasks,
    commit_insert_task, commit_update_task, commit_delete_task, round_trip, utcnow, uuid4,
    bind, ret, raise, get_world, modify, set_tasks.

Ltac rest_leaf :=
  intros [= <- <-];
  first
    [ apply tool_frame_refl
    | eapply tool_frame_intro;
      [ rewrite <- ?app_assoc; reflexivity
      | reflexivity
      | first
          [ apply frame_unchanged
          | intros Hwk; apply frame_insert; [ | | | exact Hwk ]
          | intros Hwk; apply frame_delete; [ | exact Hwk ] ] ] ];
  cbn;
  repeat match goal with
  | Hwk : well_keyed ?w, H : tasks ?w !! ?k = Some ?t |- context [tasks ?w !! Task.id ?t] =>
      rewrite (Hwk _ _ H), H
  | H : tasks ?w !! ?k = _ |- context [tasks ?w !! ?k] => rewrite H
  end;
  cbn;
  first [ reflexivity | exact I | congruence ].

(** X21.  The REST handlers run for a caller leave the conversations
    and the message log alone and, on a well-keyed task table, create,
    change or delete only rows of that caller; listing writes nothing. *)
Theorem rest_writes_stay_with_the_caller uid :
  (forall task_data, respects (tool_frame uid) (api_create_task rt task_data uid))
  /\ (forall tid task_data, respects (tool_frame uid) (api_update_task rt tid task_data uid))
  /\ (forall tid, respects (tool_frame uid) (api_delete_task rt tid uid))
  /\ (forall flt, respects same_tables (api_list_tasks rt flt uid)).
Proof.
  split; [|split; [|split]].
  - intros task_data w o w'. unfold_rest. exec. all: rest_leaf.
  - intros tid task_data w o w'. unfold_rest. exec. all: rest_leaf.
  - intros tid w o w'. unfold_rest. exec. all: rest_leaf.
  - intros flt w o w'. unfold_rest. exec; intros [= <- <-]; repeat split.
Qed.


Lemma order_by_created_at_desc_perm l : order_by_created_at_desc rt l ≡ₚ l.
Proof. apply sort_by_perm. Qed.



Lemma api_list_tasks_Return flt uid w l w' :
  api_list_tasks rt flt uid w = (Return l, w') ->
  tl_tasks l = order_by_created_at_desc rt (List.filter (where_owner uid flt) (task_rows w))
  /\ tl_count l = length (tl_tasks l).
Proof.
  unfold_rest. cbn. destruct (db_fault rt (ops w)); cbn; [discriminate|].
  intros [= <- <-]. split; reflexivity.
Qed.

Lemma api_list_tasks_ok flt uid w :
  db_fault rt (ops w) = None ->
  api_list_tasks rt flt uid w
  = (Return {| tl_tasks := order_by_created_at_desc rt
                             (List.filter (where_owner uid flt) (task_rows w));
               tl_count := length (order_by_created_at_desc rt
                                     (List.filter (where_owner uid flt) (task_rows w))) |},
     after_round_trip w (EvSelectTasks uid flt)).
Proof. intros Hf. unfold_rest. cbn. rewrite Hf. reflexivity. Qed.


Lemma filter_perm {A} (f : A -> bool) (l l' : list A) :
  l ≡ₚ l' -> List.filter f l ≡ₚ List.filter f l'.
Proof.
  induction 1 as [|x l l' _ IH|x y l|l l' l'' _ IH1 _ IH2]; cbn.
  - reflexivity.
  - destruct (f x); [constructor|]; exact IH.
  - destruct (f x), (f y); try reflexivity. apply Permutation_swap.
  - now rewrite IH1.
Qed.

Lemma api_create_task_Return task_data uid w t w1 :
  api_create_task rt task_data uid w = (Return t, w1) ->
  create_body_ok task_data
  /\ t = Task.mk (uuid4_at rt (draws w)) uid (tc_title task_data) false
                 (if Py.truthy (tc_priority task_data)
                  then tc_priority task_data else "medium")
                 (tc_due_date task_data) (tc_tags task_data)
                 (utcnow_at rt (ticks w)) (utcnow_at rt (S (ticks w)))
  /\ tasks w !! Task.id t = None
  /\ tasks w1 = <[Task.id t := t]> (tasks w)
  /\ conversations w1 = conversations w /\ messages w1 = messages w.
Proof.
  unfold create_body_ok. unfold_rest.
  destruct (Nat.ltb_spec (String.length (tc_title task_data)) 1); cbn; [discriminate|].
  destruct (Nat.ltb_spec 500 (String.length (tc_title task_data))); cbn; [discriminate|].
  destruct (Nat.ltb_spec 20 (String.length (tc_priority task_data))); cbn; [discriminate|].
  destruct (db_fault rt (ops w)); cbn; [discriminate|].
  destruct (tasks w !! uuid4_at rt (draws w)) eqn:Hl; cbn; [discriminate|].
  destruct (db_fault rt (S (ops w))); cbn; [discriminate|].
  intros [= <- <-]. cbn. repeat split; try lia; assumption.
Qed.

(** X23.  A task that POST /api/v1/tasks has created belongs to the
    caller and is open; the next listing of the caller, unfiltered or
    filtered for open tasks, contains it and counts one row more than
    a listing before the creation would have. *)
Theorem rest_create_then_list task_data uid w t w1 flt :
  api_create_task rt task_data uid w = (Return t, w1) ->
  db_fault rt (ops w1) = None ->
  flt = None \/ flt = Some false ->
  Task.user_id t = uid /\ Task.completed t = false
  /\ exists l w2,
       api_list_tasks rt flt uid w1 = (Return l, w2)
       /\ In t (tl_tasks l)
       /\ tl_count l = S (length (List.filter (where_owner uid flt) (task_rows w))).
Proof.
  intros Hc Hf Hflt.
  apply api_create_task_Return in Hc as (_ & Ht & Hfree & Hins & _).
  assert (Hu : Task.user_id t = uid) by now subst t.
  assert (Ho : Task.completed t = false) by now subst t.
  assert (Hw : where_owner uid flt t = true).
  { apply where_owner_true. split; [exact Hu|]. destruct Hflt as [->| ->]; [exact I|exact Ho]. }
  split; [exact Hu|]. split; [exact Ho|].
  eexists. eexists. split; [apply api_list_tasks_ok, Hf|]. cbn [tl_tasks tl_count].
  assert (Hp : List.filter (where_owner uid flt) (task_rows w1)
               ≡ₚ t :: List.filter (where_owner uid flt) (task_rows w)).
  { unfold task_rows. rewrite Hins.
    eapply Permutation_trans.
    - apply filter_perm, Permutation_map, (map_to_list_insert (tasks w) (Task.id t) t Hfree).
    - cbn. now rewrite Hw. }
  split.
  - apply (Permutation_in _ (Permutation_sym (order_by_created_at_desc_perm _))).
    apply (Permutation_in _ (Permutation_sym Hp)). now left.
  - rewrite (Permutation_length (order_by_created_at_desc_perm _)).
    now rewrite (Permutation_length Hp).
Qed.

(** X24.  POST /api/v1/tasks stores title and priority as the body has
    them, checking no more than their lengths: a body within the
    lengths is stored, with the database answering and the drawn id
    unused, whatever its priority says and however blank its title is;
    only an empty priority is replaced, by medium. *)
Theorem rest_create_stores_body_as_given task_data uid w :
  create_body_ok task_data -> healthy rt w 2 -> tasks w !! uuid4_at rt (draws w) = None ->
  exists t w1,
    api_create_task rt task_data uid w = (Return t, w1)
    /\ tasks w1 !! uuid4_at rt (draws w) = Some t
    /\ Task.title t = tc_title task_data
    /\ Task.priority t = (if Py.truthy (tc_priority task_data)
                          then tc_priority task_data else "medium")
    /\ (Py.truthy (tc_priority task_data) = true ->
        Py.mem (tc_priority task_data) valid_priorities = false -> ~ valid_row t).
Proof.
  intros ((H1 & H2) & H3) Hh Hfree.
  pose proof (healthy_at rt w 2 0 Hh ltac:(lia)) as F0.
  pose proof (healthy_at rt w 2 1 Hh ltac:(lia)) as F1.
  cbn [Nat.add] in *.
  unfold_rest.
  destruct (Nat.ltb_spec (String.length (tc_title task_data)) 1); [lia|].
  destruct (Nat.ltb_spec 500 (String.length (tc_title task_data))); [lia|].
  destruct (Nat.ltb_spec 20 (String.length (tc_priority task_data))); [lia|].
  cbn. rewrite F0. cbn. rewrite Hfree. cbn. rewrite F1. cbn.
  eexists. eexists. split; [reflexivity|]. cbn.
  split; [apply lookup_insert_eq|]. split; [reflexivity|]. split; [reflexivity|].
  intros Ht Hm (_ & _ & Hv). cbn in Hv. rewrite Ht in Hv. congruence.
Qed.

(** X25.  After DELETE /api/v1/tasks/{task_id} has succeeded the row is
    gone and every other row is as it was.  A further DELETE on the id,
    by whichever user, is answered 404 after its lookup; a further PUT
    is answered 404 as well when its body passes the check of the
    framework, and 422 before any lookup when it does not (a title
    that is empty or longer than 500 characters); none of them writes
    anything. *)
Theorem rest_delete_then_not_found tid uid w w1 :
  well_keyed w ->
  api_delete_task rt tid uid w = (Return tt, w1) ->
  db_fault rt (ops w1) = None ->
  tasks w1 = delete tid (tasks w)
  /\ forall who body,
       api_delete_task rt tid who w1
       = (Raise (HTTPException 404 "Task not found"), after_round_trip w1 (EvSelectTask tid))
       /\ (update_body_ok body = true ->
           api_update_task rt tid body who w1
           = (Raise (HTTPException 404 "Task not found"),
              after_round_trip w1 (EvSelectTask tid)))
       /\ (update_body_ok body = false ->
           exists detail,
             api_update_task rt tid body who w1 = (Raise (HTTPException 422 detail), w1)).
Proof.
  intros Hwk Hd Hf.
  assert (Ht : tasks w1 = delete tid (tasks w)).
  { revert Hd. unfold_rest. cbn.
    destruct (db_fault rt (ops w)); cbn; [discriminate|].
    destruct (tasks w !! tid) as [t|] eqn:Hl; cbn; [|discriminate].
    destruct (negb _); cbn; [discriminate|].
    destruct (db_fault rt (S (ops w))); cbn; [discriminate|].
    intros [= <-]. cbn. now rewrite (Hwk _ _ Hl). }
  split; [exact Ht|]. intros who body.
  assert (E : tasks w1 !! tid = None) by (rewrite Ht; apply lookup_delete_eq).
  split; [|split].
  - unfold_rest. cbn. rewrite Hf. cbn. rewrite E. reflexivity.
  - intros Hb. unfold_rest. rewrite Hb. cbn. rewrite Hf. cbn. rewrite E. reflexivity.
  - intros Hb. unfold_rest. rewrite Hb. cbn. eexists. reflexivity.
Qed.

(** X26.  The three listings agree on the rows: for the same owner,
    filter and table, the list_tasks tool, list_tasks of the service
    and the REST listing return the same rows, each as often as the
    others, and the tool and the REST listing report their number as
    count.  None of the three statements but the REST one has an ORDER
    BY, so nothing is said about the order of the first two. *)
Theorem listings_agree user_id uid flt w r w1 ds w2 l w3 :
  uuid_of_str rt user_id = Some uid ->
  list_tasks rt user_id flt w = (Return r, w1) ->
  TaskService.list_tasks rt uid flt w = (Return ds, w2) ->
  api_list_tasks rt flt uid w = (Return l, w3) ->
  exists rows_t rows_s,
    r = ListResult (map (task_json rt) rows_t) (length rows_t)
    /\ ds = map (TaskService.task_dict rt) rows_s
    /\ rows_t ≡ₚ rows_s
    /\ tl_tasks l ≡ₚ rows_t
    /\ tl_count l = length rows_t
    /\ forall t,
         In t rows_t
         <-> (exists k, tasks w !! k = Some t)
             /\ Task.user_id t = uid
             /\ match flt with Some f => Task.completed t = f | None => True end.
Proof.
  intros Hu Hr Hs Hl.
  apply list_tasks_Return in Hr as (uid' & rows_t & Hu' & -> & Hp & _).
  assert (uid' = uid) as -> by congruence.
  apply api_list_tasks_Return in Hl as [Hl Hc].
  exists rows_t, (unordered rt (List.filter (where_owner uid flt) (task_rows w))).
  split; [reflexivity|]. split; [|split; [|split; [|split]]].
  - revert Hs. unfold_service. cbn. destruct (db_fault rt (ops w)); cbn; [discriminate|].
    now intros [= <- <-].
  - rewrite Hp. symmetry. apply unordered_perm.
  - rewrite Hl, Hp. apply order_by_created_at_desc_perm.
  - rewrite Hc, Hl, (Permutation_length Hp).
    apply Permutation_length, order_by_created_at_desc_perm.
  - intros t. rewrite <- In_task_rows, <- where_owner_true, <- List.filter_In.
    split; apply Permutation_in; [exact Hp | symmetry; exact Hp].
Qed.

(** ** Turns and the chat endpoint *)

Lemma bind_inv {A B} (m : M A) (k : A -> M B) w o w' :
  bind m k w = (o, w') ->
  (exists e, m w = (Raise e, w') /\ o = Raise e)
  \/ exists a w1, m w = (Return a, w1) /\ k a w1 = (o, w').
Proof.
  unfold bind. destruct (m w) as [[a|e] w1].
  - intros H. right. eauto.
  - intros [= <- <-]. left. eauto.
Qed.

(** What an append did, whatever its outcome. *)
Lemma save_message_appends cid role content w o w1 :
  save_message rt cid role content w = (o, w1) ->
  (messages w1 = messages w /\ forall md, o <> Return md)
  \/ exists m,
       Message.conversation_id m = cid /\ Message.role m = role
       /\ Message.content m = Py.strip content
       /\ messages w1 = (messages w ++ [m])%list.
Proof.
  unfold save_message, commit_insert_message, round_trip, utcnow, uuid4, bind, ret, raise,
    set_messages.
  destruct (negb _); cbn; [intros [= <- <-]; left; split; [reflexivity|discriminate]|].
  destruct (Py.blank content); cbn; [intros [= <- <-]; left; split; [reflexivity|discriminate]|].
  destruct (db_fault rt (ops w)); cbn;
    [intros [= <- <-]; left; split; [reflexivity|discriminate]|].
  destruct (existsb _ (messages w)); cbn;
    [intros [= <- <-]; left; split; [reflexivity|discriminate]|].
  destruct (db_fault rt (S (ops w))); cbn; intros [= <- <-]; cbn;
    right; eexists; repeat split; reflexivity.
Qed.

Lemma persist_phase_appends user_message cid reply w o w' :
  persist_phase rt user_message (Some cid) reply w = (o, w') ->
  exists new,
    messages w' = (messages w ++ new)%list /\ turn_messages cid new
    /\ Forall (fun m => Message.content m = Py.strip user_message
                        \/ Message.content m = Py.strip (snd reply)) new
    /\ forall ar, o = Return ar -> length new = 2%nat /\ assistant_message ar = snd reply.
Proof.
  unfold persist_phase. intros H.
  apply bind_inv in H as [(e & H & ->)|([] & w3 & H & Hret)].
  - apply bind_inv in H as [(e' & H & _)|(md1 & w1 & H1 & H)].
    + apply save_message_appends in H as [[Hm _]|(m & Hc & Hr & Hs & Hm)].
      * exists []. rewrite Hm, app_nil_r. repeat split; [constructor|discriminate|discriminate].
      * exists [m]. repeat split; auto; discriminate.
    + apply save_message_appends in H1 as [[_ Hno]|(m1 & Hc1 & Hr1 & Hs1 & Hm1)];
        [now contradiction (Hno md1)|].
      apply bind_inv in H as [(e' & H & _)|(md2 & w2 & H2 & H)]; [|discriminate H].
      apply save_message_appends in H as [[Hm _]|(m2 & Hc2 & Hr2 & Hs2 & Hm2)].
      * exists [m1]. rewrite Hm, Hm1. repeat split; auto; discriminate.
      * exists [m1; m2]. rewrite Hm2, Hm1, <- app_assoc. repeat split; auto; discriminate.
  - injection Hret as <- <-.
    apply bind_inv in H as [(e' & _ & [=])|(md1 & w1 & H1 & H)].
    apply save_message_appends in H1 as [[_ Hno]|(m1 & Hc1 & Hr1 & Hs1 & Hm1)];
      [now contradiction (Hno md1)|].
    apply bind_inv in H as [(e' & _ & [=])|(md2 & w2 & H2 & H)].
    injection H as <-.
    apply save_message_appends in H2 as [[_ Hno]|(m2 & Hc2 & Hr2 & Hs2 & Hm2)];
      [now contradiction (Hno md2)|].
    exists [m1; m2]. rewrite Hm2, Hm1, <- app_assoc.
    split; [reflexivity|]. split; [cbn; repeat split; assumption|].
    split; [constructor; [now left|constructor; [now right|constructor]]|].
    intros ar [= <-]. split; reflexivity.
Qed.

(** What a turn that returns has appended. *)
Lemma process_message_Return user_message user_id cid w ar w' :
  process_message rt user_message user_id (Some cid) w = (Return ar, w') ->
  exists m1 m2,
    messages w' = (messages w ++ [m1; m2])%list
    /\ Message.conversation_id m1 = cid /\ Message.role m1 = "user"
    /\ Message.content m1 = Py.strip user_message
    /\ Message.conversation_id m2 = cid /\ Message.role m2 = "assistant"
    /\ Message.content m2 = Py.strip (assistant_message ar).
Proof.
  rewrite process_message_phases. intros H.
  apply bind_inv in H as [(e & _ & [=])|(reply & w1 & Hr & H)].
  destruct (reply_phase_leaves_log rt _ _ _ _ _ _ Hr) as [Hm _].
  unfold persist_phase in H.
  apply bind_inv in H as [(e' & _ & [=])|([] & w3 & H & Hw)].
  apply bind_inv in H as [(e' & _ & [=])|(md1 & w4 & H1 & H)].
  apply bind_inv in H as [(e' & _ & [=])|(md2 & w5 & H2 & H)].
  injection H as Hw5. injection Hw as Har Hw3.
  apply save_message_Return in H1 as (_ & _ & _ & Hm1 & _).
  apply save_message_Return in H2 as (_ & _ & _ & Hm2 & _).
  eexists. eexists. split.
  - rewrite <- Hw3, <- Hw5, Hm2, Hm1, Hm, <- app_assoc. reflexivity.
  - rewrite <- Har. cbn. repeat split.
Qed.

(** X27.  A turn only ever appends to the message log: the messages
    that were there stay as they were and in place, and what is added
    is nothing, the user message, or the user message and then the
    reply, all on the conversation of the turn; a turn that returns
    has added both, with their contents trimmed. *)
Theorem turn_only_appends user_message user_id cid w o w' :
  process_message rt user_message user_id (Some cid) w = (o, w') ->
  exists new,
    messages w' = (messages w ++ new)%list
    /\ turn_messages cid new
    /\ (forall ar, o = Return ar ->
        exists m1 m2,
          new = [m1; m2] /\ Message.content m1 = Py.strip user_message
          /\ Message.content m2 = Py.strip (assistant_message ar)).
Proof.
  intros H0. pose proof H0 as H. rewrite process_message_phases in H.
  apply bind_inv in H as [(e & H & ->)|(reply & w1 & Hr & H)].
  - exists []. rewrite app_nil_r.
    destruct (reply_phase_leaves_log rt _ _ _ _ _ _ H) as [Hm _].
    split; [exact Hm|]. split; [exact I|]. discriminate.
  - destruct (reply_phase_leaves_log rt _ _ _ _ _ _ Hr) as [Hm _].
    destruct (persist_phase_appends _ _ _ _ _ _ H) as (new & Hn & Ht & Hc & Hret).
    exists new. rewrite Hn, Hm. split; [reflexivity|]. split; [exact Ht|].
    intros ar ->.
    apply process_message_Return in H0 as (m1 & m2 & Hm12 & _ & _ & C1 & _ & _ & C2).
    rewrite Hn, Hm in Hm12. apply app_inv_head in Hm12. now exists m1, m2.
Qed.

(** X28.  The chat endpoint turns a request down before it touches
    anything when the message is empty or longer than 10000 characters
    (status 422), and when the conversation id is given but is no UUID:
    that ValueError is caught nowhere, so the status is 500. *)
Theorem chat_rejects_malformed_requests request user_id w :
  ((String.length (message request) < 1)%nat
   \/ (10000 < N.of_nat (String.length (message request)))%N ->
   exists detail,
     chat rt request user_id w = (Raise (HTTPException 422 detail), w))
  /\ ((1 <= String.length (message request))%nat ->
      (N.of_nat (String.length (message request)) <= 10000)%N ->
      forall s,
        conversation_id request = Some s -> Py.truthy s = true ->
        uuid_of_str rt s = None ->
        exists text,
          chat rt request user_id w = (Raise (ValueError text), w)
          /\ status_code_of (fst (chat rt request user_id w)) = 500%nat).
Proof.
  split.
  - intros Hlen. eexists. unfold chat.
    destruct (Nat.ltb_spec (String.length (message request)) 1) as [_|H1]; [reflexivity|].
    destruct (N.ltb_spec 10000 (N.of_nat (String.length (message request)))) as [_|H2];
      [reflexivity|].
    exfalso. destruct Hlen; lia.
  - intros H1 H2 s Hs Ht Hu. eexists. unfold chat.
    destruct (Nat.ltb_spec (String.length (message request)) 1) as [|_]; [lia|].
    destruct (N.ltb_spec 10000 (N.of_nat (String.length (message request)))) as [|_]; [lia|].
    cbn [orb]. rewrite Hs. cbn [truthy_opt default from_option id]. rewrite Ht.
    unfold UUID_or_raise. rewrite Hu. split; reflexivity.
Qed.





Lemma history_same_tables cid uid w o w' :
  get_conversation_history rt cid uid w = (o, w') -> same_tables w w'.
Proof.
  unfold get_conversation_history, round_trip, bind, ret, get_world. cbn.
  destruct (db_fault rt (ops w)); cbn; [intros [= <- <-]; repeat split|].
  destruct (conversations w !! cid) as [c|]; cbn; [|intros [= <- <-]; repeat split].
  destruct (negb _); cbn; [intros [= <- <-]; repeat split|].
  destruct (db_fault rt (S (ops w))); cbn; intros [= <- <-]; repeat split.
Qed.




(** X30.  A chat request that is answered (status 200) has put the
    user message and then the reply at the end of the message log,
    both on the conversation the response names and both trimmed; the
    history of the response is read after that: it shows both and is
    made of messages of that conversation only.  The response echoes
    the user message as it was sent. *)
Theorem chat_response_shows_the_turn request uid w resp w' :
  chat rt request uid w = (Return resp, w') ->
  exists cid m1 m2,
    cr_conversation_id resp = str_of_uuid rt cid
    /\ cr_user_message resp = message request
    /\ messages w' = (messages w ++ [m1; m2])%list
    /\ Message.conversation_id m1 = cid /\ Message.role m1 = "user"
    /\ Message.content m1 = Py.strip (message request)
    /\ Message.conversation_id m2 = cid /\ Message.role m2 = "assistant"
    /\ Message.content m2 = Py.strip (cr_assistant_message resp)
    /\ In (history_entry rt m1) (cr_history resp)
    /\ In (history_entry rt m2) (cr_history resp)
    /\ forall e,
         In e (cr_history resp) ->
         exists m, In m (messages w') /\ Message.conversation_id m = cid
                   /\ e = history_entry rt m.
Proof.
  intros H. unfold chat in H.
  destruct (_ || _) in H; [discriminate|].
  apply bind_inv in H as [(e & _ & [=])|(cid & w0 & Hcid & H)].
  assert (Hm0 : messages w0 = messages w).
  { destruct (truthy_opt (conversation_id request)).
    - apply bind_inv in Hcid as [(e' & _ & [=])|(cid' & w1 & Hcid' & Hh)].
      unfold UUID_or_raise in Hcid'. destruct (uuid_of_str rt _); [|discriminate].
      injection Hcid' as _ <-.
      apply bind_inv in Hh as [(e' & _ & [=])|(h & w2 & Hh & Hr)].
      apply history_same_tables in Hh as (_ & _ & Hm).
      destruct h; [|discriminate]. now injection Hr as _ <-.
    - apply bind_inv in Hcid as [(e' & _ & [=])|(d & w1 & Hd & Hr)].
      apply create_conversation_Return in Hd as (_ & _ & Hm & _).
      unfold UUID_or_raise in Hr. destruct (uuid_of_str rt _); [|discriminate].
      now injection Hr as _ <-. }
  apply bind_inv in H as [(e & _ & [=])|(ar & w1 & Hp & H)].
  apply process_message_Return in Hp as (m1 & m2 & Hm12 & C1 & R1 & S1 & C2 & R2 & S2).
  apply bind_inv in H as [(e & _ & [=])|(fh & w2 & Hh & H)].
  destruct fh as [fh|]; [|discriminate]. injection H as <- <-.
  apply history_Some in Hh as (_ & -> & (_ & _ & Hm2) & _).
  exists cid, m1, m2. cbn.
  split; [reflexivity|]. split; [reflexivity|].
  split; [now rewrite Hm2, Hm12, Hm0|].
  do 6 (split; [assumption|]).
  assert (Hin : forall m, In m [m1; m2] ->
                          In (history_entry rt m)
                             (map (history_entry rt)
                                  (order_by_created_at rt (where_conversation cid (messages w1))))).
  { intros m Hm. apply List.in_map. apply order_by_created_at_In.
    unfold where_conversation. apply List.filter_In. split.
    - rewrite Hm12. apply List.in_or_app. now right.
    - apply N.eqb_eq. destruct Hm as [<-|[<-|[]]]; assumption. }
  split; [apply Hin; now left|]. split; [apply Hin; right; now left|].
  intros e He. apply List.in_map_iff in He as (m & <- & Hm).
  rewrite order_by_created_at_In in Hm. unfold where_conversation in Hm.
  rewrite List.filter_In, N.eqb_eq in Hm. destruct Hm as [Hm Hc].
  exists m. rewrite Hm2. auto.
Qed.

End Coverage.

(** * The further properties on the small database *)

(** X1 on the small database: a task id that is no UUID. *)
Lemma tool_failures_are_coded_witness :
  complete_task Demo.quiet "1" "zz" Demo.world
  = (Raise (ValueError "INVALID_TASK_ID: task_id must be a valid UUID"), Demo.world)
  /\ coded (ValueError "INVALID_TASK_ID: task_id must be a valid UUID") = true.
Proof.
  assert (H : complete_task Demo.quiet "1" "zz" Demo.world
              = (Raise (ValueError "INVALID_TASK_ID: task_id must be a valid UUID"),
                 Demo.world)) by (vm_compute; reflexivity).
  split; [exact H|].
  exact (proj1 (proj2 (proj2 (tool_failures_are_coded Demo.quiet Demo.world _ Demo.world)))
           "1" "zz" H).
Defined.

(** X2 on the small database: Bob's delete_task on Alice's task. *)
Lemma coded_failure_writes_nothing_witness :
  exists e w',
    delete_task Demo.quiet "2" "7" Demo.world = (Raise e, w')
    /\ is_database_error e = false
    /\ same_tables Demo.world w'.
Proof.
  eexists. eexists.
  assert (H : delete_task Demo.quiet "2" "7" Demo.world
              = (Raise (ValueError "TASK_NOT_FOUND: Task belongs to different user"),
                 after_round_trip Demo.world (EvSelectTask 7)))
    by (vm_compute; reflexivity).
  split; [exact H|]. split; [reflexivity|].
  exact (proj1 (proj2 (proj2 (proj2
    (coded_failure_writes_nothing Demo.quiet Demo.world
       (ValueError "TASK_NOT_FOUND: Task belongs to different user")
       (after_round_trip Demo.world (EvSelectTask 7)) eq_refl)))) "2" "7" H).
Defined.


Lemma well_keyed_world : well_keyed Demo.world.
Proof.
  intros k t. unfold Demo.world. cbn [tasks].
  intros H. apply lookup_singleton_Some in H as [<- <-]. reflexivity.
Qed.


(** X4 on the small database: Alice adds " Buy milk ". *)
Lemma add_task_stores_one_row_witness :
  exists r w' t,
    add_task Demo.quiet "1" (Some " Buy milk ") None None None Demo.world = (Return r, w')
    /\ tasks w' !! 100%N = Some t
    /\ Task.title t = "Buy milk" /\ Task.priority t = "medium" /\ Task.completed t = false.
Proof.
  eexists. eexists.
  edestruct (add_task_stores_one_row Demo.quiet "1" (Some " Buy milk ") None None None
               Demo.world) as (t & _ & Hins & _ & _ & Hid & _ & Ht & Hc & Hp & _);
    [vm_compute; reflexivity|].
  exists t. split; [vm_compute; reflexivity|].
  split; [rewrite Hins, Hid; apply lookup_insert_eq|].
  split; [exact Ht|]. split; [exact Hp | exact Hc].
Defined.

(** X5 on the database with three tasks: Alice lists her open tasks. *)
Lemma list_tasks_is_exact_witness :
  exists r w' rows,
    list_tasks Demo.quiet "1" (Some false) Cases.busy = (Return r, w')
    /\ r = ListResult (map (task_json Demo.quiet) rows) (length rows)
    /\ In Demo.groceries rows /\ ~ In Cases.laundry rows /\ ~ In Cases.rent rows
    /\ length rows = 1%nat.
Proof.
  eexists. eexists.
  edestruct (list_tasks_is_exact Demo.quiet "1" (Some false) Cases.busy)
    as (uid & rows & Hu & Hr & Hin & Hlen & _); [vm_compute; reflexivity|].
  vm_compute in Hu. injection Hu as <-.
  exists rows. split; [vm_compute; reflexivity|]. split; [exact Hr|].
  split; [|split; [|split]].
  - apply Hin. split; [exists 7%N; vm_compute; reflexivity|]. split; reflexivity.
  - intros H. apply Hin in H as (_ & _ & H). discriminate H.
  - intros H. apply Hin in H as (_ & H & _). discriminate H.
  - rewrite Hlen. vm_compute. reflexivity.
Defined.

(** X6 on the small database: Alice adds a task and lists her tasks. *)
Lemma added_task_is_listed_witness :
  exists r w1 rows w2 t,
    add_task Demo.quiet "1" (Some "Buy milk") None None None Demo.world = (Return r, w1)
    /\ list_tasks Demo.quiet "1" None w1
       = (Return (ListResult (map (task_json Demo.quiet) rows) (length rows)), w2)
    /\ In t rows
    /\ r = AddResult (j_task_id (task_json Demo.quiet t)) "created"
                     (j_title (task_json Demo.quiet t)) false
                     (j_priority (task_json Demo.quiet t))
                     (j_due_date (task_json Demo.quiet t))
                     (j_tags (task_json Demo.quiet t))
                     (j_created_at (task_json Demo.quiet t)).
Proof.
  eexists. eexists.
  edestruct (added_task_is_listed Demo.quiet "1" (Some "Buy milk") None None None Demo.world)
    as (rows & w2 & t & Hl & Hin & Hr);
    [vm_compute; reflexivity | reflexivity | left; reflexivity |].
  exists rows, w2, t. split; [vm_compute; reflexivity|].
  split; [exact Hl|]. split; [exact Hin | exact Hr].
Defined.

(** X7 on the small database: Alice deletes task 7 and then tries to
    complete it. *)
Lemma deleted_task_is_gone_witness :
  exists r w1 msg,
    delete_task Demo.quiet "1" "7" Demo.world = (Return r, w1)
    /\ tasks w1 = delete 7%N (tasks Demo.world)
    /\ complete_task Demo.quiet "1" "7" w1
       = (Raise (ValueError msg), after_round_trip w1 (EvSelectTask 7))
    /\ Py.contains "TASK_NOT_FOUND" msg = true.
Proof.
  eexists. eexists.
  edestruct (deleted_task_is_gone Demo.quiet "1" "7" Demo.world)
    as (uid & tid & _ & Ht & Hdel & _ & (msg & Hc & Hm) & _);
    [exact well_keyed_world | vm_compute; reflexivity | reflexivity |].
  vm_compute in Ht. injection Ht as <-.
  exists msg. split; [vm_compute; reflexivity|].
  split; [exact Hdel|]. split; [exact Hc | exact Hm].
Defined.

(** X8 on the small database: the history of conversation 50. *)
Lemma history_is_the_conversation_witness :
  exists h w' rows,
    get_conversation_history Demo.quiet 50 Demo.alice Demo.world = (Return (Some h), w')
    /\ h = map (history_entry Demo.quiet) rows
    /\ rows ≡ₚ Demo.earlier.
Proof.
  eexists. eexists.
  edestruct (history_is_the_conversation Demo.quiet 50 Demo.alice Demo.world)
    as (rows & Hh & Hp & _); [vm_compute; reflexivity|].
  exists rows. split; [vm_compute; reflexivity|]. split; [exact Hh | exact Hp].
Defined.


(** X10 on the small database: Bob opens a conversation. *)
Lemma new_conversation_is_the_callers_witness :
  exists d w1,
    create_conversation Demo.quiet Demo.bob Demo.world = (Return d, w1)
    /\ cd_conversation_id d = "100"
    /\ fst (get_conversation_history Demo.quiet 100 Demo.bob w1) = Return (Some [])
    /\ fst (get_conversation_history Demo.quiet 100 Demo.alice w1) = Return None.
Proof.
  eexists. eexists.
  edestruct (new_conversation_is_the_callers Demo.quiet Demo.bob Demo.world)
    as (_ & Hd & Hown & Hother); [vm_compute; reflexivity | intros k _; reflexivity |].
  split; [vm_compute; reflexivity|]. split; [exact Hd|].
  split; [apply Hown; reflexivity | apply Hother; discriminate].
Defined.

(** X11 on the small database: the reasoning service answers with
    white space. *)
Lemma blank_reply_persists_user_message_only_witness :
  exists w',
    process_message Cases.whispering "hi" Demo.alice (Some 50%N) Demo.world
    = (Raise (ValueError "Message content cannot be empty"), w')
    /\ messages w' = (messages Demo.world ++ [Message.mk 100 50 "user" "hi" 1000])%list.
Proof.
  eexists.
  edestruct (blank_reply_persists_user_message_only Cases.whispering "hi" Demo.alice 50%N
               Demo.world) as (Hp & Hm);
    [ vm_compute; reflexivity | vm_compute; reflexivity | vm_compute; reflexivity
    | intros k _; reflexivity | vm_compute; reflexivity | ].
  split; [exact Hp | exact Hm].
Defined.

(** X12 on the small database: a turn without a conversation that
    completes task 7. *)
Lemma turn_without_conversation_persists_nothing_witness :
  messages (snd (process_message Demo.completing "done 7" Demo.alice None Demo.world))
  = messages Demo.world.
Proof.
  exact (proj1 (turn_without_conversation_persists_nothing Demo.completing "done 7"
                  Demo.alice Demo.world _ _ (surjective_pairing _))).
Defined.

(** X13 on the small database: a call of a tool that does not exist. *)
Lemma refused_calls_touch_nothing_witness :
  _process_openai_response Cases.confused (Demo.call "archive_task" []) Demo.alice Demo.world
  = (Return "Sorry, I encountered an error: Unknown tool: archive_task", Demo.world).
Proof.
  exact (proj1 (refused_calls_touch_nothing Cases.confused (Demo.call "archive_task" [])
                  _ _ _ Demo.alice Demo.world eq_refl eq_refl) eq_refl).
Defined.


(** X15 on the small database: Bob asks the service for Alice's task 7
    and for a task 8 that does not exist. *)
Lemma service_hides_foreign_tasks_witness :
  not_owned Demo.world 7 Demo.bob /\ not_owned Demo.world 8 Demo.bob
  /\ TaskService.delete_task Demo.quiet 7 Demo.bob Demo.world
     = (Return None, after_round_trip Demo.world (EvSelectTask 7))
  /\ TaskService.delete_task Demo.quiet 8 Demo.bob Demo.world
     = (Return None, after_round_trip Demo.world (EvSelectTask 8)).
Proof.
  assert (H7 : not_owned Demo.world 7 Demo.bob) by (vm_compute; discriminate).
  assert (H8 : not_owned Demo.world 8 Demo.bob) by (vm_compute; exact I).
  split; [exact H7|]. split; [exact H8|]. split.
  - exact (proj2 (proj2 (proj2
      (service_hides_foreign_tasks Demo.quiet 7%N Demo.bob Demo.world eq_refl H7)))).
  - exact (proj2 (proj2 (proj2
      (service_hides_foreign_tasks Demo.quiet 8%N Demo.bob Demo.world eq_refl H8)))).
Defined.

(** X16 on the small database: Bob creates a task with a blank title
    through the service. *)
Lemma service_create_then_get_witness :
  exists d w1,
    TaskService.create_task Demo.quiet Demo.bob "  " Demo.world = (Return d, w1)
    /\ TaskService.td_title d = "  "
    /\ fst (TaskService.get_task Demo.quiet 100 Demo.bob w1) = Return (Some d)
    /\ fst (TaskService.get_task Demo.quiet 100 Demo.alice w1) = Return None.
Proof.
  eexists. eexists.
  edestruct (service_create_then_get Demo.quiet Demo.bob "  " Demo.world)
    as (Hd & _ & Hown & Hother); [vm_compute; reflexivity | reflexivity |].
  split; [vm_compute; reflexivity|]. split; [rewrite Hd; reflexivity|].
  split; [exact Hown | apply Hother; discriminate].
Defined.

(** X17 on the small database: Alice deletes task 7 through the
    service. *)
Lemma service_delete_then_get_witness :
  exists d w1,
    TaskService.delete_task Demo.quiet 7 Demo.alice Demo.world = (Return (Some d), w1)
    /\ d = TaskService.task_dict Demo.quiet Demo.groceries
    /\ tasks w1 = delete 7%N (tasks Demo.world)
    /\ fst (TaskService.get_task Demo.quiet 7 Demo.alice w1) = Return None.
Proof.
  eexists. eexists.
  edestruct (service_delete_then_get Demo.quiet 7%N Demo.alice Demo.world)
    as (t & Hl & _ & Hd & Ht & Hg);
    [exact well_keyed_world | vm_compute; reflexivity | reflexivity |].
  vm_compute in Hl. injection Hl as <-.
  split; [vm_compute; reflexivity|]. split; [exact Hd|]. split; [exact Ht | exact Hg].
Defined.

(** X18 on the small database: Alice completes task 7 through the
    service. *)
Lemma service_complete_task_witness :
  exists stamp w1,
    TaskService.complete_task Demo.quiet 7 Demo.alice Demo.world
    = (Return (Some {| TaskService.td_task_id := "7"; TaskService.td_user_id := "1";
                       TaskService.td_title := "Buy groceries";
                       TaskService.td_completed := true |}), w1)
    /\ tasks w1 = <[7%N := completed_at Demo.groceries stamp]> (tasks Demo.world).
Proof.
  destruct (service_complete_task Demo.quiet 7%N Demo.alice Demo.groceries Demo.world
              eq_refl eq_refl eq_refl (fun k _ => eq_refl))
    as (stamp & w1 & H & Ht & _).
  exists stamp, w1. split; [exact H | exact Ht].
Defined.

(** X19 on the small database: Alice gives task 7 a blank title through
    the service. *)
Lemma service_update_task_sets_title_witness :
  exists stamp w1,
    TaskService.update_task Demo.quiet 7 Demo.alice "   " Demo.world
    = (Return (Some {| TaskService.td_task_id := "7"; TaskService.td_user_id := "1";
                       TaskService.td_title := "   ";
                       TaskService.td_completed := false |}), w1)
    /\ tasks w1 = <[7%N := retitled Demo.groceries "   " stamp]> (tasks Demo.world).
Proof.
  destruct (service_update_task_sets_title Demo.quiet 7%N Demo.alice Demo.groceries "   "
              Demo.world eq_refl eq_refl eq_refl ltac:(vm_compute; lia) (fun k _ => eq_refl))
    as (stamp & w1 & H & Ht & _).
  exists stamp, w1. split; [exact H | exact Ht].
Defined.

(** X20 on a database whose all-zero id is taken: Bob's legacy create. *)
Lemma legacy_create_has_one_slot_witness :
  exists e w1,
    TaskService.create Demo.quiet Demo.bob "Second" Cases.taken = (Raise e, w1)
    /\ same_tables Cases.taken w1.
Proof.
  destruct (TaskService.create Demo.quiet Demo.bob "Second" Cases.taken) as [o w1] eqn:E.
  destruct (proj2 (legacy_create_has_one_slot Demo.quiet Demo.bob "Second" Cases.taken)
              Cases.placeholder o w1 eq_refl E) as ((e & ->) & Hs).
  exists e, w1. split; [reflexivity | exact Hs].
Defined.

(** X21 on the small database: Bob's PUT on Alice's task 7. *)
Lemma rest_writes_stay_with_the_caller_witness :
  tool_frame Demo.bob Demo.world
    (snd (api_update_task Demo.quiet 7 Demo.no_update Demo.bob Demo.world)).
Proof.
  exact (proj1 (proj2 (rest_writes_stay_with_the_caller Demo.quiet Demo.bob))
           7%N Demo.no_update Demo.world _ _ (surjective_pairing _)).
Defined.


(** X23 on the small database: Bob creates a task and lists his tasks. *)
Lemma rest_create_then_list_witness :
  exists t w1 l w2,
    api_create_task Demo.quiet Cases.plain Demo.bob Demo.world = (Return t, w1)
    /\ api_list_tasks Demo.quiet None Demo.bob w1 = (Return l, w2)
    /\ In t (tl_tasks l) /\ tl_count l = 1%nat.
Proof.
  eexists. eexists.
  edestruct (rest_create_then_list Demo.quiet Cases.plain Demo.bob Demo.world)
    as (_ & _ & l & w2 & Hl & Hin & Hc);
    [vm_compute; reflexivity | reflexivity | left; reflexivity |].
  exists l, w2. split; [vm_compute; reflexivity|].
  split; [exact Hl|]. split; [exact Hin | exact Hc].
Defined.

(** X24 on the small database: a blank title and the priority
    "urgent". *)
Lemma rest_create_stores_body_as_given_witness :
  create_body_ok Cases.urgent
  /\ exists t w1,
       api_create_task Demo.quiet Cases.urgent Demo.alice Demo.world = (Return t, w1)
       /\ Task.title t = "   " /\ Task.priority t = "urgent" /\ ~ valid_row t.
Proof.
  assert (Hb : create_body_ok Cases.urgent) by (vm_compute; lia).
  split; [exact Hb|].
  destruct (rest_create_stores_body_as_given Demo.quiet Cases.urgent Demo.alice Demo.world
              Hb (fun k _ => eq_refl) eq_refl) as (t & w1 & H & _ & Ht & Hp & Hv).
  exists t, w1. split; [exact H|]. split; [exact Ht|]. split; [exact Hp|].
  apply Hv; reflexivity.
Defined.

(** X25 on the small database: Alice deletes task 7, then Bob's PUT
    with a new title, and his PUT with an empty one. *)
Lemma rest_delete_then_not_found_witness :
  exists w1,
    api_delete_task Demo.quiet 7 Demo.alice Demo.world = (Return tt, w1)
    /\ status_code_of (fst (api_update_task Demo.quiet 7 Cases.renamed Demo.bob w1))
       = 404%nat
    /\ status_code_of (fst (api_update_task Demo.quiet 7 Cases.untitled Demo.bob w1))
       = 422%nat.
Proof.
  eexists.
  edestruct (rest_delete_then_not_found Demo.quiet 7%N Demo.alice Demo.world)
    as (_ & H); [exact well_keyed_world | vm_compute; reflexivity | reflexivity |].
  split; [vm_compute; reflexivity|]. split.
  - rewrite (proj1 (proj2 (H Demo.bob Cases.renamed)) eq_refl). reflexivity.
  - destruct (proj2 (proj2 (H Demo.bob Cases.untitled)) eq_refl) as (detail & ->).
    reflexivity.
Defined.

(** X26 on the database with three tasks: Alice's tasks through the
    tool, the service and the REST handler. *)
Lemma listings_agree_witness :
  exists r w1 ds w2 l w3 rows_t rows_s,
    list_tasks Demo.quiet "1" None Cases.busy = (Return r, w1)
    /\ TaskService.list_tasks Demo.quiet Demo.alice None Cases.busy = (Return ds, w2)
    /\ api_list_tasks Demo.quiet None Demo.alice Cases.busy = (Return l, w3)
    /\ r = ListResult (map (task_json Demo.quiet) rows_t) (length rows_t)
    /\ ds = map (TaskService.task_dict Demo.quiet) rows_s
    /\ rows_t ≡ₚ rows_s /\ tl_tasks l ≡ₚ rows_t /\ tl_count l = length rows_t.
Proof.
  do 6 eexists.
  edestruct (listings_agree Demo.quiet "1" Demo.alice None Cases.busy)
    as (rows_t & rows_s & Hr & Hd & Hp & Hl & Hc & _);
    [ reflexivity | vm_compute; reflexivity | vm_compute; reflexivity
    | vm_compute; reflexivity | ].
  exists rows_t, rows_s.
  split; [vm_compute; reflexivity|]. split; [vm_compute; reflexivity|].
  split; [vm_compute; reflexivity|]. split; [exact Hr|]. split; [exact Hd|].
  split; [exact Hp|]. split; [exact Hl | exact Hc].
Defined.

(** X27 on the small database: a turn that completes task 7. *)
Lemma turn_only_appends_witness :
  exists ar w' m1 m2,
    process_message Demo.completing "done 7" Demo.alice (Some 50%N) Demo.world
    = (Return ar, w')
    /\ messages w' = (messages Demo.world ++ [m1; m2])%list
    /\ Message.content m1 = "done 7"
    /\ Message.content m2 = "I've marked the task 'Buy groceries' as completed.".
Proof.
  eexists. eexists.
  edestruct (turn_only_appends Demo.completing "done 7" Demo.alice 50%N Demo.world)
    as (new & Hm & _ & Hret); [vm_compute; reflexivity|].
  destruct (Hret _ eq_refl) as (m1 & m2 & -> & C1 & C2).
  exists m1, m2. split; [vm_compute; reflexivity|]. split; [exact Hm|].
  split; [exact C1 | exact C2].
Defined.

(** X28 on the small database: a conversation id that is no UUID. *)
Lemma chat_rejects_malformed_requests_witness :
  exists text,
    chat Demo.quiet {| message := "hi"; conversation_id := Some "zz" |} Demo.alice Demo.world
    = (Raise (ValueError text), Demo.world).
Proof.
  destruct (proj2 (chat_rejects_malformed_requests Demo.quiet
                     {| message := "hi"; conversation_id := Some "zz" |}
                     Demo.alice Demo.world)
              ltac:(vm_compute; lia) ltac:(vm_compute; discriminate) "zz"
              eq_refl eq_refl eq_refl) as (text & H & _).
  exists text. exact H.
Defined.


(** X30 on the small database: Alice says " hi " in conversation 50. *)
Lemma chat_response_shows_the_turn_witness :
  exists resp w' m1 m2,
    chat Demo.quiet {| message := " hi "; conversation_id := Some "50" |} Demo.alice
         Demo.world = (Return resp, w')
    /\ cr_user_message resp = " hi "
    /\ messages w' = (messages Demo.world ++ [m1; m2])%list
    /\ Message.content m1 = "hi"
    /\ In (history_entry Demo.quiet m1) (cr_history resp)
    /\ In (history_entry Demo.quiet m2) (cr_history resp).
Proof.
  eexists. eexists.
  edestruct (chat_response_shows_the_turn Demo.quiet
               {| message := " hi "; conversation_id := Some "50" |} Demo.alice Demo.world)
    as (cid & m1 & m2 & _ & Hu & Hm & _ & _ & C1 & _ & _ & _ & I1 & I2 & _);
    [vm_compute; reflexivity|].
  exists m1, m2. split; [vm_compute; reflexivity|]. split; [exact Hu|].
  split; [exact Hm|]. split; [exact C1|]. split; [exact I1 | exact I2].
Defined.
